(** * The editor minimap: layout, render reuse, line rasterizer, slider drag

    A shallow embedding of [src/vs/editor/browser/viewParts/minimap/minimap.ts]
    and the properties its specification states about it.

    Two kinds of numeric data occur in the source and are kept apart here.

    - The layout arithmetic ([MinimapOptions], [MinimapLayout.create], the
      drag callback) divides and multiplies JavaScript numbers.  They are
      modelled by [number]: a rational, or one of the three special values
      [+Infinity], [-Infinity], [NaN], with the IEEE rules for the special
      values (a quotient by zero, [0 * Infinity], [Infinity - Infinity],
      comparisons with [NaN]).  The operations of [Number] give the exact
      rational results, which is what the code computes on whole numbers
      and what the properties on order and on whole line numbers rest on;
      [Binary64] rounds a result to the nearest binary64 value, and
      [MinimapLayout64.create] is the layout with every result rounded,
      for the properties that the rounding decides.  The negative zero is
      identified with zero (a zero divisor divides like [+0], which is the
      value of [x - x] for finite [x]).

    - The rendering code ([_renderUntouchedLines], [_renderLine], the loop
      of [render]) indexes arrays and typed arrays by line numbers, pixel
      offsets and column counts; these are integers, modelled by [Z].

    The view part is modelled as far as its frames go: its options, the
    frame it saved and its two buffers, with [render] as a function from
    state to state that returns an error where the source throws.  The DOM
    nodes, the theming and the handlers of view events are left out, and
    the collaborators (view model, colour tracker, character renderer) are
    parameters. *)

From Stdlib Require Import ZArith QArith Qround Qabs Qpower Lia Lqa Bool.
From stdpp Require Import base list.

Set Default Proof Using "Type".

(** ** JavaScript numbers *)

Module Number.

Inductive number : Type :=
  | Fin (q : Q)
  | PInf
  | NInf
  | NaN.

Definition of_Z (z : Z) : number := Fin (inject_Z z).

Definition is_finite (x : number) : bool :=
  match x with Fin _ => true | _ => false end.

(** The infinity with the sign of [q], and [zero] when [q] is zero. *)
Definition signed_inf (q : Q) (zero : number) : number :=
  match (q ?= 0)%Q with
  | Eq => zero
  | Gt => PInf
  | Lt => NInf
  end.

Definition neg (x : number) : number :=
  match x with
  | Fin q => Fin (- q)
  | PInf => NInf
  | NInf => PInf
  | NaN => NaN
  end.

Definition add (x y : number) : number :=
  match x, y with
  | NaN, _ | _, NaN => NaN
  | Fin a, Fin b => Fin (a + b)
  | PInf, NInf | NInf, PInf => NaN
  | PInf, _ | _, PInf => PInf
  | NInf, _ | _, NInf => NInf
  end.

Definition sub (x y : number) : number := add x (neg y).

Definition mul (x y : number) : number :=
  match x, y with
  | NaN, _ | _, NaN => NaN
  | Fin a, Fin b => Fin (a * b)
  | Fin a, PInf | PInf, Fin a => signed_inf a NaN
  | Fin a, NInf | NInf, Fin a => neg (signed_inf a NaN)
  | PInf, PInf | NInf, NInf => PInf
  | PInf, NInf | NInf, PInf => NInf
  end.

Definition div (x y : number) : number :=
  match x, y with
  | NaN, _ | _, NaN => NaN
  | Fin a, Fin b =>
      match (b ?= 0)%Q with
      | Eq => signed_inf a NaN
      | _ => Fin (a / b)
      end
  | Fin _, (PInf | NInf) => Fin 0
  | PInf, Fin b => match (b ?= 0)%Q with Lt => NInf | _ => PInf end
  | NInf, Fin b => match (b ?= 0)%Q with Lt => PInf | _ => NInf end
  | (PInf | NInf), (PInf | NInf) => NaN
  end.

(** [Math.floor], [Math.round] (halves go up) and [Math.abs]. *)
Definition floor (x : number) : number :=
  match x with
  | Fin q => of_Z (Qfloor q)
  | _ => x
  end.

Definition round (x : number) : number :=
  match x with
  | Fin q => of_Z (Qfloor (q + (1 # 2)))
  | _ => x
  end.

Definition abs (x : number) : number :=
  match x with
  | Fin q => Fin (Qabs q)
  | PInf | NInf => PInf
  | NaN => NaN
  end.

(** The relational operators; every comparison with [NaN] is [false]. *)
Definition ltb (x y : number) : bool :=
  match x, y with
  | NaN, _ | _, NaN => false
  | Fin a, Fin b => match (a ?= b)%Q with Lt => true | _ => false end
  | NInf, (Fin _ | PInf) => true
  | Fin _, PInf => true
  | _, _ => false
  end.

(** [x === y] *)
Definition strict_eqb (x y : number) : bool :=
  match x, y with
  | Fin a, Fin b => Qeq_bool a b
  | PInf, PInf | NInf, NInf => true
  | _, _ => false
  end.

Definition leb (x y : number) : bool := ltb x y || strict_eqb x y.
Definition gtb (x y : number) : bool := ltb y x.
Definition geb (x y : number) : bool := leb y x.

(** [Math.min] and [Math.max] of two arguments. *)
Definition min (x y : number) : number :=
  match x, y with
  | NaN, _ | _, NaN => NaN
  | _, _ => if ltb y x then y else x
  end.

Definition max (x y : number) : number :=
  match x, y with
  | NaN, _ | _, NaN => NaN
  | _, _ => if ltb x y then y else x
  end.

(** The integer a number denotes, when it is a finite integer. *)
Definition to_integer (x : number) : option Z :=
  match x with
  | Fin q => if Qeq_bool q (inject_Z (Qfloor q)) then Some (Qfloor q) else None
  | _ => None
  end.

End Number.

Import Number.

Declare Scope number_scope.
Delimit Scope number_scope with num.
Bind Scope number_scope with number.
Infix "+" := add : number_scope.
Infix "-" := sub : number_scope.
Infix "*" := mul : number_scope.
Infix "/" := div : number_scope.
Infix "<?" := ltb : number_scope.
Infix "<=?" := leb : number_scope.
Infix ">?" := gtb : number_scope.
Infix ">=?" := geb : number_scope.
Infix "===" := strict_eqb (at level 70, no associativity) : number_scope.

(** ** Options and layout *)

(** [Constants] of [vs/editor/common/view/minimapCharRenderer], whose
    declaration is not among the sources: the glyph cell sizes of the two
    zoom levels are parameters of the development. *)
Record Constants : Type := {
  x1_CHAR_HEIGHT : Z;
  x1_CHAR_WIDTH : Z;
  x2_CHAR_HEIGHT : Z;
  x2_CHAR_WIDTH : Z
}.

(** Cell sizes are positive numbers of device pixels. *)
Definition positive_cells (K : Constants) : Prop :=
  (0 < x1_CHAR_HEIGHT K)%Z /\ (0 < x1_CHAR_WIDTH K)%Z /\
  (0 < x2_CHAR_HEIGHT K)%Z /\ (0 < x2_CHAR_WIDTH K)%Z.

Inductive RenderMinimap : Type :=
  | None_
  | Small
  | Large
  | SmallBlocks
  | LargeBlocks.

Inductive ShowSlider : Type :=
  | always
  | mouseover.

Definition getMinimapLineHeight (K : Constants) (renderMinimap : RenderMinimap) : Z :=
  match renderMinimap with
  | Large => x2_CHAR_HEIGHT K
  | LargeBlocks => x2_CHAR_HEIGHT K + 2
  | Small => x1_CHAR_HEIGHT K
  | _ => x1_CHAR_HEIGHT K + 1
  end.

Definition getMinimapCharWidth (K : Constants) (renderMinimap : RenderMinimap) : Z :=
  match renderMinimap with
  | Large => x2_CHAR_WIDTH K
  | LargeBlocks => x2_CHAR_WIDTH K
  | Small => x1_CHAR_WIDTH K
  | _ => x1_CHAR_WIDTH K
  end.

(** The orthogonal distance to the slider at which dragging resets. *)
Definition MOUSE_DRAG_RESET_DISTANCE : number := of_Z 140.

Record MinimapOptions : Type := {
  renderMinimap : RenderMinimap;
  showSlider : ShowSlider;
  pixelRatio : number;
  lineHeight : number;
  minimapWidth : number;
  minimapHeight : number;
  canvasInnerWidth : number;
  canvasInnerHeight : number;
  canvasOuterWidth : number;
  canvasOuterHeight : number
}.

(** The part of the editor configuration the constructor of
    [MinimapOptions] reads. *)
Record IConfiguration : Type := {
  cfg_pixelRatio : number;
  cfg_lineHeight : number;
  cfg_renderMinimap : RenderMinimap;
  cfg_showSlider : ShowSlider;
  cfg_minimapWidth : number;
  cfg_height : number
}.

Definition new_MinimapOptions (configuration : IConfiguration) : MinimapOptions :=
  let pixelRatio := cfg_pixelRatio configuration in
  let minimapWidth := cfg_minimapWidth configuration in
  let minimapHeight := cfg_height configuration in
  let canvasInnerWidth := floor (pixelRatio * minimapWidth) in
  let canvasInnerHeight := floor (pixelRatio * minimapHeight) in
  {| renderMinimap := cfg_renderMinimap configuration;
     showSlider := cfg_showSlider configuration;
     pixelRatio := pixelRatio;
     lineHeight := cfg_lineHeight configuration;
     minimapWidth := minimapWidth;
     minimapHeight := minimapHeight;
     canvasInnerWidth := canvasInnerWidth;
     canvasInnerHeight := canvasInnerHeight;
     canvasOuterWidth := canvasInnerWidth / pixelRatio;
     canvasOuterHeight := canvasInnerHeight / pixelRatio |}%num.

Module MinimapLayout.

Record t : Type := new {
  scrollTop : number;
  _computedSliderRatio : number;
  sliderTop : number;
  sliderHeight : number;
  startLineNumber : number;
  endLineNumber : number
}.

(** Compute a desired scroll position such that the slider moves by [delta]. *)
Definition getDesiredScrollTopFromDelta (this : t) (delta : number) : number :=
  let desiredSliderPosition := (sliderTop this + delta)%num in
  round (desiredSliderPosition / _computedSliderRatio this).

Definition create (K : Constants) (options : MinimapOptions)
    (viewportStartLineNumber viewportEndLineNumber viewportHeight : number)
    (viewportContainsWhitespaceGaps : bool)
    (lineCount scrollbarSliderCenter scrollTop scrollHeight : number) : t :=
  let pixelRatio := pixelRatio options in
  let minimapLineHeight := of_Z (getMinimapLineHeight K (renderMinimap options)) in
  let minimapLinesFitting := floor (canvasInnerHeight options / minimapLineHeight) in
  let lineHeight := lineHeight options in
  let sliderHeight :=
    if viewportContainsWhitespaceGaps && negb (viewportEndLineNumber === lineCount)%num
    then
      let viewportLineCount :=
        (viewportEndLineNumber - viewportStartLineNumber + of_Z 1)%num in
      floor (viewportLineCount * minimapLineHeight / pixelRatio)
    else
      let expectedViewportLineCount := (viewportHeight / lineHeight)%num in
      floor (expectedViewportLineCount * minimapLineHeight / pixelRatio) in
  let maxMinimapSliderTop :=
    min (minimapHeight options - sliderHeight)
        ((lineCount - of_Z 1) * minimapLineHeight / pixelRatio) in
  let computedSliderRatio :=
    (maxMinimapSliderTop / (scrollHeight - viewportHeight))%num in
  let sliderTop := (scrollTop * computedSliderRatio)%num in
  if (minimapLinesFitting >=? lineCount)%num then
    let startLineNumber := of_Z 1 in
    let endLineNumber := lineCount in
    new scrollTop computedSliderRatio sliderTop sliderHeight
        startLineNumber endLineNumber
  else
    let startLineNumber :=
      max (of_Z 1)
          (floor (viewportStartLineNumber
                  - sliderTop * pixelRatio / minimapLineHeight)) in
    let endLineNumber :=
      min lineCount (startLineNumber + minimapLinesFitting - of_Z 1) in
    new scrollTop computedSliderRatio sliderTop sliderHeight
        startLineNumber endLineNumber.

End MinimapLayout.

(** ** Exceptions *)

(** [RangeError] is what [TypedArray.prototype.set] throws when the source
    does not fit at the offset.  [NonIntegral] marks the edge of the model:
    a line number or a buffer size computed by the layout arithmetic that
    is not a finite integer, which the integer model of the rendering code
    does not cover. *)
Inductive exn : Type :=
  | RangeError
  | NonIntegral.

Inductive result (A : Type) : Type :=
  | Ok (a : A)
  | Throw (e : exn).
Arguments Ok {A} a.
Arguments Throw {A} e.

Definition bind {A B : Type} (m : result A) (f : A -> result B) : result B :=
  match m with
  | Ok a => f a
  | Throw e => Throw e
  end.

Notation "'let*' x ':=' m 'in' k" := (bind m (fun x => k))
  (at level 10, x name, m at level 100, k at level 200, only parsing).

Definition integer (x : number) : result Z :=
  match to_integer x with
  | Some z => Ok z
  | None => Throw NonIntegral
  end.

(** ** Arrays and pixel buffers *)

(** [a[i] = v] on a JavaScript array used as a dense list: an index past
    the end extends the array, the skipped slots reading as [hole]; a
    negative index is no element of the array. *)
Definition array_store {A : Type} (hole : A) (a : list A) (i : Z) (v : A) : list A :=
  if (i <? 0)%Z then a
  else if (i <? Z.of_nat (length a))%Z
  then <[Z.to_nat i := v]> a
  else a ++ replicate (Z.to_nat i - length a) hole ++ [v].

(** [a[i]] on an array of booleans in a condition: [undefined] is falsy. *)
Definition truthy_at (a : list bool) (i : Z) : bool :=
  if (i <? 0)%Z then false else default false (a !! Z.to_nat i).

Definition Uint8ClampedArray : Type := list Byte.byte.

(** A begin or end index of [subarray]: negative indices count from the
    end, and the result is clamped to the array. *)
Definition clamp_index (len i : Z) : Z :=
  if (i <? 0)%Z then Z.max (len + i) 0 else Z.min i len.

Definition subarray (a : Uint8ClampedArray) (begin end_ : Z) : Uint8ClampedArray :=
  let len := Z.of_nat (length a) in
  let b := clamp_index len begin in
  let e := clamp_index len end_ in
  take (Z.to_nat (e - b)) (drop (Z.to_nat b) a).

(** [target.set(source, offset)] *)
Definition set (target source : Uint8ClampedArray) (offset : Z) : result Uint8ClampedArray :=
  if ((0 <=? offset) && (offset + Z.of_nat (length source) <=? Z.of_nat (length target)))%Z
  then Ok (take (Z.to_nat offset) target ++ source
           ++ drop (Z.to_nat offset + length source) target)
  else Throw RangeError.

Record ImageData : Type := {
  width : Z;
  height : Z;
  data : Uint8ClampedArray
}.

Definition with_data (img : ImageData) (d : Uint8ClampedArray) : ImageData :=
  {| width := width img; height := height img; data := d |}.

(** [ctx.createImageData(WIDTH, HEIGHT)]: transparent black. *)
Definition createImageData (WIDTH HEIGHT : Z) : ImageData :=
  {| width := WIDTH; height := HEIGHT;
     data := replicate (Z.to_nat (WIDTH * HEIGHT * 4)) Byte.x00 |}.

Record RGBA : Type := {
  r : Byte.byte;
  g : Byte.byte;
  b : Byte.byte;
  a : Byte.byte
}.

(** ** The two buffers *)

(** The two [ImageData] objects of a [MinimapBuffers] are mutated in place
    and referred to from the saved [RenderData]; a reference to one of them
    is its [Slot], and reading or writing the object goes through the pair
    that holds both. *)
Inductive Slot : Type :=
  | slot0
  | slot1.

(** [1 - i] *)
Definition other (i : Slot) : Slot :=
  match i with slot0 => slot1 | slot1 => slot0 end.

Definition Buffers : Type := (ImageData * ImageData)%type.

Definition deref (bufs : Buffers) (i : Slot) : ImageData :=
  match i with slot0 => fst bufs | slot1 => snd bufs end.

Definition assign (bufs : Buffers) (i : Slot) (img : ImageData) : Buffers :=
  match i with slot0 => (img, snd bufs) | slot1 => (fst bufs, img) end.

Record MinimapBuffers : Type := {
  _backgroundFillData : Uint8ClampedArray;
  _buffers : Buffers;
  _lastUsedBuffer : Slot
}.

Fixpoint fill_pixels (n : nat) (background : RGBA) : Uint8ClampedArray :=
  match n with
  | O => []
  | S n' => r background :: g background :: b background :: Byte.xff
            :: fill_pixels n' background
  end.

(** The nested loops write [WIDTH] pixels for each of [HEIGHT] rows, at
    consecutive offsets. *)
Definition _createBackgroundFillData (WIDTH HEIGHT : Z) (background : RGBA) : Uint8ClampedArray :=
  fill_pixels (Z.to_nat HEIGHT * Z.to_nat WIDTH) background.

Definition new_MinimapBuffers (WIDTH HEIGHT : Z) (background : RGBA) : MinimapBuffers :=
  {| _backgroundFillData := _createBackgroundFillData WIDTH HEIGHT background;
     _buffers := (createImageData WIDTH HEIGHT, createImageData WIDTH HEIGHT);
     _lastUsedBuffer := slot0 |}.

(** Rotates the buffers and fills the one handed out with the background
    colour; the result is the updated object and the reference handed out. *)
Definition getBuffer (this : MinimapBuffers) : result (MinimapBuffers * Slot) :=
  let lastUsedBuffer := other (_lastUsedBuffer this) in
  let result := deref (_buffers this) lastUsedBuffer in
  let* d := set (data result) (_backgroundFillData this) 0 in
  Ok ({| _backgroundFillData := _backgroundFillData this;
         _buffers := assign (_buffers this) lastUsedBuffer (with_data result d);
         _lastUsedBuffer := lastUsedBuffer |},
      lastUsedBuffer).

(** ** Rendered-row records *)

Record MinimapLine : Type := new_MinimapLine {
  dy : Z
}.

Definition INVALID : MinimapLine := new_MinimapLine (-1).

(** Modelled from the spec: [RenderedLinesCollection] of
    [vs/editor/browser/view/viewLayer] is not among the sources.  The
    records are kept in a line-number-indexed structure anchored at the
    first rendered line of the frame; [_set] stores that line number with
    the records and [_get] hands both back. *)
Record RenderedLinesCollection : Type := {
  rendLineNumberStart : Z;
  lines : list MinimapLine
}.

Definition _set (rendLineNumberStart : Z) (lines : list MinimapLine) : RenderedLinesCollection :=
  {| rendLineNumberStart := rendLineNumberStart; lines := lines |}.

(** The image of a [RenderData] is a reference to one of the two buffers. *)
Record RenderData : Type := {
  renderedLayout : MinimapLayout.t;
  _imageData : Slot;
  _renderedLines : RenderedLinesCollection
}.

Definition new_RenderData (renderedLayout : MinimapLayout.t) (imageData : Slot)
    (lines : list MinimapLine) : result RenderData :=
  let* startLineNumber := integer (MinimapLayout.startLineNumber renderedLayout) in
  Ok {| renderedLayout := renderedLayout;
        _imageData := imageData;
        _renderedLines := _set startLineNumber lines |}.

(** ** The render-reuse engine *)

(** The variables of the loop of [_renderUntouchedLines]; [store] holds the
    two buffers, whose pixel data the copies read and write. *)
Record Untouched : Type := {
  needed : list bool;
  copySourceStart : Z;
  copySourceEnd : Z;
  copyDestStart : Z;
  copyDestEnd : Z;
  dest_dy : Z;
  store : Buffers
}.

(** [targetData.set(lastTargetData.subarray(copySourceStart, copySourceEnd), copyDestStart)] *)
Definition flush (bufs : Buffers) (target last : Slot)
    (copySourceStart copySourceEnd copyDestStart : Z) : result Buffers :=
  let lastTargetData := data (deref bufs last) in
  let targetData := data (deref bufs target) in
  let* d := set targetData (subarray lastTargetData copySourceStart copySourceEnd)
              copyDestStart in
  Ok (assign bufs target (with_data (deref bufs target) d)).

Definition line_dy (lastLines : list MinimapLine) (lastLineIndex : Z) : Z :=
  if ((0 <=? lastLineIndex) && (lastLineIndex <? Z.of_nat (length lastLines)))%Z
  then dy (default INVALID (lastLines !! Z.to_nat lastLineIndex))
  else -1.

(** One iteration of the loop over the line numbers. *)
Definition untouched_line (target last : Slot) (WIDTH : Z)
    (startLineNumber minimapLineHeight lastStartLineNumber : Z)
    (lastLines : list MinimapLine) (lineNumber : Z) (s : Untouched) : result Untouched :=
  let lineIndex := (lineNumber - startLineNumber)%Z in
  let lastLineIndex := (lineNumber - lastStartLineNumber)%Z in
  let source_dy := line_dy lastLines lastLineIndex in
  if (source_dy =? -1)%Z then
    Ok {| needed := array_store false (needed s) lineIndex true;
          copySourceStart := copySourceStart s;
          copySourceEnd := copySourceEnd s;
          copyDestStart := copyDestStart s;
          copyDestEnd := copyDestEnd s;
          dest_dy := dest_dy s + minimapLineHeight;
          store := store s |}
  else
    let sourceStart := (source_dy * WIDTH * 4)%Z in
    let sourceEnd := ((source_dy + minimapLineHeight) * WIDTH * 4)%Z in
    let destStart := (dest_dy s * WIDTH * 4)%Z in
    let destEnd := ((dest_dy s + minimapLineHeight) * WIDTH * 4)%Z in
    if ((copySourceEnd s =? sourceStart) && (copyDestEnd s =? destStart))%Z then
      Ok {| needed := array_store false (needed s) lineIndex false;
            copySourceStart := copySourceStart s;
            copySourceEnd := sourceEnd;
            copyDestStart := copyDestStart s;
            copyDestEnd := destEnd;
            dest_dy := dest_dy s + minimapLineHeight;
            store := store s |}
    else
      let* bufs' :=
        if negb (copySourceStart s =? -1)%Z
        then flush (store s) target last
               (copySourceStart s) (copySourceEnd s) (copyDestStart s)
        else Ok (store s) in
      Ok {| needed := array_store false (needed s) lineIndex false;
            copySourceStart := sourceStart;
            copySourceEnd := sourceEnd;
            copyDestStart := destStart;
            copyDestEnd := destEnd;
            dest_dy := dest_dy s + minimapLineHeight;
            store := bufs' |}.

(** The loop [for (lineNumber = startLineNumber; lineNumber <= endLineNumber;
    lineNumber++)], with the number of iterations left as the structural
    argument. *)
Fixpoint untouched_lines (target last : Slot) (WIDTH : Z)
    (startLineNumber minimapLineHeight lastStartLineNumber : Z)
    (lastLines : list MinimapLine) (n : nat) (lineNumber : Z) (s : Untouched)
    : result Untouched :=
  match n with
  | O => Ok s
  | S n' =>
      let* s' := untouched_line target last WIDTH startLineNumber minimapLineHeight
                   lastStartLineNumber lastLines lineNumber s in
      untouched_lines target last WIDTH startLineNumber minimapLineHeight
        lastStartLineNumber lastLines n' (lineNumber + 1) s'
  end.

(** The loop [for (i = 0; i < len; i++) needed[i] = true]. *)
Fixpoint all_needed (n : nat) (i : Z) (needed : list bool) : list bool :=
  match n with
  | O => needed
  | S n' => all_needed n' (i + 1) (array_store false needed i true)
  end.

Definition _renderUntouchedLines (bufs : Buffers) (target : Slot)
    (startLineNumber endLineNumber minimapLineHeight : Z)
    (lastRenderData : option RenderData) : result (list bool * Buffers) :=
  match lastRenderData with
  | None =>
      Ok (all_needed (Z.to_nat (endLineNumber - startLineNumber + 1)) 0 [], bufs)
  | Some lastRenderData =>
      let last := _imageData lastRenderData in
      let lastStartLineNumber := rendLineNumberStart (_renderedLines lastRenderData) in
      let lastLines := lines (_renderedLines lastRenderData) in
      let WIDTH := width (deref bufs target) in
      let* s := untouched_lines target last WIDTH startLineNumber minimapLineHeight
                  lastStartLineNumber lastLines
                  (Z.to_nat (endLineNumber - startLineNumber + 1)) startLineNumber
                  {| needed := [];
                     copySourceStart := -1;
                     copySourceEnd := -1;
                     copyDestStart := -1;
                     copyDestEnd := -1;
                     dest_dy := 0;
                     store := bufs |} in
      let* bufs' :=
        if negb (copySourceStart s =? -1)%Z
        then flush (store s) target last
               (copySourceStart s) (copySourceEnd s) (copyDestStart s)
        else Ok (store s) in
      Ok (needed s, bufs')
  end.

(** ** The line rasterizer *)

Definition ColorId : Type := Z.

Record ViewLineToken : Type := {
  endIndex : Z;
  getForeground : ColorId
}.

(** [content] is the line's text as its sequence of UTF-16 code units. *)
Record ViewLineData : Type := {
  content : list Z;
  tokens : list ViewLineToken
}.

(** [content.charCodeAt(i)]; [None] stands for the [NaN] of an index outside
    the string. *)
Definition charCodeAt (content : list Z) (i : Z) : option Z :=
  if (i <? 0)%Z then None else content !! Z.to_nat i.

(** [CharCode] of [vs/base/common/charCode], whose declaration is not among
    the sources: the code units of the tab and of the space. *)
Module CharCode.
Definition Tab : Z := 9.
Definition Space : Z := 32.
End CharCode.

(** A call of one of the four glyph-cell methods of [MinimapCharRenderer]
    (not among the sources), with its arguments after [target]. *)
Inductive DrawCall : Type :=
  | x2RenderChar (dx dy : Z) (chCode : option Z) (color backgroundColor : RGBA)
      (useLighterFont : bool)
  | x1RenderChar (dx dy : Z) (chCode : option Z) (color backgroundColor : RGBA)
      (useLighterFont : bool)
  | x2BlockRenderChar (dx dy : Z) (color backgroundColor : RGBA)
      (useLighterFont : bool)
  | x1BlockRenderChar (dx dy : Z) (color backgroundColor : RGBA)
      (useLighterFont : bool).

Definition call_dx (c : DrawCall) : Z :=
  match c with
  | x2RenderChar dx _ _ _ _ _ | x1RenderChar dx _ _ _ _ _
  | x2BlockRenderChar dx _ _ _ _ | x1BlockRenderChar dx _ _ _ _ => dx
  end.

Definition call_dy (c : DrawCall) : Z :=
  match c with
  | x2RenderChar _ dy _ _ _ _ | x1RenderChar _ dy _ _ _ _
  | x2BlockRenderChar _ dy _ _ _ | x1BlockRenderChar _ dy _ _ _ => dy
  end.

(** The glyph a call draws: [Some] of the code unit for the two glyph
    methods, [None] for the two block methods. *)
Definition call_chCode (c : DrawCall) : option (option Z) :=
  match c with
  | x2RenderChar _ _ ch _ _ _ | x1RenderChar _ _ ch _ _ _ => Some ch
  | _ => None
  end.

(** The variables of the loops of [_renderLine], and the calls made so far. *)
Record LineCursor : Type := {
  dx : Z;
  charIndex : Z;
  tabsCharDelta : Z;
  calls : list DrawCall
}.

(** A loop either goes on or has executed [return]. *)
Inductive Flow : Type :=
  | Running (c : LineCursor)
  | Returned (c : LineCursor).

Definition cursor_of (f : Flow) : LineCursor :=
  match f with Running c | Returned c => c end.

Section RenderLine.

Variable K : Constants.
Variable target_width : Z.
Variable backgroundColor : RGBA.
Variable useLighterFont : bool.
Variable renderMinimap : RenderMinimap.
Variable line_dy_ : Z.
Variable tabSize : Z.
Variable content_ : list Z.

(** The dispatch on the zoom category for a visible character. *)
Definition draw_char (dx : Z) (charCode : option Z) (tokenColor : RGBA) : DrawCall :=
  match renderMinimap with
  | Large =>
      x2RenderChar dx line_dy_ charCode tokenColor backgroundColor useLighterFont
  | Small =>
      x1RenderChar dx line_dy_ charCode tokenColor backgroundColor useLighterFont
  | LargeBlocks =>
      x2BlockRenderChar dx line_dy_ tokenColor backgroundColor useLighterFont
  | _ =>
      x1BlockRenderChar dx line_dy_ tokenColor backgroundColor useLighterFont
  end.

(** The body of the loop over the characters of a token, followed by its
    [charIndex++]. *)
Definition render_char (tokenColor : RGBA) (c : LineCursor) : Flow :=
  let charWidth := getMinimapCharWidth K renderMinimap in
  let maxDx := (target_width - charWidth)%Z in
  if (dx c >? maxDx)%Z then Returned c
  else
    let charCode := charCodeAt content_ (charIndex c) in
    if decide (charCode = Some CharCode.Tab) then
      let insertSpacesCount :=
        (tabSize - Z.rem (charIndex c + tabsCharDelta c) tabSize)%Z in
      Running {| dx := dx c + insertSpacesCount * charWidth;
                 charIndex := charIndex c + 1;
                 tabsCharDelta := tabsCharDelta c + (insertSpacesCount - 1);
                 calls := calls c |}
    else if decide (charCode = Some CharCode.Space) then
      Running {| dx := dx c + charWidth;
                 charIndex := charIndex c + 1;
                 tabsCharDelta := tabsCharDelta c;
                 calls := calls c |}
    else
      Running {| dx := dx c + charWidth;
                 charIndex := charIndex c + 1;
                 tabsCharDelta := tabsCharDelta c;
                 calls := calls c ++ [draw_char (dx c) charCode tokenColor] |}.

(** [for (; charIndex < tokenEndIndex; charIndex++)], with the number of
    iterations left as the structural argument. *)
Fixpoint render_chars (tokenColor : RGBA) (n : nat) (c : LineCursor) : Flow :=
  match n with
  | O => Running c
  | S n' =>
      match render_char tokenColor c with
      | Running c' => render_chars tokenColor n' c'
      | Returned c' => Returned c'
      end
  end.

Fixpoint render_tokens (getColor : ColorId -> RGBA) (tokens : list ViewLineToken)
    (c : LineCursor) : Flow :=
  match tokens with
  | [] => Running c
  | token :: rest =>
      let tokenEndIndex := endIndex token in
      let tokenColor := getColor (getForeground token) in
      match render_chars tokenColor (Z.to_nat (tokenEndIndex - charIndex c)) c with
      | Running c' => render_tokens getColor rest c'
      | Returned c' => Returned c'
      end
  end.

End RenderLine.

(** [_renderLine]: the calls it makes on the character renderer, in order. *)
Definition _renderLine (K : Constants) (target_width : Z) (backgroundColor : RGBA)
    (useLighterFont : bool) (renderMinimap : RenderMinimap)
    (getColor : ColorId -> RGBA) (dy tabSize : Z) (lineData : ViewLineData)
    : list DrawCall :=
  calls (cursor_of
    (render_tokens K target_width backgroundColor useLighterFont renderMinimap
       dy tabSize (content lineData) getColor (tokens lineData)
       {| dx := 0; charIndex := 0; tabsCharDelta := 0; calls := [] |})).

(** ** The view part *)

(** The fields the frames read and write.  [_buffers_] is the field
    [_buffers] of the view part, written apart from the field of the same
    name of [MinimapBuffers]. *)
Record Minimap : Type := {
  _options : MinimapOptions;
  _lastRenderData : option RenderData;
  _buffers_ : option MinimapBuffers
}.

(** What [render] reads from its rendering context. *)
Record RestrictedRenderingContext : Type := {
  visibleRange_startLineNumber : number;
  visibleRange_endLineNumber : number;
  viewportHeight : number;
  whitespaceViewportData_length : Z;
  scrollTop : number;
  scrollHeight : number
}.

Record MinimapLinesRenderingData : Type := {
  lineInfo_tabSize : Z;
  lineInfo_data : Z -> ViewLineData
}.

(** The collaborators of the view part: the view model, the editor
    scrollbar, the colour tracker and the character renderer.  [paint] is
    the effect of one call of the character renderer: the pixel data of its
    target after the call. *)
Record Env : Type := {
  getLineCount : number;
  getVerticalSliderVerticalCenter : number;
  getMinimapLinesRenderingData : Z -> Z -> list bool -> MinimapLinesRenderingData;
  DefaultBackground : ColorId;
  getColor : ColorId -> RGBA;
  backgroundIsLight : bool;
  paint : ImageData -> DrawCall -> Uint8ClampedArray
}.

Definition _getBuffer (env : Env) (this : Minimap) : result (MinimapBuffers * Slot) :=
  let* buffers :=
    match _buffers_ this with
    | Some buffers => Ok buffers
    | None =>
        let* WIDTH := integer (canvasInnerWidth (_options this)) in
        let* HEIGHT := integer (canvasInnerHeight (_options this)) in
        Ok (new_MinimapBuffers WIDTH HEIGHT (getColor env (DefaultBackground env)))
    end in
  getBuffer buffers.

(** The body of the loop of [render] for the row [lineIndex], drawn at the
    vertical offset [dy]: the pixel data after the row was rasterized, if it
    needed to be. *)
Definition render_row (K : Constants) (env : Env) (target : ImageData)
    (background : RGBA) (useLighterFont : bool) (renderMinimap : RenderMinimap)
    (tabSize : Z) (needed : list bool) (lineData : Z -> ViewLineData)
    (lineIndex dy : Z) (pixels : Uint8ClampedArray) : Uint8ClampedArray :=
  if truthy_at needed lineIndex
  then foldl (fun d call => paint env (with_data target d) call) pixels
         (_renderLine K (width target) background useLighterFont renderMinimap
            (getColor env) dy tabSize (lineData lineIndex))
  else pixels.

(** The loop of [render] over the rows of the visible range: rasterizes
    the rows that need it and records every row's vertical offset. *)
Fixpoint render_rows (K : Constants) (env : Env) (target : ImageData)
    (background : RGBA) (useLighterFont : bool) (renderMinimap : RenderMinimap)
    (minimapLineHeight tabSize : Z) (needed : list bool)
    (lineData : Z -> ViewLineData)
    (n : nat) (lineIndex dy : Z) (renderedLines : list MinimapLine)
    (pixels : Uint8ClampedArray) : list MinimapLine * Uint8ClampedArray :=
  match n with
  | O => (renderedLines, pixels)
  | S n' =>
      render_rows K env target background useLighterFont renderMinimap
        minimapLineHeight tabSize needed lineData
        n' (lineIndex + 1) (dy + minimapLineHeight)
        (array_store INVALID renderedLines lineIndex (new_MinimapLine dy))
        (render_row K env target background useLighterFont renderMinimap
           tabSize needed lineData lineIndex dy pixels)
  end.

Definition render (K : Constants) (env : Env) (this : Minimap)
    (renderingCtx : RestrictedRenderingContext) : result Minimap :=
  let renderMinimap := renderMinimap (_options this) in
  match renderMinimap with
  | None_ => Ok this
  | _ =>
      let layout :=
        MinimapLayout.create K (_options this)
          (visibleRange_startLineNumber renderingCtx)
          (visibleRange_endLineNumber renderingCtx)
          (viewportHeight renderingCtx)
          (0 <? whitespaceViewportData_length renderingCtx)%Z
          (getLineCount env)
          (getVerticalSliderVerticalCenter env)
          (scrollTop renderingCtx)
          (scrollHeight renderingCtx) in
      let* startLineNumber := integer (MinimapLayout.startLineNumber layout) in
      let* endLineNumber := integer (MinimapLayout.endLineNumber layout) in
      let minimapLineHeight := getMinimapLineHeight K renderMinimap in
      let* got := _getBuffer env this in
      let '(buffers, imageData) := got in
      let* untouched :=
        _renderUntouchedLines (_buffers buffers) imageData
          startLineNumber endLineNumber minimapLineHeight (_lastRenderData this) in
      let '(needed, bufs) := untouched in
      let lineInfo :=
        getMinimapLinesRenderingData env startLineNumber endLineNumber needed in
      let tabSize := lineInfo_tabSize lineInfo in
      let background := getColor env (DefaultBackground env) in
      let useLighterFont := backgroundIsLight env in
      let target := deref bufs imageData in
      let '(renderedLines, pixels) :=
        render_rows K env target background useLighterFont renderMinimap
          minimapLineHeight tabSize needed (lineInfo_data lineInfo)
          (Z.to_nat (endLineNumber - startLineNumber + 1)) 0 0 [] (data target) in
      let* lastRenderData := new_RenderData layout imageData renderedLines in
      Ok {| _options := _options this;
            _lastRenderData := Some lastRenderData;
            _buffers_ :=
              Some {| _backgroundFillData := _backgroundFillData buffers;
                      _buffers := assign bufs imageData (with_data target pixels);
                      _lastUsedBuffer := _lastUsedBuffer buffers |} |}
  end.

(** ** The slider drag *)

Record IStandardMouseMoveEventData : Type := {
  posx : number;
  posy : number
}.

(** What the mouse-down listener of the slider captures for the drag it
    starts. *)
Record SliderDrag : Type := {
  initialMousePosition : number;
  initialMouseOrthogonalPosition : number;
  initialSliderState : MinimapLayout.t
}.

(** The mouse-down listener of the slider: a drag starts when the left
    button is pressed and a frame has been rendered.  [e_posx] and [e_posy]
    are the position of the event. *)
Definition sliderMouseDown (this : Minimap) (leftButton : bool)
    (e_posx e_posy : number) : option SliderDrag :=
  if leftButton then
    match _lastRenderData this with
    | Some lastRenderData =>
        Some {| initialMousePosition := e_posy;
                initialMouseOrthogonalPosition := e_posx;
                initialSliderState := renderedLayout lastRenderData |}
    | None => None
    end
  else None.

(** The pointer-move callback of a drag; the result is the [scrollTop]
    handed to [viewLayout.setScrollPosition]. *)
Definition sliderMouseMove (isWindows : bool) (drag : SliderDrag)
    (mouseMoveData : IStandardMouseMoveEventData) : number :=
  let mouseOrthogonalDelta :=
    abs (posx mouseMoveData - initialMouseOrthogonalPosition drag) in
  if isWindows && (mouseOrthogonalDelta >? MOUSE_DRAG_RESET_DISTANCE)%num then
    MinimapLayout.scrollTop (initialSliderState drag)
  else
    let mouseDelta := (posy mouseMoveData - initialMousePosition drag)%num in
    MinimapLayout.getDesiredScrollTopFromDelta (initialSliderState drag) mouseDelta.

(** ** Options comparison and the handlers of view events *)

(** The values of the [const enum RenderMinimap]. *)
Definition RenderMinimap_value (renderMinimap : RenderMinimap) : Z :=
  match renderMinimap with
  | None_ => 0
  | Small => 1
  | Large => 2
  | SmallBlocks => 3
  | LargeBlocks => 4
  end.

(** [===] on the two strings of [showSlider]. *)
Definition ShowSlider_eqb (x y : ShowSlider) : bool :=
  match x, y with
  | always, always | mouseover, mouseover => true
  | _, _ => false
  end.

(** [MinimapOptions.equals] *)
Definition equals (this other : MinimapOptions) : bool :=
  (RenderMinimap_value (renderMinimap this) =? RenderMinimap_value (renderMinimap other))%Z
  && ShowSlider_eqb (showSlider this) (showSlider other)
  && (pixelRatio this === pixelRatio other)%num
  && (lineHeight this === lineHeight other)%num
  && (minimapWidth this === minimapWidth other)%num
  && (minimapHeight this === minimapHeight other)%num
  && (canvasInnerWidth this === canvasInnerWidth other)%num
  && (canvasInnerHeight this === canvasInnerHeight other)%num
  && (canvasOuterWidth this === canvasOuterWidth other)%num
  && (canvasOuterHeight this === canvasOuterHeight other)%num.

(** [MinimapLine.onContentChanged] and [MinimapLine.onTokensChanged] *)
Definition onContentChanged (this : MinimapLine) : MinimapLine :=
  new_MinimapLine (-1).

Definition onTokensChanged (this : MinimapLine) : MinimapLine :=
  new_MinimapLine (-1).

(** The handlers return whether the view part is to be rendered again,
    with the state they leave.  [configuration] is the configuration of
    the view context at the time of the event. *)
Definition _onOptionsMaybeChanged (configuration : IConfiguration) (this : Minimap)
    : bool * Minimap :=
  let opts := new_MinimapOptions configuration in
  if equals (_options this) opts then (false, this)
  else (true, {| _options := opts; _lastRenderData := None; _buffers_ := None |}).

Definition onConfigurationChanged (configuration : IConfiguration) (this : Minimap)
    : bool * Minimap :=
  _onOptionsMaybeChanged configuration this.

Definition onFlushed (this : Minimap) : bool * Minimap :=
  (true, {| _options := _options this;
            _lastRenderData := None;
            _buffers_ := _buffers_ this |}).

Definition onScrollChanged (this : Minimap) : bool * Minimap :=
  (true, this).

Definition onTokensColorsChanged (this : Minimap) : bool * Minimap :=
  (true, {| _options := _options this;
            _lastRenderData := None;
            _buffers_ := None |}).

Definition onZonesChanged (this : Minimap) : bool * Minimap :=
  (true, {| _options := _options this;
            _lastRenderData := None;
            _buffers_ := _buffers_ this |}).

(** The view events whose handlers are written out in the source.  The
    handlers of line and token changes hand the event on to the
    [RenderedLinesCollection], which is not among the sources, and are left
    out. *)
Inductive ViewEvent : Type :=
  | ViewConfigurationChangedEvent (configuration : IConfiguration)
  | ViewFlushedEvent
  | ViewScrollChangedEvent
  | ViewTokensColorsChangedEvent
  | ViewZonesChangedEvent.

(** The dispatch of an event to its handler. *)
Definition handleEvent (e : ViewEvent) (this : Minimap) : bool * Minimap :=
  match e with
  | ViewConfigurationChangedEvent configuration =>
      onConfigurationChanged configuration this
  | ViewFlushedEvent => onFlushed this
  | ViewScrollChangedEvent => onScrollChanged this
  | ViewTokensColorsChangedEvent => onTokensColorsChanged this
  | ViewZonesChangedEvent => onZonesChanged this
  end.

(** ** The mouse-down listener of the canvas *)

(** The line number of the range the view is asked to reveal, if any;
    [offsetY] is the vertical offset of the event in the canvas. *)
Definition canvasMouseDown (K : Constants) (env : Env) (this : Minimap)
    (offsetY : number) : option number :=
  let renderMinimap := renderMinimap (_options this) in
  match renderMinimap with
  | None_ => None
  | _ =>
      match _lastRenderData this with
      | None => None
      | Some lastRenderData =>
          let minimapLineHeight := of_Z (getMinimapLineHeight K renderMinimap) in
          let internalOffsetY := (pixelRatio (_options this) * offsetY)%num in
          let lineIndex := floor (internalOffsetY / minimapLineHeight) in
          let lineNumber :=
            (lineIndex
             + MinimapLayout.startLineNumber (renderedLayout lastRenderData))%num in
          let lineNumber := min lineNumber (getLineCount env) in
          Some lineNumber
      end
  end.

(** ** The rounding of binary64 *)

(** A JavaScript number is a binary64 value, and every arithmetic operation
    rounds its exact result to the nearest one.  [Number] above computes
    with the exact results; this module rounds them, for the properties
    that the rounding decides. *)
Module Binary64.

(** The unit roundoff [2 ^ -53], half the distance [2 ^ -1074] between
    two values below [2 ^ -1022], and the bound [2 ^ 1024] of the finite
    values. *)
Definition u : Q := Eval vm_compute in (2 ^ (-53))%Q.
Definition eta : Q := Eval vm_compute in (2 ^ (-1075))%Q.
Definition huge : Q := Eval vm_compute in (2 ^ 1024)%Q.

(** What a few roundings can add to a result, relative to its size. *)
Definition slack : Q := Eval vm_compute in (2 ^ (-50))%Q.

(** The nearest integer, a half going to the even one. *)
Definition nearest_even (x : Q) : Z :=
  let f := Qfloor x in
  match (x - inject_Z f ?= 1 # 2)%Q with
  | Lt => f
  | Gt => (f + 1)%Z
  | Eq => if Z.even f then f else (f + 1)%Z
  end.

(** [floor (log2 x)], for [0 < x]. *)
Definition ilog2 (x : Q) : Z :=
  let k := (Z.log2 (Qnum x) - Z.log2 (Zpos (Qden x)))%Z in
  if Qle_bool (2 ^ k) x then k else (k - 1)%Z.

(** The binary64 value nearest to [x], for [0 < x]: a significand of 53
    bits, or fewer below [2 ^ -1022], where the values are [2 ^ -1074]
    apart; a result of [2 ^ 1024] or more is [Infinity]. *)
Definition nearest_pos (x : Q) : number :=
  let e := Z.max (ilog2 x - 52) (-1074) in
  let y := (inject_Z (nearest_even (x / 2 ^ e)) * 2 ^ e)%Q in
  if Qle_bool huge y then PInf else Fin (Qred y).

Definition nearest (x : Q) : number :=
  match (x ?= 0)%Q with
  | Eq => Fin 0
  | Gt => nearest_pos x
  | Lt => neg (nearest_pos (- x))
  end.

Definition rounded (x : number) : number :=
  match x with
  | Fin q => nearest q
  | _ => x
  end.

(** The four arithmetic operators of JavaScript. *)
Definition add (x y : number) : number := rounded (Number.add x y).
Definition sub (x y : number) : number := rounded (Number.sub x y).
Definition mul (x y : number) : number := rounded (Number.mul x y).
Definition div (x y : number) : number := rounded (Number.div x y).

(** A result that is not negative: a finite value from 0 on, or
    [Infinity]. *)
Definition nonneg (x : number) : Prop :=
  match x with
  | Fin q => (0 <= q < huge)%Q
  | PInf => True
  | _ => False
  end.

End Binary64.

Declare Scope binary64_scope.
Delimit Scope binary64_scope with b64.
Arguments Binary64.add (x y)%_b64.
Arguments Binary64.sub (x y)%_b64.
Arguments Binary64.mul (x y)%_b64.
Arguments Binary64.div (x y)%_b64.
Infix "+" := Binary64.add : binary64_scope.
Infix "-" := Binary64.sub : binary64_scope.
Infix "*" := Binary64.mul : binary64_scope.
Infix "/" := Binary64.div : binary64_scope.
Infix "<?" := ltb : binary64_scope.
Infix "<=?" := leb : binary64_scope.
Infix ">?" := gtb : binary64_scope.
Infix ">=?" := geb : binary64_scope.
Infix "===" := strict_eqb (at level 70, no associativity) : binary64_scope.

(** [MinimapLayout.create] with the operations of binary64: the text of
    the embedding above, every arithmetic result rounded.  [Math.floor],
    [Math.min], [Math.max] and the comparisons are exact on binary64
    values. *)
Module MinimapLayout64.

Definition create (K : Constants) (options : MinimapOptions)
    (viewportStartLineNumber viewportEndLineNumber viewportHeight : number)
    (viewportContainsWhitespaceGaps : bool)
    (lineCount scrollbarSliderCenter scrollTop scrollHeight : number)
    : MinimapLayout.t :=
  let pixelRatio := pixelRatio options in
  let minimapLineHeight := of_Z (getMinimapLineHeight K (renderMinimap options)) in
  let minimapLinesFitting :=
    floor (canvasInnerHeight options / minimapLineHeight)%b64 in
  let lineHeight := lineHeight options in
  let sliderHeight :=
    if viewportContainsWhitespaceGaps && negb (viewportEndLineNumber === lineCount)%b64
    then
      let viewportLineCount :=
        (viewportEndLineNumber - viewportStartLineNumber + of_Z 1)%b64 in
      floor (viewportLineCount * minimapLineHeight / pixelRatio)%b64
    else
      let expectedViewportLineCount := (viewportHeight / lineHeight)%b64 in
      floor (expectedViewportLineCount * minimapLineHeight / pixelRatio)%b64 in
  let maxMinimapSliderTop :=
    min (minimapHeight options - sliderHeight)%b64
        ((lineCount - of_Z 1) * minimapLineHeight / pixelRatio)%b64 in
  let computedSliderRatio :=
    (maxMinimapSliderTop / (scrollHeight - viewportHeight))%b64 in
  let sliderTop := (scrollTop * computedSliderRatio)%b64 in
  if (minimapLinesFitting >=? lineCount)%b64 then
    let startLineNumber := of_Z 1 in
    let endLineNumber := lineCount in
    MinimapLayout.new scrollTop computedSliderRatio sliderTop sliderHeight
      startLineNumber endLineNumber
  else
    let startLineNumber :=
      max (of_Z 1)
          (floor (viewportStartLineNumber
                  - sliderTop * pixelRatio / minimapLineHeight)%b64) in
    let endLineNumber :=
      min lineCount (startLineNumber + minimapLinesFitting - of_Z 1)%b64 in
    MinimapLayout.new scrollTop computedSliderRatio sliderTop sliderHeight
      startLineNumber endLineNumber.

End MinimapLayout64.

(** ** Sample inputs and vocabulary of the properties *)

(** A sample instance of the cell sizes (a 1x cell of 1 by 2 device pixels,
    a 2x cell of 2 by 4), used where a property is evaluated on concrete
    inputs. *)
Definition sample_cells : Constants :=
  {| x1_CHAR_HEIGHT := 2; x1_CHAR_WIDTH := 1;
     x2_CHAR_HEIGHT := 4; x2_CHAR_WIDTH := 2 |}.

(** A document of 10 lines in a viewport of 600 pixels, 20 pixels a line,
    with the large glyph minimap: nothing scrolls. *)
Definition short_document : MinimapOptions :=
  new_MinimapOptions
    {| cfg_pixelRatio := of_Z 1; cfg_lineHeight := of_Z 20;
       cfg_renderMinimap := Large; cfg_showSlider := mouseover;
       cfg_minimapWidth := of_Z 100; cfg_height := of_Z 600 |}.

(** An editor whose lines are 1 pixel high, with the large glyph minimap:
    a preview row (4 device pixels) is taller than an editor line, and the
    slider of a 100 pixel viewport is 400 pixels high. *)
Definition tiny_lines : MinimapOptions :=
  new_MinimapOptions
    {| cfg_pixelRatio := of_Z 1; cfg_lineHeight := of_Z 1;
       cfg_renderMinimap := Large; cfg_showSlider := mouseover;
       cfg_minimapWidth := of_Z 4; cfg_height := of_Z 100 |}.

Definition white : RGBA :=
  {| r := Byte.xff; g := Byte.xff; b := Byte.xff; a := Byte.xff |}.

Definition black : RGBA :=
  {| r := Byte.x00; g := Byte.x00; b := Byte.x00; a := Byte.xff |}.

(** The line ["a<tab>b"] in a single token. *)
Definition a_tab_b (foreground : ColorId) : ViewLineData :=
  {| content := [97; 9; 98]%Z;
     tokens := [{| endIndex := 3; getForeground := foreground |}] |}.

(** Every call made so far draws a cell that ends within the target. *)
Definition within_target (K : Constants) (target_width : Z)
    (renderMinimap : RenderMinimap) (c : LineCursor) : Prop :=
  Forall (fun call =>
            (call_dx call + getMinimapCharWidth K renderMinimap <= target_width)%Z)
    (calls c).

(** The byte of a typed array at an integer index. *)
Definition byte_at (a : Uint8ClampedArray) (x : Z) : option Byte.byte :=
  if (x <? 0)%Z then None else a !! Z.to_nat x.

(** The invariant of the loop of [_renderUntouchedLines] after [i] lines,
    for a target [WIDTH] pixels wide that is not the buffer [last] of the
    previous frame.  The previous buffer is as it was and the target has
    kept its size; a pending copy request lies within the previous buffer
    and ends no later than the rows handled so far; and every line handled
    so far that has a valid record is flagged as not needed and is either
    covered by the pending request, at matching offsets, or already copied,
    out of reach of the pending request. *)
Record reuse_inv (bufs : Buffers) (target last : Slot) (WIDTH : Z)
    (startLineNumber minimapLineHeight lastStartLineNumber : Z)
    (lastLines : list MinimapLine) (i : Z) (s : Untouched) : Prop := {
  inv_dest_dy : dest_dy s = (i * minimapLineHeight)%Z;
  inv_needed : Z.of_nat (length (needed s)) = i;
  inv_last : deref (store s) last = deref bufs last;
  inv_size : length (data (deref (store s) target))
             = length (data (deref bufs target));
  inv_pending :
    (copySourceStart s = -1 /\ copySourceEnd s = -1)%Z
    \/ (0 <= copySourceStart s <= copySourceEnd s
        /\ copySourceEnd s <= Z.of_nat (length (data (deref bufs last)))
        /\ 0 <= copyDestStart s
        /\ copyDestEnd s - copyDestStart s = copySourceEnd s - copySourceStart s
        /\ copyDestEnd s <= i * minimapLineHeight * WIDTH * 4)%Z;
  inv_lines :
    forall k : Z, (0 <= k < i)%Z ->
      let d := line_dy lastLines (startLineNumber + k - lastStartLineNumber) in
      d <> (-1)%Z ->
      needed s !! Z.to_nat k = Some false
      /\ ((copySourceStart s <> -1
           /\ copyDestStart s <= k * minimapLineHeight * WIDTH * 4
           /\ (k * minimapLineHeight + minimapLineHeight) * WIDTH * 4 <= copyDestEnd s
           /\ d * WIDTH * 4 - copySourceStart s
              = k * minimapLineHeight * WIDTH * 4 - copyDestStart s)%Z
          \/ ((forall j : Z, (0 <= j < minimapLineHeight * WIDTH * 4)%Z ->
                 byte_at (data (deref (store s) target))
                   (k * minimapLineHeight * WIDTH * 4 + j)
                 = byte_at (data (deref bufs last)) (d * WIDTH * 4 + j))
              /\ (copySourceStart s <> (-1)%Z ->
                  ((k * minimapLineHeight + minimapLineHeight) * WIDTH * 4
                   <= copyDestStart s)%Z)))
}.

(** A document of [lineCount] lines that all read ["a<tab>b"], white on
    black, with tab size 4.  The stand-in for the character renderer marks
    the first byte of the top-left pixel of the cell it is asked to draw. *)
Definition sample_env (lineCount : Z) : Env :=
  {| getLineCount := of_Z lineCount;
     getVerticalSliderVerticalCenter := of_Z 0;
     getMinimapLinesRenderingData := fun _ _ _ =>
       {| lineInfo_tabSize := 4; lineInfo_data := fun _ => a_tab_b 1%Z |};
     DefaultBackground := 2%Z;
     getColor := fun id => if (id =? 2)%Z then black else white;
     backgroundIsLight := false;
     paint := fun target call =>
       <[Z.to_nat ((call_dy call * width target + call_dx call) * 4) := Byte.x80]>
         (data target) |}.

(** A minimap of 3 by 8 device pixels with the small glyphs, so 4 preview
    rows of 2 pixels, for an editor whose lines are 4 pixels high. *)
Definition narrow_minimap : MinimapOptions :=
  new_MinimapOptions
    {| cfg_pixelRatio := of_Z 1; cfg_lineHeight := of_Z 4;
       cfg_renderMinimap := Small; cfg_showSlider := mouseover;
       cfg_minimapWidth := of_Z 3; cfg_height := of_Z 8 |}.

(** The view part as its constructor leaves it. *)
Definition fresh (options : MinimapOptions) : Minimap :=
  {| _options := options; _lastRenderData := None; _buffers_ := None |}.

(** The 10 line document in the narrow editor: at the top, lines 1 and 2
    are visible; scrolled by 8 pixels, lines 3 and 4. *)
Definition at_top : RestrictedRenderingContext :=
  {| visibleRange_startLineNumber := of_Z 1; visibleRange_endLineNumber := of_Z 2;
     viewportHeight := of_Z 8; whitespaceViewportData_length := 0;
     scrollTop := of_Z 0; scrollHeight := of_Z 40 |}.

Definition scrolled : RestrictedRenderingContext :=
  {| visibleRange_startLineNumber := of_Z 3; visibleRange_endLineNumber := of_Z 4;
     viewportHeight := of_Z 8; whitespaceViewportData_length := 0;
     scrollTop := of_Z 8; scrollHeight := of_Z 40 |}.

(** The 1000 line document in the editor with the tiny lines, scrolled to
    its last lines. *)
Definition near_end : RestrictedRenderingContext :=
  {| visibleRange_startLineNumber := of_Z 990; visibleRange_endLineNumber := of_Z 1000;
     viewportHeight := of_Z 100; whitespaceViewportData_length := 0;
     scrollTop := of_Z 989; scrollHeight := of_Z 1099 |}.

(** The state after the first frame of the 10 line document, the record it
    saved, and the buffer the second frame is handed. *)
Definition after_first_frame : Minimap :=
  Eval vm_compute in
    match render sample_cells (sample_env 10) (fresh narrow_minimap) at_top with
    | Ok this => this
    | Throw _ => fresh narrow_minimap
    end.

Definition first_frame_data : RenderData :=
  Eval vm_compute in
    match _lastRenderData after_first_frame with
    | Some lastRenderData => lastRenderData
    | None => {| renderedLayout := MinimapLayout.new NaN NaN NaN NaN NaN NaN;
                 _imageData := slot0;
                 _renderedLines := _set 0 [] |}
    end.

Definition second_frame_buffers : MinimapBuffers * Slot :=
  Eval vm_compute in
    match _getBuffer (sample_env 10) after_first_frame with
    | Ok got => got
    | Throw _ => (new_MinimapBuffers 0 0 black, slot0)
    end.

(** The two buffers of a view part are [WIDTH] by [HEIGHT] pixels. *)
Definition well_sized (buffers : MinimapBuffers) (WIDTH HEIGHT : Z) : Prop :=
  Z.of_nat (length (_backgroundFillData buffers)) = (WIDTH * HEIGHT * 4)%Z
  /\ forall i : Slot,
       width (deref (_buffers buffers) i) = WIDTH
       /\ Z.of_nat (length (data (deref (_buffers buffers) i)))
          = (WIDTH * HEIGHT * 4)%Z.

(** The state of a view part between two frames, for a canvas of [WIDTH]
    by [HEIGHT] device pixels: the buffers, once created, have the size of
    the canvas; a saved frame refers to the buffer used last, and the rows
    it records lie within the canvas. *)
Definition coherent (K : Constants) (this : Minimap) (WIDTH HEIGHT : Z) : Prop :=
  integer (canvasInnerWidth (_options this)) = Ok WIDTH
  /\ integer (canvasInnerHeight (_options this)) = Ok HEIGHT
  /\ (0 <= WIDTH)%Z /\ (0 <= HEIGHT)%Z
  /\ match _buffers_ this with
     | None => _lastRenderData this = None
     | Some buffers =>
         well_sized buffers WIDTH HEIGHT
         /\ match _lastRenderData this with
            | None => True
            | Some lastRenderData =>
                _imageData lastRenderData = _lastUsedBuffer buffers
                /\ Forall (fun record =>
                             dy record <> (-1)%Z ->
                             (0 <= dy record
                              /\ dy record
                                 + getMinimapLineHeight K
                                     (renderMinimap (_options this))
                                 <= HEIGHT)%Z)
                     (lines (_renderedLines lastRenderData))
            end
     end.

(** ** Vocabulary of the further properties *)

(** The configuration of the narrow minimap. *)
Definition narrow_configuration : IConfiguration :=
  {| cfg_pixelRatio := of_Z 1; cfg_lineHeight := of_Z 4;
     cfg_renderMinimap := Small; cfg_showSlider := mouseover;
     cfg_minimapWidth := of_Z 3; cfg_height := of_Z 8 |}.

(** A configuration with three device pixels for two CSS pixels, and one
    with the pixel ratio 0. *)
Definition dense_configuration : IConfiguration :=
  {| cfg_pixelRatio := Fin (3 # 2); cfg_lineHeight := of_Z 20;
     cfg_renderMinimap := Large; cfg_showSlider := mouseover;
     cfg_minimapWidth := of_Z 75; cfg_height := of_Z 601 |}.

Definition flat_configuration : IConfiguration :=
  {| cfg_pixelRatio := of_Z 0; cfg_lineHeight := of_Z 20;
     cfg_renderMinimap := Large; cfg_showSlider := mouseover;
     cfg_minimapWidth := of_Z 100; cfg_height := of_Z 600 |}.

(** The state after the first frame, a flush, and the frame for the view
    scrolled by 8 pixels. *)
Definition frame_after_flush : Minimap :=
  Eval vm_compute in
    match render sample_cells (sample_env 10)
            (snd (handleEvent ViewFlushedEvent after_first_frame)) scrolled with
    | Ok this => this
    | Throw _ => fresh narrow_minimap
    end.

(** The arguments of a call of the character renderer besides its position
    and glyph, and the method called. *)
Definition call_color (c : DrawCall) : RGBA :=
  match c with
  | x2RenderChar _ _ _ color _ _ | x1RenderChar _ _ _ color _ _
  | x2BlockRenderChar _ _ color _ _ | x1BlockRenderChar _ _ color _ _ => color
  end.

Definition call_backgroundColor (c : DrawCall) : RGBA :=
  match c with
  | x2RenderChar _ _ _ _ backgroundColor _ | x1RenderChar _ _ _ _ backgroundColor _
  | x2BlockRenderChar _ _ _ backgroundColor _
  | x1BlockRenderChar _ _ _ backgroundColor _ => backgroundColor
  end.

Definition call_useLighterFont (c : DrawCall) : bool :=
  match c with
  | x2RenderChar _ _ _ _ _ useLighterFont | x1RenderChar _ _ _ _ _ useLighterFont
  | x2BlockRenderChar _ _ _ _ useLighterFont
  | x1BlockRenderChar _ _ _ _ useLighterFont => useLighterFont
  end.

(** The zoom category whose method a call is. *)
Definition call_method (c : DrawCall) : RenderMinimap :=
  match c with
  | x2RenderChar _ _ _ _ _ _ => Large
  | x1RenderChar _ _ _ _ _ _ => Small
  | x2BlockRenderChar _ _ _ _ _ => LargeBlocks
  | x1BlockRenderChar _ _ _ _ _ => SmallBlocks
  end.

(** The visual column of the cursor: the index of the character, plus the
    columns the tabs before it have added. *)
Definition column (c : LineCursor) : Z := (charIndex c + tabsCharDelta c)%Z.

(** The byte offset [x] lies in the row of the line with index [k]. *)
Definition in_row (minimapLineHeight WIDTH k x : Z) : Prop :=
  (k * minimapLineHeight * WIDTH * 4 <= x
   < (k * minimapLineHeight + minimapLineHeight) * WIDTH * 4)%Z.

(** What the loop of [_renderUntouchedLines] leaves alone, after [i]
    lines: the lines handled so far that have no valid record are flagged
    as needed; the target is as it was outside the rows of the lines that
    have one; and a pending copy request covers rows of such lines only. *)
Record skip_inv (bufs : Buffers) (target : Slot) (WIDTH : Z)
    (startLineNumber minimapLineHeight lastStartLineNumber : Z)
    (lastLines : list MinimapLine) (i : Z) (s : Untouched) : Prop := {
  skip_needed :
    forall k : Z, (0 <= k < i)%Z ->
      line_dy lastLines (startLineNumber + k - lastStartLineNumber) = (-1)%Z ->
      needed s !! Z.to_nat k = Some true;
  skip_bytes :
    forall x : Z,
      (forall k : Z, (0 <= k < i)%Z ->
         line_dy lastLines (startLineNumber + k - lastStartLineNumber) <> (-1)%Z ->
         ~ in_row minimapLineHeight WIDTH k x) ->
      byte_at (data (deref (store s) target)) x = byte_at (data (deref bufs target)) x;
  skip_pending :
    copySourceStart s <> (-1)%Z ->
    forall x : Z, (copyDestStart s <= x < copyDestEnd s)%Z ->
      exists k : Z, (0 <= k < i)%Z
        /\ line_dy lastLines (startLineNumber + k - lastStartLineNumber) <> (-1)%Z
        /\ in_row minimapLineHeight WIDTH k x
}.

(** A configuration with finite numbers, a positive pixel ratio and a
    canvas of at least one device pixel each way. *)
Definition regular (configuration : IConfiguration) : Prop :=
  exists pr w h : Q,
    cfg_pixelRatio configuration = Fin pr /\ (0 < pr)%Q
    /\ cfg_minimapWidth configuration = Fin w /\ (1 <= pr * w)%Q
    /\ cfg_height configuration = Fin h /\ (1 <= pr * h)%Q.

(** The character renderer writes into the pixel data it is given and
    leaves its size alone. *)
Definition paints_in_place (env : Env) : Prop :=
  forall (img : ImageData) (call : DrawCall),
    length (paint env img call) = length (data img).

(** The states of the view part: the one its constructor leaves for a
    regular configuration, and those that the handlers of view events and
    the frames that complete lead to. *)
Inductive reachable (K : Constants) : Minimap -> Prop :=
  | reachable_fresh (configuration : IConfiguration) :
      regular configuration ->
      reachable K (fresh (new_MinimapOptions configuration))
  | reachable_event (e : ViewEvent) (this : Minimap) :
      reachable K this ->
      (forall configuration,
         e = ViewConfigurationChangedEvent configuration -> regular configuration) ->
      reachable K (snd (handleEvent e this))
  | reachable_render (env : Env) (renderingCtx : RestrictedRenderingContext)
      (this this' : Minimap) :
      reachable K this ->
      paints_in_place env ->
      render K env this renderingCtx = Ok this' ->
      reachable K this'.

(** The events after which no saved frame is left: all but a scroll change
    and a configuration change that finds equal options. *)
Definition invalidates (e : ViewEvent) (this : Minimap) : Prop :=
  match e with
  | ViewConfigurationChangedEvent configuration =>
      equals (_options this) (new_MinimapOptions configuration) = false
  | ViewScrollChangedEvent => False
  | _ => True
  end.

(** A call moved to the vertical offset [dy]. *)
Definition at_dy (dy : Z) (call : DrawCall) : DrawCall :=
  match call with
  | x2RenderChar dx _ chCode color backgroundColor useLighterFont =>
      x2RenderChar dx dy chCode color backgroundColor useLighterFont
  | x1RenderChar dx _ chCode color backgroundColor useLighterFont =>
      x1RenderChar dx dy chCode color backgroundColor useLighterFont
  | x2BlockRenderChar dx _ color backgroundColor useLighterFont =>
      x2BlockRenderChar dx dy color backgroundColor useLighterFont
  | x1BlockRenderChar dx _ color backgroundColor useLighterFont =>
      x1BlockRenderChar dx dy color backgroundColor useLighterFont
  end.

(** The bytes of the [minimapLineHeight] pixel rows from the vertical
    offset [dy] on, in pixel data [WIDTH] pixels wide. *)
Definition band (WIDTH minimapLineHeight : Z) (pixels : Uint8ClampedArray) (dy : Z)
    : Uint8ClampedArray :=
  subarray pixels (dy * WIDTH * 4) ((dy + minimapLineHeight) * WIDTH * 4).

(** The image has the pixel data of its size, the cell of the call lies
    within its width, and the rows of the line within its height. *)
Definition cell_within (K : Constants) (renderMinimap : RenderMinimap)
    (img : ImageData) (call : DrawCall) : Prop :=
  (Z.of_nat (length (data img)) = width img * height img * 4
   /\ 0 <= call_dx call
   /\ call_dx call + getMinimapCharWidth K renderMinimap <= width img
   /\ 0 <= call_dy call
   /\ call_dy call + getMinimapLineHeight K renderMinimap <= height img)%Z.

(** What is asked of the character renderer, which is not among the
    sources, for the calls whose cell lies within the image: it leaves the
    length of the pixel data alone; it writes within the rows of the line
    only; and what it leaves in these rows depends on what they held and on
    the call, not on the vertical offset or on the rest of the image. *)
Record row_local (K : Constants) (env : Env) (renderMinimap : RenderMinimap)
    : Prop := {
  local_length :
    forall (img : ImageData) (call : DrawCall),
      length (paint env img call) = length (data img);
  local_outside :
    forall (img : ImageData) (call : DrawCall) (x : Z),
      cell_within K renderMinimap img call ->
      ~ (call_dy call * width img * 4 <= x
         < (call_dy call + getMinimapLineHeight K renderMinimap) * width img * 4)%Z ->
      byte_at (paint env img call) x = byte_at (data img) x;
  local_band :
    forall (img1 img2 : ImageData) (call : DrawCall) (dy1 dy2 : Z),
      width img1 = width img2 ->
      cell_within K renderMinimap img1 (at_dy dy1 call) ->
      cell_within K renderMinimap img2 (at_dy dy2 call) ->
      let minimapLineHeight := getMinimapLineHeight K renderMinimap in
      band (width img1) minimapLineHeight (data img1) dy1
      = band (width img2) minimapLineHeight (data img2) dy2 ->
      band (width img1) minimapLineHeight (paint env img1 (at_dy dy1 call)) dy1
      = band (width img2) minimapLineHeight (paint env img2 (at_dy dy2 call)) dy2
}.

(** A line rasterized alone, on the first rows of the background fill. *)
Definition scratch_row (K : Constants) (env : Env) (renderMinimap : RenderMinimap)
    (WIDTH : Z) (fill : Uint8ClampedArray) (tabSize : Z) (lineData : ViewLineData)
    : Uint8ClampedArray :=
  let minimapLineHeight := getMinimapLineHeight K renderMinimap in
  foldl (fun d call =>
           paint env {| width := WIDTH; height := minimapLineHeight; data := d |} call)
    (band WIDTH minimapLineHeight fill 0)
    (_renderLine K WIDTH (getColor env (DefaultBackground env))
       (backgroundIsLight env) renderMinimap (getColor env) 0 tabSize lineData).

(** The saved frame shows the document: the rows of every line it records
    are what the line [doc lineNumber] looks like when it is rasterized
    alone on the background. *)
Definition shows_document (K : Constants) (env : Env) (doc : Z -> ViewLineData)
    (tabSize : Z) (this : Minimap) : Prop :=
  match _lastRenderData this, _buffers_ this with
  | Some lastRenderData, Some buffers =>
      let renderMinimap := renderMinimap (_options this) in
      let image := deref (_buffers buffers) (_imageData lastRenderData) in
      forall (k : nat) (record : MinimapLine),
        lines (_renderedLines lastRenderData) !! k = Some record ->
        dy record <> (-1)%Z ->
        band (width image) (getMinimapLineHeight K renderMinimap) (data image)
          (dy record)
        = scratch_row K env renderMinimap (width image)
            (_backgroundFillData buffers) tabSize
            (doc (rendLineNumberStart (_renderedLines lastRenderData) + Z.of_nat k)%Z)
  | _, _ => True
  end.

(** The buffers, once created, are as [MinimapBuffers] makes them for a
    canvas of [WIDTH] by [HEIGHT] pixels: two images of that height, and
    the fill data of one background colour. *)
Definition canvas_buffers (this : Minimap) (WIDTH HEIGHT : Z) : Prop :=
  forall buffers : MinimapBuffers,
    _buffers_ this = Some buffers ->
    (forall i : Slot, height (deref (_buffers buffers) i) = HEIGHT)
    /\ exists background : RGBA,
         _backgroundFillData buffers
         = _createBackgroundFillData WIDTH HEIGHT background.

(** The view model answers for an unchanged document: the tab size is
    [tabSize], and the data of a line that is asked for is [doc] of its
    line number. *)
Definition serves_document (env : Env) (doc : Z -> ViewLineData) (tabSize : Z) : Prop :=
  forall (startLineNumber endLineNumber : Z) (needed : list bool),
    let lineInfo :=
      getMinimapLinesRenderingData env startLineNumber endLineNumber needed in
    lineInfo_tabSize lineInfo = tabSize
    /\ forall lineIndex : Z,
         truthy_at needed lineIndex = true ->
         lineInfo_data lineInfo lineIndex = doc (startLineNumber + lineIndex)%Z.

(** The state after the first frame and the frame for the view scrolled by
    8 pixels. *)
Definition after_second_frame : Minimap :=
  Eval vm_compute in
    match render sample_cells (sample_env 10) after_first_frame scrolled with
    | Ok this => this
    | Throw _ => fresh narrow_minimap
    end.

(** An editor 800 pixels high with lines of 19 pixels and the small
    glyphs, whose minimap rows are 2 device pixels high. *)
Definition tall_editor : MinimapOptions :=
  new_MinimapOptions
    {| cfg_pixelRatio := of_Z 1; cfg_lineHeight := of_Z 19;
       cfg_renderMinimap := Small; cfg_showSlider := mouseover;
       cfg_minimapWidth := of_Z 100; cfg_height := of_Z 800 |}.

(** * Properties *)

(** ** Arithmetic of [number] *)

Lemma ltb_Fin (a b : Q) : (Fin a <? Fin b)%num = true <-> (a < b)%Q.
Proof.
  unfold ltb. rewrite Qlt_alt. destruct (a ?= b)%Q; intuition congruence.
Qed.

Lemma leb_Fin (a b : Q) : (Fin a <=? Fin b)%num = true <-> (a <= b)%Q.
Proof.
  unfold leb. rewrite orb_true_iff, ltb_Fin. simpl. rewrite Qeq_bool_iff.
  rewrite Qle_lteq. tauto.
Qed.

Lemma Qcompare_pos (q : Q) : (0 < q)%Q -> (q ?= 0)%Q = Gt.
Proof. intros H. apply Qgt_alt. exact H. Qed.

Lemma Qcompare_zero (q : Q) : (q == 0)%Q -> (q ?= 0)%Q = Eq.
Proof. intros H. apply Qeq_alt. exact H. Qed.

Lemma signed_inf_not_finite (q : Q) (z : number) :
  is_finite z = false -> is_finite (signed_inf q z) = false.
Proof. unfold signed_inf. destruct (q ?= 0)%Q; auto. Qed.

Lemma sub_same (x y : number) :
  (x === y)%num = true ->
  (exists z, (x - y)%num = Fin z /\ (z == 0)%Q) \/ (x - y)%num = NaN.
Proof.
  destruct x as [a| | |], y as [b| | |]; simpl; try discriminate; auto.
  intros H. apply Qeq_bool_iff in H. left. exists (a + - b)%Q. split; [reflexivity|].
  rewrite H. ring.
Qed.

Lemma div_zero_not_finite (m : number) (z : Q) :
  (z == 0)%Q -> is_finite (m / Fin z)%num = false.
Proof.
  intros Hz. destruct m as [c| | |]; simpl; rewrite ?(Qcompare_zero z Hz); auto.
  apply signed_inf_not_finite. reflexivity.
Qed.

Lemma mul_not_finite_r (x y : number) :
  is_finite y = false -> is_finite (x * y)%num = false.
Proof.
  destruct x as [a| | |], y as [b| | |]; simpl; try discriminate; auto;
    unfold signed_inf; destruct (a ?= 0)%Q; reflexivity.
Qed.

Lemma mul_zero_not_finite (x y : number) :
  (x === of_Z 0)%num = true -> is_finite y = false -> (x * y)%num = NaN.
Proof.
  destruct x as [a| | |]; simpl; try discriminate.
  intros H. apply Qeq_bool_iff in H.
  destruct y as [b| | |]; simpl; try discriminate; intros _;
    unfold signed_inf; rewrite ?(Qcompare_zero a H); reflexivity.
Qed.

Lemma Qfloor_half (z : Z) (q : Q) : (q == inject_Z z)%Q -> Qfloor (q + (1 # 2)) = z.
Proof.
  intros H.
  assert (Hle : (inject_Z z <= q + (1 # 2))%Q) by (rewrite H; lra).
  assert (Hlt : (q + (1 # 2) < inject_Z (z + 1))%Q).
  { rewrite H, inject_Z_plus. change (inject_Z 1) with 1%Q. lra. }
  apply Qfloor_resp_le in Hle. rewrite Qfloor_Z in Hle.
  pose proof (Qfloor_le (q + (1 # 2))) as Hf.
  assert (Hz : (inject_Z (Qfloor (q + (1 # 2))) < inject_Z (z + 1))%Q)
    by (eapply Qle_lt_trans; eauto).
  rewrite <- Zlt_Qlt in Hz. lia.
Qed.

(** ** The layout calculator *)

(** The slider position of a layout does not depend on which of the two
    branches builds it. *)
Lemma create_slider (K : Constants) (options : MinimapOptions)
    (vStart vEnd vHeight : number) (gaps : bool)
    (lineCount center scrollTop scrollHeight : number) :
  let L := MinimapLayout.create K options vStart vEnd vHeight gaps
             lineCount center scrollTop scrollHeight in
  let pitch := of_Z (getMinimapLineHeight K (renderMinimap options)) in
  MinimapLayout.scrollTop L = scrollTop /\
  MinimapLayout._computedSliderRatio L =
    (min (minimapHeight options - MinimapLayout.sliderHeight L)
         ((lineCount - of_Z 1) * pitch / pixelRatio options)
     / (scrollHeight - vHeight))%num /\
  MinimapLayout.sliderTop L = (scrollTop * MinimapLayout._computedSliderRatio L)%num.
Proof.
  unfold MinimapLayout.create.
  destruct (_ >=? lineCount)%num; simpl; auto.
Qed.

Lemma pitch_positive (K : Constants) (renderMinimap : RenderMinimap) :
  positive_cells K -> (0 < getMinimapLineHeight K renderMinimap)%Z.
Proof.
  intros (H1 & _ & H2 & _). destruct renderMinimap; simpl; lia.
Qed.

(** C4.  Whenever the number of preview rows that fit in the buffer,
    [floor(canvasInnerHeight / minimapLineHeight)], is at least the line
    count, the layout's visible range is exactly [1 .. lineCount]. *)
Theorem create_full_fit (K : Constants) (options : MinimapOptions)
    (vStart vEnd vHeight : number) (gaps : bool)
    (lineCount center scrollTop scrollHeight : number) :
  (floor (canvasInnerHeight options
          / of_Z (getMinimapLineHeight K (renderMinimap options)))
   >=? lineCount)%num = true ->
  let L := MinimapLayout.create K options vStart vEnd vHeight gaps
             lineCount center scrollTop scrollHeight in
  MinimapLayout.startLineNumber L = of_Z 1 /\
  MinimapLayout.endLineNumber L = lineCount.
Proof.
  intros Hfit. unfold MinimapLayout.create. rewrite Hfit. split; reflexivity.
Qed.

Lemma create_full_fit_witness :
  let L := MinimapLayout.create sample_cells short_document
             (of_Z 1) (of_Z 10) (of_Z 600) false (of_Z 10) (of_Z 0) (of_Z 0) (of_Z 600) in
  MinimapLayout.startLineNumber L = of_Z 1 /\
  MinimapLayout.endLineNumber L = of_Z 10.
Proof.
  apply (create_full_fit sample_cells short_document
           (of_Z 1) (of_Z 10) (of_Z 600) false (of_Z 10) (of_Z 0) (of_Z 0) (of_Z 600)).
  reflexivity.
Defined.

(** C1, as stated, fails.  For the short document, whose scroll height
    equals its viewport height, the ratio is the quotient [36 / 0], which
    is [+Infinity], and the slider top [0 * Infinity] is [NaN], not [0]. *)
Lemma create_no_scroll_slider_top_nan :
  let L := MinimapLayout.create sample_cells short_document
             (of_Z 1) (of_Z 10) (of_Z 600) false (of_Z 10) (of_Z 0) (of_Z 0) (of_Z 600) in
  MinimapLayout._computedSliderRatio L = PInf /\
  MinimapLayout.sliderTop L = NaN /\
  MinimapLayout.sliderTop L <> of_Z 0.
Proof.
  cbv zeta. split; [reflexivity | split; [reflexivity | discriminate]].
Qed.

(** C1, amended.  When the scroll height equals the viewport height,
    [create] divides by the zero scrollable range without any guard: the
    ratio is [+Infinity], [-Infinity] or [NaN], and so is the slider top,
    which is [NaN] when the scroll offset is 0.  In no case is it 0. *)
Theorem create_no_scroll_not_finite (K : Constants) (options : MinimapOptions)
    (vStart vEnd vHeight : number) (gaps : bool)
    (lineCount center scrollTop scrollHeight : number) :
  (scrollHeight === vHeight)%num = true ->
  let L := MinimapLayout.create K options vStart vEnd vHeight gaps
             lineCount center scrollTop scrollHeight in
  is_finite (MinimapLayout._computedSliderRatio L) = false /\
  is_finite (MinimapLayout.sliderTop L) = false /\
  ((scrollTop === of_Z 0)%num = true -> MinimapLayout.sliderTop L = NaN).
Proof.
  intros Heq L.
  destruct (create_slider K options vStart vEnd vHeight gaps
              lineCount center scrollTop scrollHeight) as (_ & Hratio & Htop).
  fold L in Hratio, Htop.
  assert (Hr : is_finite (MinimapLayout._computedSliderRatio L) = false).
  { rewrite Hratio.
    destruct (sub_same _ _ Heq) as [(z & -> & Hz) | ->].
    - apply div_zero_not_finite, Hz.
    - destruct (min _ _); reflexivity. }
  split; [exact Hr|]. rewrite Htop. split.
  - apply mul_not_finite_r, Hr.
  - intros H0. apply mul_zero_not_finite; assumption.
Qed.

Lemma create_no_scroll_not_finite_witness :
  let L := MinimapLayout.create sample_cells short_document
             (of_Z 1) (of_Z 10) (of_Z 600) false (of_Z 10) (of_Z 0) (of_Z 0) (of_Z 600) in
  is_finite (MinimapLayout._computedSliderRatio L) = false /\
  is_finite (MinimapLayout.sliderTop L) = false /\
  ((of_Z 0 === of_Z 0)%num = true -> MinimapLayout.sliderTop L = NaN).
Proof.
  apply (create_no_scroll_not_finite sample_cells short_document
           (of_Z 1) (of_Z 10) (of_Z 600) false (of_Z 10) (of_Z 0) (of_Z 0) (of_Z 600)).
  reflexivity.
Defined.

(** C7, as stated, fails, in two ways.  For the short document, which does
    not scroll, the scroll offset 0 lies in [0 .. scrollHeight -
    viewportHeight] and the slider top is [NaN], so [sliderTop >= 0] is
    false.  With the tiny lines the slider is taller than the container:
    its top is negative, and at scroll offset 0 its bottom, 400, is below
    the container's 100 pixels. *)
Lemma create_slider_outside_container :
  (let scrollTop := of_Z 0 in
   let L := MinimapLayout.create sample_cells short_document
              (of_Z 1) (of_Z 10) (of_Z 600) false (of_Z 10) (of_Z 0) scrollTop (of_Z 600) in
   (of_Z 0 <=? scrollTop)%num = true /\
   (scrollTop <=? of_Z 600 - of_Z 600)%num = true /\
   (MinimapLayout.sliderTop L >=? of_Z 0)%num = false) /\
  (let scrollTop := of_Z 989 in
   let L := MinimapLayout.create sample_cells tiny_lines
              (of_Z 990) (of_Z 1000) (of_Z 100) false (of_Z 1000) (of_Z 0) scrollTop (of_Z 1099) in
   (of_Z 0 <=? scrollTop)%num = true /\
   (scrollTop <=? of_Z 1099 - of_Z 100)%num = true /\
   (MinimapLayout.sliderTop L >=? of_Z 0)%num = false) /\
  (let scrollTop := of_Z 0 in
   let L := MinimapLayout.create sample_cells tiny_lines
              (of_Z 1) (of_Z 100) (of_Z 100) false (of_Z 1000) (of_Z 0) scrollTop (of_Z 1099) in
   (of_Z 0 <=? scrollTop)%num = true /\
   (scrollTop <=? of_Z 1099 - of_Z 100)%num = true /\
   (MinimapLayout.sliderTop L + MinimapLayout.sliderHeight L
    <=? minimapHeight tiny_lines)%num = false).
Proof.
  cbv zeta. repeat apply conj; reflexivity.
Qed.

(** C9.  [getDesiredScrollTopFromDelta delta] is [round((sliderTop + delta)
    / computedSliderRatio)], and it inverts the slider position: for a
    layout created from an integer scroll offset with a finite, non-zero
    ratio, the delta 0 maps back to that scroll offset. *)
Theorem getDesiredScrollTopFromDelta_inverse (K : Constants) (options : MinimapOptions)
    (vStart vEnd vHeight : number) (gaps : bool)
    (lineCount center scrollHeight delta : number) (scrollTop : Z) (ratio : Q) :
  let L := MinimapLayout.create K options vStart vEnd vHeight gaps
             lineCount center (of_Z scrollTop) scrollHeight in
  MinimapLayout._computedSliderRatio L = Fin ratio ->
  ~ (ratio == 0)%Q ->
  MinimapLayout.getDesiredScrollTopFromDelta L delta
    = round ((MinimapLayout.sliderTop L + delta) / MinimapLayout._computedSliderRatio L)%num /\
  MinimapLayout.sliderTop L = (of_Z scrollTop * Fin ratio)%num /\
  MinimapLayout.getDesiredScrollTopFromDelta L (of_Z 0) = of_Z scrollTop.
Proof.
  intros L Hratio Hnz.
  destruct (create_slider K options vStart vEnd vHeight gaps
              lineCount center (of_Z scrollTop) scrollHeight) as (_ & _ & Htop).
  fold L in Htop. rewrite Hratio in Htop.
  split; [reflexivity|]. split; [exact Htop|].
  unfold MinimapLayout.getDesiredScrollTopFromDelta. rewrite Htop, Hratio.
  unfold of_Z. cbn [mul add div].
  destruct (ratio ?= 0)%Q eqn:Hc;
    [ apply Qeq_alt in Hc; contradiction | | ];
    cbn [round]; unfold of_Z; do 2 f_equal; apply Qfloor_half; field; exact Hnz.
Qed.

Lemma getDesiredScrollTopFromDelta_inverse_witness :
  let L := MinimapLayout.create sample_cells short_document
             (of_Z 6) (of_Z 35) (of_Z 600) false (of_Z 1000) (of_Z 0) (of_Z 100)
             (of_Z 20580) in
  MinimapLayout.getDesiredScrollTopFromDelta L (of_Z 7)
    = round ((MinimapLayout.sliderTop L + of_Z 7) / MinimapLayout._computedSliderRatio L)%num /\
  MinimapLayout.sliderTop L = (of_Z 100 * Fin (480 # 19980))%num /\
  MinimapLayout.getDesiredScrollTopFromDelta L (of_Z 0) = of_Z 100.
Proof.
  apply (getDesiredScrollTopFromDelta_inverse sample_cells short_document
           (of_Z 6) (of_Z 35) (of_Z 600) false (of_Z 1000) (of_Z 0) (of_Z 20580)
           (of_Z 7) 100 (480 # 19980)).
  - reflexivity.
  - intros H. vm_compute in H. discriminate.
Defined.

(** ** The slider drag *)

(** C3.  During a drag on Windows, started by a left button press on the
    slider after a frame was rendered, a pointer move whose horizontal
    distance from the initial pointer position exceeds 140 requests the
    scroll offset of the layout captured at drag start, whatever the
    vertical position of the pointer. *)
Theorem sliderMouseMove_snaps_back (this : Minimap) (lastRenderData : RenderData)
    (e_posx e_posy : number) (mouseMoveData : IStandardMouseMoveEventData) :
  _lastRenderData this = Some lastRenderData ->
  (abs (posx mouseMoveData - e_posx) >? of_Z 140)%num = true ->
  exists drag : SliderDrag,
    sliderMouseDown this true e_posx e_posy = Some drag
    /\ initialSliderState drag = renderedLayout lastRenderData
    /\ sliderMouseMove true drag mouseMoveData
       = MinimapLayout.scrollTop (renderedLayout lastRenderData).
Proof.
  intros Hframe Hfar. unfold sliderMouseDown. rewrite Hframe.
  eexists. split; [reflexivity|]. split; [reflexivity|].
  unfold sliderMouseMove, MOUSE_DRAG_RESET_DISTANCE.
  cbn [initialMousePosition initialMouseOrthogonalPosition initialSliderState].
  rewrite Hfar. reflexivity.
Qed.

(** A drag started after the first frame of the 10 line document, then
    moved 200 pixels to the left and 150 down. *)
Lemma sliderMouseMove_snaps_back_witness :
  exists drag : SliderDrag,
    sliderMouseDown after_first_frame true (of_Z 1200) (of_Z 300) = Some drag
    /\ initialSliderState drag = renderedLayout first_frame_data
    /\ sliderMouseMove true drag {| posx := of_Z 1000; posy := of_Z 450 |} = of_Z 0.
Proof.
  apply (sliderMouseMove_snaps_back after_first_frame first_frame_data
           (of_Z 1200) (of_Z 300) {| posx := of_Z 1000; posy := of_Z 450 |});
    reflexivity.
Defined.

(** ** The line rasterizer *)

Section RenderLineProperties.

Variable K : Constants.
Variable target_width : Z.
Variable backgroundColor : RGBA.
Variable useLighterFont : bool.
Variable renderMinimap : RenderMinimap.
Variable line_dy_ : Z.
Variable tabSize : Z.
Variable content_ : list Z.

Local Notation "'charWidth'" := (getMinimapCharWidth K renderMinimap).
Local Notation "'render_char_'" :=
  (render_char K target_width backgroundColor useLighterFont renderMinimap
     line_dy_ tabSize content_).
Local Notation "'render_chars_'" :=
  (render_chars K target_width backgroundColor useLighterFont renderMinimap
     line_dy_ tabSize content_).
Local Notation "'render_tokens_'" :=
  (render_tokens K target_width backgroundColor useLighterFont renderMinimap
     line_dy_ tabSize content_).
Local Notation "'draw_char_'" :=
  (draw_char backgroundColor useLighterFont renderMinimap line_dy_).
Local Notation "'within_target_'" := (within_target K target_width renderMinimap).

Lemma call_dx_draw_char (x : Z) (charCode : option Z) (tokenColor : RGBA) :
  call_dx (draw_char_ x charCode tokenColor) = x.
Proof. unfold draw_char. destruct renderMinimap; reflexivity. Qed.

Lemma render_char_within (tokenColor : RGBA) (c : LineCursor) :
  within_target_ c -> within_target_ (cursor_of (render_char_ tokenColor c)).
Proof.
  intros Hc. unfold render_char.
  destruct (Z.gtb_spec (dx c) (target_width - charWidth)) as [Hedge | Hroom];
    [exact Hc|].
  repeat case_decide; simpl; try exact Hc.
  unfold within_target. simpl. apply Forall_app. split; [exact Hc|].
  constructor; [|constructor]. rewrite call_dx_draw_char. lia.
Qed.

Lemma render_chars_within (tokenColor : RGBA) (n : nat) (c : LineCursor) :
  within_target_ c -> within_target_ (cursor_of (render_chars_ tokenColor n c)).
Proof.
  revert c. induction n as [|n IH]; intros c Hc; simpl; [exact Hc|].
  pose proof (render_char_within tokenColor c Hc) as Hstep.
  destruct (render_char_ tokenColor c) as [c' | c']; simpl in Hstep.
  - apply IH, Hstep.
  - exact Hstep.
Qed.

Lemma render_tokens_within (getColor : ColorId -> RGBA) (tokens : list ViewLineToken)
    (c : LineCursor) :
  within_target_ c -> within_target_ (cursor_of (render_tokens_ getColor tokens c)).
Proof.
  revert c. induction tokens as [|token rest IH]; intros c Hc; simpl; [exact Hc|].
  pose proof (render_chars_within (getColor (getForeground token))
                (Z.to_nat (endIndex token - charIndex c)) c Hc) as Hstep.
  destruct (render_chars_ _ _ c) as [c' | c']; simpl in Hstep.
  - apply IH, Hstep.
  - exact Hstep.
Qed.

(** Past the right edge the loops make no further call. *)
Lemma render_chars_past_edge (tokenColor : RGBA) (n : nat) (c : LineCursor) :
  (dx c > target_width - charWidth)%Z ->
  render_chars_ tokenColor n c = Running c /\ n = O
  \/ render_chars_ tokenColor n c = Returned c.
Proof.
  intros Hedge. destruct n as [|n]; [left; split; reflexivity|].
  right. simpl. unfold render_char.
  destruct (Z.gtb_spec (dx c) (target_width - charWidth)); [reflexivity | lia].
Qed.

Lemma render_tokens_past_edge (getColor : ColorId -> RGBA) (tokens : list ViewLineToken)
    (c : LineCursor) :
  (dx c > target_width - charWidth)%Z ->
  cursor_of (render_tokens_ getColor tokens c) = c.
Proof.
  intros Hedge. induction tokens as [|token rest IH]; simpl; [reflexivity|].
  destruct (render_chars_past_edge (getColor (getForeground token))
              (Z.to_nat (endIndex token - charIndex c)) c Hedge) as [[-> _] | ->].
  - exact IH.
  - reflexivity.
Qed.

(** The three cases of the loop body, away from the right edge. *)
Lemma render_char_tab (tokenColor : RGBA) (c : LineCursor) :
  (dx c <= target_width - charWidth)%Z ->
  charCodeAt content_ (charIndex c) = Some CharCode.Tab ->
  render_char_ tokenColor c =
  Running {| dx := dx c + (tabSize - Z.rem (charIndex c + tabsCharDelta c) tabSize)
                         * charWidth;
             charIndex := charIndex c + 1;
             tabsCharDelta :=
               tabsCharDelta c
               + (tabSize - Z.rem (charIndex c + tabsCharDelta c) tabSize - 1);
             calls := calls c |}.
Proof.
  intros Hroom Htab. unfold render_char.
  destruct (Z.gtb_spec (dx c) (target_width - charWidth)); [lia|].
  rewrite Htab. rewrite decide_True by reflexivity. reflexivity.
Qed.

Lemma render_char_space (tokenColor : RGBA) (c : LineCursor) :
  (dx c <= target_width - charWidth)%Z ->
  charCodeAt content_ (charIndex c) = Some CharCode.Space ->
  render_char_ tokenColor c =
  Running {| dx := dx c + charWidth;
             charIndex := charIndex c + 1;
             tabsCharDelta := tabsCharDelta c;
             calls := calls c |}.
Proof.
  intros Hroom Hspace. unfold render_char.
  destruct (Z.gtb_spec (dx c) (target_width - charWidth)); [lia|].
  rewrite Hspace. rewrite decide_False by discriminate.
  rewrite decide_True by reflexivity. reflexivity.
Qed.

Lemma render_char_visible (tokenColor : RGBA) (c : LineCursor) :
  (dx c <= target_width - charWidth)%Z ->
  charCodeAt content_ (charIndex c) <> Some CharCode.Tab ->
  charCodeAt content_ (charIndex c) <> Some CharCode.Space ->
  render_char_ tokenColor c =
  Running {| dx := dx c + charWidth;
             charIndex := charIndex c + 1;
             tabsCharDelta := tabsCharDelta c;
             calls := calls c ++ [draw_char_ (dx c)
                                    (charCodeAt content_ (charIndex c)) tokenColor] |}.
Proof.
  intros Hroom Htab Hspace. unfold render_char.
  destruct (Z.gtb_spec (dx c) (target_width - charWidth)); [lia|].
  rewrite !decide_False by assumption. reflexivity.
Qed.

(** Every call carries the vertical offset of the line. *)
Lemma render_char_dy (tokenColor : RGBA) (c : LineCursor) :
  Forall (fun call => call_dy call = line_dy_) (calls c) ->
  Forall (fun call => call_dy call = line_dy_)
    (calls (cursor_of (render_char_ tokenColor c))).
Proof.
  intros Hc. unfold render_char.
  destruct (dx c >? target_width - charWidth)%Z; [exact Hc|].
  repeat case_decide; simpl; try exact Hc.
  apply Forall_app. split; [exact Hc|].
  constructor; [|constructor]. unfold draw_char. destruct renderMinimap; reflexivity.
Qed.

Lemma render_tokens_dy (getColor : ColorId -> RGBA) (tokens : list ViewLineToken)
    (c : LineCursor) :
  Forall (fun call => call_dy call = line_dy_) (calls c) ->
  Forall (fun call => call_dy call = line_dy_)
    (calls (cursor_of (render_tokens_ getColor tokens c))).
Proof.
  revert c. induction tokens as [|token rest IH]; intros c Hc; simpl; [exact Hc|].
  assert (Hchars : forall n c0,
            Forall (fun call => call_dy call = line_dy_) (calls c0) ->
            Forall (fun call => call_dy call = line_dy_)
              (calls (cursor_of (render_chars_ (getColor (getForeground token)) n c0)))).
  { induction n as [|n IHn]; intros c0 Hc0; simpl; [exact Hc0|].
    pose proof (render_char_dy (getColor (getForeground token)) c0 Hc0) as Hstep.
    destruct (render_char_ _ c0) as [c1 | c1]; simpl in Hstep.
    - apply IHn, Hstep.
    - exact Hstep. }
  specialize (Hchars (Z.to_nat (endIndex token - charIndex c)) c Hc).
  destruct (render_chars_ _ _ c) as [c' | c']; simpl in Hchars.
  - apply IH, Hchars.
  - exact Hchars.
Qed.

End RenderLineProperties.

(** [_renderLine] draws the whole line at the vertical offset it is given. *)
Lemma _renderLine_dy (K : Constants) (target_width : Z) (backgroundColor : RGBA)
    (useLighterFont : bool) (renderMinimap : RenderMinimap)
    (getColor : ColorId -> RGBA) (dy tabSize : Z) (lineData : ViewLineData) :
  Forall (fun call => call_dy call = dy)
    (_renderLine K target_width backgroundColor useLighterFont renderMinimap
       getColor dy tabSize lineData).
Proof.
  unfold _renderLine. apply render_tokens_dy. constructor.
Qed.

Lemma charWidth_positive (K : Constants) (renderMinimap : RenderMinimap) :
  positive_cells K -> (0 < getMinimapCharWidth K renderMinimap)%Z.
Proof.
  intros (_ & H1 & _ & H2). destruct renderMinimap; simpl; lia.
Qed.

(** C5.  No glyph cell is drawn at a horizontal position beyond
    [target.width - charWidth]: every call of the character renderer made
    by [_renderLine] has [dx <= target.width - charWidth], that is
    [dx + charWidth <= target.width]; and once the cursor is past that
    bound, the characters that remain make no call.  (Tab sizes are
    positive.) *)
Theorem _renderLine_clips_at_right_edge (K : Constants) (target_width : Z)
    (backgroundColor : RGBA) (useLighterFont : bool) (renderMinimap : RenderMinimap)
    (getColor : ColorId -> RGBA) (dy tabSize : Z) (lineData : ViewLineData) :
  (0 < tabSize)%Z ->
  let charWidth := getMinimapCharWidth K renderMinimap in
  Forall (fun call => (call_dx call <= target_width - charWidth)%Z
                      /\ (call_dx call + charWidth <= target_width)%Z)
    (_renderLine K target_width backgroundColor useLighterFont renderMinimap
       getColor dy tabSize lineData)
  /\ forall (rest : list ViewLineToken) (c : LineCursor),
       (dx c > target_width - charWidth)%Z ->
       calls (cursor_of
                (render_tokens K target_width backgroundColor useLighterFont
                   renderMinimap dy tabSize (content lineData) getColor rest c))
       = calls c.
Proof.
  intros _ charWidth. split.
  - pose proof (render_tokens_within K target_width backgroundColor useLighterFont
                  renderMinimap dy tabSize (content lineData) getColor
                  (tokens lineData)
                  {| dx := 0; charIndex := 0; tabsCharDelta := 0; calls := [] |})
      as Hall.
    unfold within_target in Hall. unfold _renderLine.
    eapply Forall_impl; [apply Hall; constructor|].
    intros call Hcall. simpl in Hcall. fold charWidth in Hcall. lia.
  - intros rest c Hedge. f_equal. apply render_tokens_past_edge. exact Hedge.
Qed.

(** In a target 9 pixels wide with the 2 pixel cells of the large glyphs,
    [b] would be drawn at 8, beyond 9 - 2: only [a] is drawn. *)
Lemma _renderLine_clips_at_right_edge_witness :
  _renderLine sample_cells 9%Z black false Large (fun _ => white) 0%Z 4%Z (a_tab_b 1%Z)
  = [x2RenderChar 0%Z 0%Z (Some 97%Z) white black false]
  /\ Forall (fun call => (call_dx call <= 9 - 2)%Z /\ (call_dx call + 2 <= 9)%Z)
       (_renderLine sample_cells 9%Z black false Large (fun _ => white) 0%Z 4%Z (a_tab_b 1%Z)).
Proof.
  split; [reflexivity|].
  apply (_renderLine_clips_at_right_edge sample_cells 9%Z black false Large
           (fun _ => white) 0%Z 4%Z (a_tab_b 1%Z)).
  lia.
Defined.

(** C6.  Away from the right edge, a tab advances the horizontal cursor by
    [tabSize - (charIndex + tabsCharDelta) % tabSize] cell widths and a
    space by one cell width, and neither makes a call; for the line
    ["a<tab>b"] with tab size 4, rendered from column 0 into a target at
    least 5 cells wide, [a] is drawn at 0 and [b] at [4 * charWidth]. *)
Theorem _renderLine_tab_expansion (K : Constants) (target_width : Z)
    (backgroundColor : RGBA) (useLighterFont : bool) (renderMinimap : RenderMinimap)
    (dy tabSize : Z) (text : list Z) :
  positive_cells K ->
  (0 < tabSize)%Z ->
  let charWidth := getMinimapCharWidth K renderMinimap in
  (forall (tokenColor : RGBA) (c : LineCursor),
     (dx c <= target_width - charWidth)%Z ->
     charCodeAt text (charIndex c) = Some CharCode.Tab ->
     exists c',
       render_char K target_width backgroundColor useLighterFont renderMinimap
         dy tabSize text tokenColor c = Running c'
       /\ dx c' = (dx c + (tabSize - Z.rem (charIndex c + tabsCharDelta c) tabSize)
                         * charWidth)%Z
       /\ charIndex c' = (charIndex c + 1)%Z
       /\ calls c' = calls c)
  /\ (forall (tokenColor : RGBA) (c : LineCursor),
        (dx c <= target_width - charWidth)%Z ->
        charCodeAt text (charIndex c) = Some CharCode.Space ->
        exists c',
          render_char K target_width backgroundColor useLighterFont renderMinimap
            dy tabSize text tokenColor c = Running c'
          /\ dx c' = (dx c + charWidth)%Z
          /\ charIndex c' = (charIndex c + 1)%Z
          /\ calls c' = calls c)
  /\ (forall (getColor : ColorId -> RGBA) (foreground : ColorId),
        (5 * charWidth <= target_width)%Z ->
        _renderLine K target_width backgroundColor useLighterFont renderMinimap
          getColor dy 4%Z (a_tab_b foreground)
        = [draw_char backgroundColor useLighterFont renderMinimap dy
             0%Z (Some 97%Z) (getColor foreground);
           draw_char backgroundColor useLighterFont renderMinimap dy
             (4 * charWidth)%Z (Some 98%Z) (getColor foreground)]).
Proof.
  intros HK _ charWidth.
  pose proof (charWidth_positive K renderMinimap HK) as Hcw. fold charWidth in Hcw.
  split; [|split].
  - intros tokenColor c Hroom Htab. eexists. split.
    + apply render_char_tab; assumption.
    + simpl. auto.
  - intros tokenColor c Hroom Hspace. eexists. split.
    + apply render_char_space; assumption.
    + simpl. auto.
  - intros getColor foreground Hwide.
    unfold _renderLine, a_tab_b.
    cbn [content tokens render_tokens endIndex getForeground charIndex].
    change (Z.to_nat (3 - 0)) with 3%nat. cbn [render_chars].
    rewrite render_char_visible; cbn [dx charIndex tabsCharDelta calls];
      [| fold charWidth; lia | discriminate | discriminate].
    rewrite render_char_tab; cbn [dx charIndex tabsCharDelta calls];
      [| fold charWidth; lia | reflexivity].
    change (Z.rem (0 + 1 + 0) 4) with 1%Z. fold charWidth.
    rewrite render_char_visible; cbn [dx charIndex tabsCharDelta calls];
      [| fold charWidth; lia | discriminate | discriminate].
    cbn [cursor_of calls app]. fold charWidth.
    replace (0 + charWidth + (4 - 1) * charWidth)%Z with (4 * charWidth)%Z by lia.
    reflexivity.
Qed.

Lemma _renderLine_tab_expansion_witness :
  _renderLine sample_cells 10%Z black false Large (fun _ => white) 0%Z 4%Z (a_tab_b 1%Z)
  = [x2RenderChar 0%Z 0%Z (Some 97%Z) white black false;
     x2RenderChar 8%Z 0%Z (Some 98%Z) white black false].
Proof.
  apply (_renderLine_tab_expansion sample_cells 10%Z black false Large 0%Z 4%Z [97; 9; 98]%Z);
    try (unfold positive_cells; simpl; lia).
Defined.

Local Open Scope Z_scope.

(** ** Typed arrays and the two buffers *)

Lemma byte_at_ext (a1 a2 : Uint8ClampedArray) :
  (forall x, byte_at a1 x = byte_at a2 x) -> a1 = a2.
Proof.
  intros H. apply list_eq. intros i. specialize (H (Z.of_nat i)).
  unfold byte_at in H. destruct (Z.ltb_spec (Z.of_nat i) 0); [lia|].
  rewrite Nat2Z.id in H. exact H.
Qed.

Lemma subarray_length (a : Uint8ClampedArray) (s e : Z) :
  0 <= s <= e -> e <= Z.of_nat (length a) ->
  Z.of_nat (length (subarray a s e)) = e - s.
Proof.
  intros Hse He. unfold subarray, clamp_index.
  destruct (Z.ltb_spec s 0); [lia|]. destruct (Z.ltb_spec e 0); [lia|].
  rewrite length_take, length_drop. lia.
Qed.

Lemma subarray_byte_at (a : Uint8ClampedArray) (s e j : Z) :
  0 <= s <= e -> e <= Z.of_nat (length a) -> 0 <= j < e - s ->
  byte_at (subarray a s e) j = byte_at a (s + j).
Proof.
  intros Hse He Hj. unfold byte_at, subarray, clamp_index.
  destruct (Z.ltb_spec s 0); [lia|]. destruct (Z.ltb_spec e 0); [lia|].
  destruct (Z.ltb_spec j 0); [lia|]. destruct (Z.ltb_spec (s + j) 0); [lia|].
  unfold Uint8ClampedArray in *. rewrite lookup_take_lt by lia. rewrite lookup_drop. f_equal. lia.
Qed.

Lemma set_spec (target source : Uint8ClampedArray) (offset : Z) :
  0 <= offset -> offset + Z.of_nat (length source) <= Z.of_nat (length target) ->
  exists d, set target source offset = Ok d /\
    length d = length target /\
    forall x, byte_at d x =
      if (offset <=? x) && (x <? offset + Z.of_nat (length source))
      then byte_at source (x - offset) else byte_at target x.
Proof.
  intros H0 Hfit. unfold set.
  destruct (Z.leb_spec 0 offset); [|lia].
  destruct (Z.leb_spec (offset + Z.of_nat (length source)) (Z.of_nat (length target))); [|lia].
  simpl. eexists. split; [reflexivity|]. split.
  - rewrite !length_app, length_take, length_drop. lia.
  - intros x. unfold byte_at, Uint8ClampedArray in *.
    destruct (Z.ltb_spec x 0) as [Hx|Hx].
    { destruct (Z.leb_spec offset x); [lia|]. reflexivity. }
    destruct (Z.leb_spec offset x) as [Hox|Hox]; simpl.
    + destruct (Z.ltb_spec x (offset + Z.of_nat (length source))) as [Hxs|Hxs].
      * destruct (Z.ltb_spec (x - offset) 0); [lia|].
        rewrite lookup_app_r by (rewrite length_take; lia).
        rewrite lookup_app_l by (rewrite length_take; lia).
        f_equal. rewrite length_take. lia.
      * rewrite lookup_app_r by (rewrite length_take; lia).
        rewrite lookup_app_r by (rewrite length_take; lia).
        rewrite lookup_drop. f_equal. rewrite length_take. lia.
    + rewrite lookup_app_l by (rewrite length_take; lia).
      rewrite lookup_take_lt by lia. reflexivity.
Qed.

Lemma array_store_push {A : Type} (hole : A) (a : list A) (i : Z) (v : A) :
  Z.of_nat (length a) = i -> array_store hole a i v = a ++ [v].
Proof.
  intros Hi. unfold array_store.
  destruct (Z.ltb_spec i 0); [lia|].
  destruct (Z.ltb_spec i (Z.of_nat (length a))); [lia|].
  replace (Z.to_nat i - length a)%nat with 0%nat by lia. reflexivity.
Qed.

Lemma deref_assign_same (bufs : Buffers) (i : Slot) (img : ImageData) :
  deref (assign bufs i img) i = img.
Proof. destruct i; reflexivity. Qed.

Lemma deref_assign_other (bufs : Buffers) (i j : Slot) (img : ImageData) :
  i <> j -> deref (assign bufs i img) j = deref bufs j.
Proof. destruct i, j; simpl; congruence. Qed.

Lemma flush_spec (bufs : Buffers) (target last : Slot) (cs ce cd : Z) :
  target <> last ->
  0 <= cs <= ce -> ce <= Z.of_nat (length (data (deref bufs last))) ->
  0 <= cd -> cd + (ce - cs) <= Z.of_nat (length (data (deref bufs target))) ->
  exists bufs',
    flush bufs target last cs ce cd = Ok bufs' /\
    deref bufs' last = deref bufs last /\
    length (data (deref bufs' target)) = length (data (deref bufs target)) /\
    forall x, byte_at (data (deref bufs' target)) x =
      if (cd <=? x) && (x <? cd + (ce - cs))
      then byte_at (data (deref bufs last)) (cs + (x - cd))
      else byte_at (data (deref bufs target)) x.
Proof.
  intros Hdiff Hcs Hce Hcd Hfit. unfold flush.
  pose proof (subarray_length (data (deref bufs last)) cs ce Hcs Hce) as Hlen.
  destruct (set_spec (data (deref bufs target))
              (subarray (data (deref bufs last)) cs ce) cd Hcd)
    as (d & -> & Hd & Hbytes); [lia|].
  simpl. eexists. split; [reflexivity|].
  rewrite deref_assign_same, deref_assign_other by exact Hdiff.
  split; [reflexivity|]. split; [exact Hd|].
  intros x. simpl. rewrite Hbytes, Hlen.
  destruct (Z.leb_spec cd x); simpl; [|reflexivity].
  destruct (Z.ltb_spec x (cd + (ce - cs))); [|reflexivity].
  apply subarray_byte_at; lia.
Qed.

Lemma offset_mono (WIDTH y y' : Z) :
  0 <= WIDTH -> y <= y' -> y * WIDTH * 4 <= y' * WIDTH * 4.
Proof. intros HW H. nia. Qed.

(** ** The render-reuse engine *)

Section Reuse.

Variable bufs : Buffers.
Variables target last : Slot.
Variable WIDTH : Z.
Variables startLineNumber minimapLineHeight lastStartLineNumber : Z.
Variable lastLines : list MinimapLine.
Variable count : Z.

Hypothesis distinct : target <> last.
Hypothesis pitch_pos : 0 < minimapLineHeight.
Hypothesis width_nonneg : 0 <= WIDTH.
Hypothesis records_within :
  forall idx, line_dy lastLines idx <> -1 ->
    0 <= line_dy lastLines idx
    /\ (line_dy lastLines idx + minimapLineHeight) * WIDTH * 4
       <= Z.of_nat (length (data (deref bufs last))).
Hypothesis rows_within :
  count * minimapLineHeight * WIDTH * 4 <= Z.of_nat (length (data (deref bufs target))).

Local Notation "'inv'" :=
  (reuse_inv bufs target last WIDTH startLineNumber minimapLineHeight
     lastStartLineNumber lastLines).
Local Notation "'step'" :=
  (untouched_line target last WIDTH startLineNumber minimapLineHeight
     lastStartLineNumber lastLines).


(** Flushing the pending request of a state that satisfies the invariant. *)
Lemma flush_pending (i : Z) (s : Untouched) :
  0 <= i <= count -> inv i s -> copySourceStart s <> -1 ->
  exists bufs',
    flush (store s) target last (copySourceStart s) (copySourceEnd s) (copyDestStart s)
    = Ok bufs' /\
    deref bufs' last = deref bufs last /\
    length (data (deref bufs' target)) = length (data (deref bufs target)) /\
    forall k, 0 <= k < i ->
      let d := line_dy lastLines (startLineNumber + k - lastStartLineNumber) in
      d <> -1 ->
      forall j, 0 <= j < minimapLineHeight * WIDTH * 4 ->
        byte_at (data (deref bufs' target)) (k * minimapLineHeight * WIDTH * 4 + j)
        = byte_at (data (deref bufs last)) (d * WIDTH * 4 + j).
Proof using All.
  intros Hi [Hdy Hn Hlast Hsize Hpend Hlines] Hsome.
  destruct Hpend as [[? _] | (Hcs & Hce & Hcd & Hlen & Hcde)]; [contradiction|].
  pose proof (offset_mono WIDTH (i * minimapLineHeight) (count * minimapLineHeight)
                width_nonneg ltac:(nia)) as Hic.
  destruct (flush_spec (store s) target last (copySourceStart s) (copySourceEnd s)
              (copyDestStart s) distinct Hcs) as (bufs' & Hflush & Hl & Hsz & Hbytes).
  { rewrite Hlast. exact Hce. }
  { exact Hcd. }
  { rewrite Hsize. lia. }
  exists bufs'. split; [exact Hflush|]. split; [congruence|]. split; [congruence|].
  intros k Hk d Hd j Hj.
  destruct (Hlines k Hk Hd) as [_ [(_ & Hlo & Hhi & Hoff) | (Heq & Hbefore)]].
  - rewrite Hbytes.
    destruct (Z.leb_spec (copyDestStart s) (k * minimapLineHeight * WIDTH * 4 + j)); [|lia].
    destruct (Z.ltb_spec (k * minimapLineHeight * WIDTH * 4 + j)
                (copyDestStart s + (copySourceEnd s - copySourceStart s))); [|lia].
    simpl. rewrite Hlast. f_equal. fold d in Hoff. lia.
  - specialize (Hbefore Hsome). rewrite Hbytes.
    destruct (Z.leb_spec (copyDestStart s) (k * minimapLineHeight * WIDTH * 4 + j));
      [lia|].
    simpl. apply Heq. exact Hj.
Qed.


Lemma flush_if_pending (i : Z) (s : Untouched) :
  0 <= i <= count -> inv i s ->
  exists bufs',
    (if negb (copySourceStart s =? -1)
     then flush (store s) target last (copySourceStart s)
            (copySourceEnd s) (copyDestStart s)
     else Ok (store s)) = Ok bufs' /\
    deref bufs' last = deref bufs last /\
    length (data (deref bufs' target)) = length (data (deref bufs target)) /\
    forall k, 0 <= k < i ->
      let d := line_dy lastLines (startLineNumber + k - lastStartLineNumber) in
      d <> -1 ->
      forall j, 0 <= j < minimapLineHeight * WIDTH * 4 ->
        byte_at (data (deref bufs' target)) (k * minimapLineHeight * WIDTH * 4 + j)
        = byte_at (data (deref bufs last)) (d * WIDTH * 4 + j).
Proof using All.
  intros Hi Hinv.
  destruct (Z.eqb_spec (copySourceStart s) (-1)) as [Hnone | Hsome]; simpl.
  - destruct Hinv as [_ _ Hlast Hsize _ Hlines].
    exists (store s). split; [reflexivity|]. split; [assumption|].
    split; [assumption|].
    intros k Hk Hd j Hj.
    destruct (Hlines k Hk Hd) as [_ [(? & _) | (Heq & _)]]; [contradiction|].
    apply Heq, Hj.
  - apply (flush_pending i s); [lia | exact Hinv | exact Hsome].
Qed.

Lemma untouched_line_inv (i : Z) (s : Untouched) :
  0 <= i < count -> inv i s ->
  exists s', step (startLineNumber + i) s = Ok s' /\ inv (i + 1) s'.
Proof using All.
  intros Hi Hinv.
  pose proof Hinv as [Hdy Hn Hlast Hsize Hpend Hlines].
  pose proof (offset_mono WIDTH (i * minimapLineHeight)
                (i * minimapLineHeight + minimapLineHeight) width_nonneg ltac:(lia))
    as Hrow.
  unfold untouched_line.
  replace (startLineNumber + i - startLineNumber) with i by lia.
  set (d := line_dy lastLines (startLineNumber + i - lastStartLineNumber)).
  assert (Hpush : forall v, array_store false (needed s) i v = needed s ++ [v])
    by (intros v; apply array_store_push; exact Hn).
  assert (Hold : forall v k, 0 <= k < i ->
            needed s !! Z.to_nat k = Some false ->
            (needed s ++ [v]) !! Z.to_nat k = Some false).
  { intros v k Hk Hlook. rewrite lookup_app_l by lia. exact Hlook. }
  assert (Hnew : forall v, (needed s ++ [v]) !! Z.to_nat i = Some v).
  { intros v. rewrite lookup_app_r by lia.
    replace (Z.to_nat i - length (needed s))%nat with 0%nat by lia. reflexivity. }
  destruct (Z.eqb_spec d (-1)) as [Hinvalid | Hvalid].
  - (* nothing to reuse *)
    eexists. split; [reflexivity|]. rewrite Hpush.
    constructor; simpl; try assumption.
    + lia.
    + rewrite length_app. simpl. lia.
    + destruct Hpend as [? | (? & ? & ? & ? & ?)]; [left; assumption|].
      right. repeat split; try lia.
    + intros k Hk. cbv zeta. intros Hd'.
      destruct (Z.eq_dec k i) as [-> | Hki]; [contradiction|].
      destruct (Hlines k ltac:(lia) Hd') as [Hlook Hcase].
      split; [apply Hold; [lia | exact Hlook]|]. exact Hcase.
  - destruct (records_within _ Hvalid) as [Hd0 Hdfit]. fold d in Hd0, Hdfit.
    assert (Hsrc : 0 <= d * WIDTH * 4 <= (d + minimapLineHeight) * WIDTH * 4) by nia.
    rewrite Hdy.
    destruct ((copySourceEnd s =? d * WIDTH * 4)
              && (copyDestEnd s =? i * minimapLineHeight * WIDTH * 4)) eqn:Hcontig.
    + (* contiguous zone *)
      apply andb_true_iff in Hcontig. destruct Hcontig as [Hce Hcde].
      apply Z.eqb_eq in Hce, Hcde.
      destruct Hpend as [[_ ?] | (Hcs & Hcefit & Hcd & Hlen & _)]; [lia|].
      eexists. split; [reflexivity|]. rewrite Hpush.
      constructor; simpl; try assumption.
      * lia.
      * rewrite length_app. simpl. lia.
      * right. repeat split; try lia.
      * intros k Hk. cbv zeta. intros Hd'.
        destruct (Z.eq_dec k i) as [-> | Hki].
        { split; [apply Hnew|]. left. fold d. repeat split; lia. }
        destruct (Hlines k ltac:(lia) Hd') as [Hlook Hcase].
        split; [apply Hold; [lia | exact Hlook]|].
        destruct Hcase as [(? & ? & ? & ?) | (? & ?)]; [left | right].
        -- repeat split; lia.
        -- split; assumption.
    + (* a new zone: the pending request, if any, is flushed *)
      destruct (flush_if_pending i s ltac:(lia) Hinv) as (bufs' & -> & Hl' & Hsz' & Hbytes').
      simpl. eexists. split; [reflexivity|]. rewrite Hpush.
      constructor; simpl; try assumption.
      * lia.
      * rewrite length_app. simpl. lia.
      * right. repeat split; try lia.
      * intros k Hk. cbv zeta. intros Hd'.
        destruct (Z.eq_dec k i) as [-> | Hki].
        { split; [apply Hnew|]. left. fold d. repeat split; lia. }
        destruct (Hlines k ltac:(lia) Hd') as [Hlook _].
        split; [apply Hold; [lia | exact Hlook]|].
        right. split.
        -- apply Hbytes'; [lia | exact Hd'].
        -- intros _.
           pose proof (offset_mono WIDTH (k * minimapLineHeight + minimapLineHeight)
                         (i * minimapLineHeight) width_nonneg ltac:(nia)).
           lia.
Qed.

Lemma untouched_lines_inv (n : nat) (i : Z) (s : Untouched) :
  0 <= i -> i + Z.of_nat n <= count -> inv i s ->
  exists s',
    untouched_lines target last WIDTH startLineNumber minimapLineHeight
      lastStartLineNumber lastLines n (startLineNumber + i) s = Ok s'
    /\ inv (i + Z.of_nat n) s'.
Proof using All.
  revert i s. induction n as [|n IH]; intros i s Hi Hn Hinv.
  - exists s. split; [reflexivity|]. replace (i + Z.of_nat 0) with i by lia. exact Hinv.
  - destruct (untouched_line_inv i s ltac:(lia) Hinv) as (s1 & Hstep & Hinv1).
    destruct (IH (i + 1) s1 ltac:(lia) ltac:(lia) Hinv1) as (s' & Hloop & Hinv').
    exists s'. split.
    + simpl. rewrite Hstep. simpl.
      replace (startLineNumber + i + 1) with (startLineNumber + (i + 1)) by lia.
      exact Hloop.
    + replace (i + Z.of_nat (S n)) with (i + 1 + Z.of_nat n) by lia. exact Hinv'.
Qed.

End Reuse.

Lemma byte_at_outside (a : Uint8ClampedArray) (x : Z) :
  x < 0 \/ Z.of_nat (length a) <= x -> byte_at a x = None.
Proof.
  intros Hx. unfold byte_at. destruct (Z.ltb_spec x 0); [reflexivity|].
  apply lookup_ge_None_2. lia.
Qed.

Lemma subarray_ext (a1 a2 : Uint8ClampedArray) (s1 e1 s2 e2 : Z) :
  0 <= s1 <= e1 -> e1 <= Z.of_nat (length a1) ->
  0 <= s2 <= e2 -> e2 <= Z.of_nat (length a2) ->
  e1 - s1 = e2 - s2 ->
  (forall j, 0 <= j < e1 - s1 -> byte_at a1 (s1 + j) = byte_at a2 (s2 + j)) ->
  subarray a1 s1 e1 = subarray a2 s2 e2.
Proof.
  intros H1 Hl1 H2 Hl2 Hlen Heq. apply byte_at_ext. intros x.
  pose proof (subarray_length a1 s1 e1 H1 Hl1) as Hn1.
  pose proof (subarray_length a2 s2 e2 H2 Hl2) as Hn2.
  destruct (Z_lt_dec x 0) as [Hx | Hx];
    [rewrite !byte_at_outside by lia; reflexivity|].
  destruct (Z_lt_dec x (e1 - s1)) as [Hxe | Hxe].
  - rewrite !subarray_byte_at by lia. apply Heq. lia.
  - rewrite !byte_at_outside by lia. reflexivity.
Qed.

Lemma line_dy_lookup (lastLines : list MinimapLine) (idx : Z) (record : MinimapLine) :
  0 <= idx -> lastLines !! Z.to_nat idx = Some record ->
  line_dy lastLines idx = dy record.
Proof.
  intros Hidx Hlook. unfold line_dy.
  pose proof (lookup_lt_Some _ _ _ Hlook) as Hlt.
  destruct (Z.leb_spec 0 idx); [|lia].
  destruct (Z.ltb_spec idx (Z.of_nat (length lastLines))); [|lia].
  simpl. rewrite Hlook. reflexivity.
Qed.

Lemma line_dy_valid (lastLines : list MinimapLine) (idx : Z) :
  line_dy lastLines idx <> -1 ->
  exists record, record ∈ lastLines /\ line_dy lastLines idx = dy record.
Proof.
  unfold line_dy.
  destruct (Z.leb_spec 0 idx); simpl; [|congruence].
  destruct (Z.ltb_spec idx (Z.of_nat (length lastLines))); [|congruence].
  destruct (lookup_lt_is_Some_2 lastLines (Z.to_nat idx) ltac:(lia)) as [record Hlook].
  rewrite Hlook. simpl. intros _. exists record. split; [|reflexivity].
  eapply list_elem_of_lookup_2, Hlook.
Qed.

(** What [_renderUntouchedLines] does when the target is not the buffer of
    the previous frame, the recorded rows lie within the previous buffer
    and the rows of the new range within the target. *)
Lemma _renderUntouchedLines_run (bufs : Buffers) (target : Slot)
    (startLineNumber endLineNumber minimapLineHeight : Z)
    (lastRenderData : RenderData) :
  let last := _imageData lastRenderData in
  let lastStartLineNumber := rendLineNumberStart (_renderedLines lastRenderData) in
  let lastLines := lines (_renderedLines lastRenderData) in
  let WIDTH := width (deref bufs target) in
  let row := fun y : Z => y * WIDTH * 4 in
  target <> last ->
  0 < minimapLineHeight ->
  0 <= WIDTH ->
  Forall (fun record =>
            dy record <> -1 ->
            0 <= dy record
            /\ row (dy record + minimapLineHeight)
               <= Z.of_nat (length (data (deref bufs last))))
    lastLines ->
  row ((endLineNumber - startLineNumber + 1) * minimapLineHeight)
    <= Z.of_nat (length (data (deref bufs target))) ->
  exists (needed : list bool) (bufs' : Buffers),
    _renderUntouchedLines bufs target startLineNumber endLineNumber
      minimapLineHeight (Some lastRenderData) = Ok (needed, bufs')
    /\ deref bufs' last = deref bufs last
    /\ length (data (deref bufs' target)) = length (data (deref bufs target))
    /\ Z.of_nat (length needed) = Z.max 0 (endLineNumber - startLineNumber + 1)
    /\ forall (lineNumber : Z) (record : MinimapLine),
         startLineNumber <= lineNumber <= endLineNumber ->
         lastStartLineNumber <= lineNumber ->
         lastLines !! Z.to_nat (lineNumber - lastStartLineNumber) = Some record ->
         dy record <> -1 ->
         let dest_dy := (lineNumber - startLineNumber) * minimapLineHeight in
         needed !! Z.to_nat (lineNumber - startLineNumber) = Some false
         /\ subarray (data (deref bufs' target))
              (row dest_dy) (row (dest_dy + minimapLineHeight))
            = subarray (data (deref bufs last))
                (row (dy record)) (row (dy record + minimapLineHeight)).
Proof.
  intros last lastStartLineNumber lastLines WIDTH row Hdistinct Hpitch Hwidth
    Hrecords Hrows.
  set (count := Z.of_nat (Z.to_nat (endLineNumber - startLineNumber + 1))).
  assert (Hwithin : forall idx, line_dy lastLines idx <> -1 ->
            0 <= line_dy lastLines idx
            /\ (line_dy lastLines idx + minimapLineHeight) * WIDTH * 4
               <= Z.of_nat (length (data (deref bufs last)))).
  { intros idx Hidx. destruct (line_dy_valid lastLines idx Hidx) as (record & Hin & Heq).
    rewrite Heq in *. rewrite Forall_forall in Hrecords. apply Hrecords; assumption. }
  assert (Hfit : count * minimapLineHeight * WIDTH * 4
                 <= Z.of_nat (length (data (deref bufs target)))).
  { unfold count, row in *.
    destruct (Z_le_dec 0 (endLineNumber - startLineNumber + 1)).
    - rewrite Z2Nat.id by lia. exact Hrows.
    - replace (Z.to_nat (endLineNumber - startLineNumber + 1)) with 0%nat by lia.
      simpl. lia. }
  destruct (untouched_lines_inv bufs target last WIDTH startLineNumber
              minimapLineHeight lastStartLineNumber lastLines count
              Hdistinct Hpitch Hwidth Hwithin Hfit
              (Z.to_nat (endLineNumber - startLineNumber + 1)) 0
              {| needed := []; copySourceStart := -1; copySourceEnd := -1;
                 copyDestStart := -1; copyDestEnd := -1; dest_dy := 0;
                 store := bufs |})
    as (s & Hloop & Hinv).
  { lia. }
  { fold count. lia. }
  { constructor; simpl; try reflexivity; lia. }
  fold count in Hinv. rewrite Z.add_0_l in Hinv.
  destruct (flush_if_pending bufs target last WIDTH startLineNumber
              minimapLineHeight lastStartLineNumber lastLines count
              Hdistinct Hpitch Hwidth Hwithin Hfit count s ltac:(lia) Hinv)
    as (bufs' & Hflush & Hlast & Hsize & Hbytes).
  exists (needed s), bufs'.
  split; [|split; [exact Hlast|split; [exact Hsize|split]]].
  - unfold _renderUntouchedLines. fold last lastStartLineNumber lastLines WIDTH.
    replace (startLineNumber) with (startLineNumber + 0) at 3 by lia.
    rewrite Hloop. simpl. rewrite Hflush. reflexivity.
  - destruct Hinv as [_ Hn _ _ _ _]. rewrite Hn. unfold count. lia.
  - intros lineNumber record Hrange Hlo Hlook Hvalid dest_dy.
    set (k := lineNumber - startLineNumber) in *.
    assert (Hk : 0 <= k < count) by (unfold k, count; lia).
    assert (Hd : line_dy lastLines (startLineNumber + k - lastStartLineNumber)
                 = dy record).
    { replace (startLineNumber + k - lastStartLineNumber)
        with (lineNumber - lastStartLineNumber) by (unfold k; lia).
      apply line_dy_lookup; [lia | exact Hlook]. }
    destruct Hinv as [_ _ _ _ _ Hlines].
    destruct (Hlines k Hk ltac:(rewrite Hd; exact Hvalid)) as [Hneeded _].
    split; [exact Hneeded|].
    specialize (Hbytes k Hk). cbv zeta in Hbytes. rewrite Hd in Hbytes.
    specialize (Hbytes Hvalid).
    destruct (Hwithin _ ltac:(rewrite Hd; exact Hvalid)) as [Hd0 Hdfit].
    rewrite Hd in Hd0, Hdfit.
    pose proof (offset_mono WIDTH (k * minimapLineHeight + minimapLineHeight)
                  (count * minimapLineHeight) Hwidth ltac:(nia)) as Hkfit.
    unfold row, dest_dy.
    apply subarray_ext.
    + nia.
    + unfold Uint8ClampedArray in *. rewrite Hsize. lia.
    + nia.
    + lia.
    + lia.
    + intros j Hj. apply Hbytes. lia.
Qed.

Lemma all_needed_spec (n : nat) (needed : list bool) :
  all_needed n (Z.of_nat (length needed)) needed = needed ++ replicate n true.
Proof.
  revert needed. induction n as [|n IH]; intros needed; simpl.
  - rewrite app_nil_r. reflexivity.
  - rewrite array_store_push by reflexivity.
    replace (Z.of_nat (length needed) + 1) with (Z.of_nat (length (needed ++ [true])))
      by (rewrite length_app; simpl; lia).
    rewrite IH. rewrite <- app_assoc. reflexivity.
Qed.

(** C8.  Without a previous [RenderData] (the first render, or after an
    invalidation), [_renderUntouchedLines] returns normally: the flags mark
    every row of [startLineNumber .. endLineNumber] as needing
    rasterization, and no buffer is touched. *)
Theorem _renderUntouchedLines_first_frame (bufs : Buffers) (target : Slot)
    (startLineNumber endLineNumber minimapLineHeight : Z) :
  let needed := replicate (Z.to_nat (endLineNumber - startLineNumber + 1)) true in
  _renderUntouchedLines bufs target startLineNumber endLineNumber minimapLineHeight None
  = Ok (needed, bufs)
  /\ forall lineNumber, startLineNumber <= lineNumber <= endLineNumber ->
       needed !! Z.to_nat (lineNumber - startLineNumber) = Some true.
Proof.
  intros needed. split.
  - unfold _renderUntouchedLines. change 0 with (Z.of_nat (length (@nil bool))).
    rewrite all_needed_spec. reflexivity.
  - intros lineNumber Hrange. apply lookup_replicate_2. lia.
Qed.

(** The rows 2 to 5 of a first frame. *)
Lemma _renderUntouchedLines_first_frame_witness :
  _renderUntouchedLines (_buffers (fst second_frame_buffers)) slot0 2 5 2 None
  = Ok ([true; true; true; true], _buffers (fst second_frame_buffers)).
Proof.
  apply (_renderUntouchedLines_first_frame (_buffers (fst second_frame_buffers))
           slot0 2 5 2).
Defined.

(** ** The view part *)

Lemma bind_Ok {A B : Type} (m : result A) (f : A -> result B) (b : B) :
  bind m f = Ok b -> exists a, m = Ok a /\ f a = Ok b.
Proof. destruct m as [a|e]; simpl; [eauto | discriminate]. Qed.

Lemma other_distinct (i : Slot) : other i <> i.
Proof. destruct i; discriminate. Qed.

(** [getBuffer] hands out the buffer that was not used last, and leaves the
    one that was used last as it is. *)
Lemma getBuffer_rotates (this this' : MinimapBuffers) (i : Slot) :
  getBuffer this = Ok (this', i) ->
  i = other (_lastUsedBuffer this)
  /\ _lastUsedBuffer this' = i
  /\ deref (_buffers this') (_lastUsedBuffer this)
     = deref (_buffers this) (_lastUsedBuffer this).
Proof.
  unfold getBuffer. intros H. apply bind_Ok in H. destruct H as (d & _ & H).
  injection H as <- <-. simpl. repeat split.
  apply deref_assign_other, other_distinct.
Qed.

Section RenderRows.

Variable K : Constants.
Variable env : Env.
Variable target : ImageData.
Variable background : RGBA.
Variable useLighterFont : bool.
Variable renderMinimap : RenderMinimap.
Variables minimapLineHeight tabSize : Z.
Variable needed : list bool.
Variable lineData : Z -> ViewLineData.

Local Notation "'render_rows_'" :=
  (render_rows K env target background useLighterFont renderMinimap
     minimapLineHeight tabSize needed lineData).
Local Notation "'render_row_'" :=
  (render_row K env target background useLighterFont renderMinimap
     tabSize needed lineData).

Lemma render_rows_records (n : nat) (lineIndex dy : Z)
    (renderedLines : list MinimapLine) (pixels : Uint8ClampedArray) :
  Z.of_nat (length renderedLines) = lineIndex ->
  fst (render_rows_ n lineIndex dy renderedLines pixels)
  = renderedLines
    ++ map (fun k => new_MinimapLine (dy + Z.of_nat k * minimapLineHeight)) (seq 0 n).
Proof.
  revert lineIndex dy renderedLines pixels.
  induction n as [|n IH]; intros lineIndex dy renderedLines pixels Hlen.
  - simpl. rewrite app_nil_r. reflexivity.
  - cbn [render_rows]. rewrite array_store_push by exact Hlen.
    rewrite IH by (rewrite length_app; simpl; lia).
    rewrite <- app_assoc. f_equal. cbn [seq map app].
    rewrite Z.mul_0_l, Z.add_0_r. f_equal.
    rewrite <- seq_shift, map_map. apply map_ext. intros k.
    f_equal. lia.
Qed.

Lemma render_rows_pixels (n : nat) (lineIndex dy : Z)
    (renderedLines : list MinimapLine) (pixels : Uint8ClampedArray) :
  dy = lineIndex * minimapLineHeight ->
  snd (render_rows_ n lineIndex dy renderedLines pixels)
  = foldl (fun d k => render_row_ k (k * minimapLineHeight) d) pixels
      (seqZ lineIndex (Z.of_nat n)).
Proof.
  revert lineIndex dy renderedLines pixels.
  induction n as [|n IH]; intros lineIndex dy renderedLines pixels ->.
  - reflexivity.
  - cbn [render_rows]. rewrite IH by lia.
    rewrite (seqZ_cons lineIndex (Z.of_nat (S n))) by lia.
    replace (Z.pred (Z.of_nat (S n))) with (Z.of_nat n) by lia.
    reflexivity.
Qed.

End RenderRows.

(** What a call of [render] that completes has done, step by step. *)
Lemma render_Ok (K : Constants) (env : Env) (this this' : Minimap)
    (renderingCtx : RestrictedRenderingContext) :
  renderMinimap (_options this) <> None_ ->
  render K env this renderingCtx = Ok this' ->
  let layout :=
    MinimapLayout.create K (_options this)
      (visibleRange_startLineNumber renderingCtx)
      (visibleRange_endLineNumber renderingCtx)
      (viewportHeight renderingCtx)
      (0 <? whitespaceViewportData_length renderingCtx)
      (getLineCount env) (getVerticalSliderVerticalCenter env)
      (scrollTop renderingCtx) (scrollHeight renderingCtx) in
  let minimapLineHeight := getMinimapLineHeight K (renderMinimap (_options this)) in
  exists (startLineNumber endLineNumber : Z) (buffers : MinimapBuffers)
         (imageData : Slot) (needed : list bool) (bufs : Buffers),
    let lineInfo :=
      getMinimapLinesRenderingData env startLineNumber endLineNumber needed in
    let target := deref bufs imageData in
    let rows :=
      render_rows K env target (getColor env (DefaultBackground env))
        (backgroundIsLight env) (renderMinimap (_options this))
        minimapLineHeight (lineInfo_tabSize lineInfo) needed (lineInfo_data lineInfo)
        (Z.to_nat (endLineNumber - startLineNumber + 1)) 0 0 [] (data target) in
    integer (MinimapLayout.startLineNumber layout) = Ok startLineNumber
    /\ integer (MinimapLayout.endLineNumber layout) = Ok endLineNumber
    /\ _getBuffer env this = Ok (buffers, imageData)
    /\ _renderUntouchedLines (_buffers buffers) imageData startLineNumber
         endLineNumber minimapLineHeight (_lastRenderData this)
       = Ok (needed, bufs)
    /\ this' =
       {| _options := _options this;
          _lastRenderData :=
            Some {| renderedLayout := layout;
                    _imageData := imageData;
                    _renderedLines := _set startLineNumber (fst rows) |};
          _buffers_ :=
            Some {| _backgroundFillData := _backgroundFillData buffers;
                    _buffers := assign bufs imageData (with_data target (snd rows));
                    _lastUsedBuffer := _lastUsedBuffer buffers |} |}.
Proof.
  intros Hon Hrender layout mlh.
  unfold render in Hrender. fold layout in Hrender.
  assert (Hbody :
    (let* startLineNumber := integer (MinimapLayout.startLineNumber layout) in
     let* endLineNumber := integer (MinimapLayout.endLineNumber layout) in
     let* got := _getBuffer env this in
     let '(buffers, imageData) := got in
     let* untouched :=
       _renderUntouchedLines (_buffers buffers) imageData
         startLineNumber endLineNumber mlh (_lastRenderData this) in
     let '(needed, bufs) := untouched in
     let lineInfo :=
       getMinimapLinesRenderingData env startLineNumber endLineNumber needed in
     let target := deref bufs imageData in
     let '(renderedLines, pixels) :=
       render_rows K env target (getColor env (DefaultBackground env))
         (backgroundIsLight env) (renderMinimap (_options this))
         mlh (lineInfo_tabSize lineInfo) needed (lineInfo_data lineInfo)
         (Z.to_nat (endLineNumber - startLineNumber + 1)) 0 0 [] (data target) in
     let* lastRenderData := new_RenderData layout imageData renderedLines in
     Ok {| _options := _options this;
           _lastRenderData := Some lastRenderData;
           _buffers_ :=
             Some {| _backgroundFillData := _backgroundFillData buffers;
                     _buffers := assign bufs imageData (with_data target pixels);
                     _lastUsedBuffer := _lastUsedBuffer buffers |} |}) = Ok this').
  { unfold mlh. destruct (renderMinimap (_options this)); [contradiction|..];
      exact Hrender. }
  clear Hrender.
  apply bind_Ok in Hbody. destruct Hbody as (s & Hs & Hbody).
  apply bind_Ok in Hbody. destruct Hbody as (e & He & Hbody).
  apply bind_Ok in Hbody. destruct Hbody as ([buffers imageData] & Hbuffer & Hbody).
  apply bind_Ok in Hbody. destruct Hbody as ([needed bufs] & Huntouched & Hbody).
  cbv zeta in Hbody.
  exists s, e, buffers, imageData, needed, bufs. cbv zeta.
  destruct (render_rows _ _ _ _ _ _ _ _ _ _ _ _ _ _ _) as [renderedLines pixels].
  apply bind_Ok in Hbody. destruct Hbody as (rd & Hrd & Hbody).
  injection Hbody as <-.
  unfold new_RenderData in Hrd. rewrite Hs in Hrd. simpl in Hrd.
  injection Hrd as <-.
  repeat split; assumption.
Qed.

Lemma fill_pixels_length (n : nat) (background : RGBA) :
  length (fill_pixels n background) = (4 * n)%nat.
Proof. induction n as [|n IH]; simpl; [reflexivity | rewrite IH; lia]. Qed.

Lemma flush_width (bufs bufs' : Buffers) (target last : Slot) (cs ce cd : Z) :
  flush bufs target last cs ce cd = Ok bufs' ->
  forall i, width (deref bufs' i) = width (deref bufs i).
Proof.
  unfold flush. intros H. apply bind_Ok in H. destruct H as (d & _ & [= <-]).
  intros i. destruct target, i; reflexivity.
Qed.

Lemma _renderUntouchedLines_width (bufs bufs' : Buffers) (target : Slot)
    (startLineNumber endLineNumber minimapLineHeight : Z)
    (lastRenderData : option RenderData) (needed : list bool) :
  _renderUntouchedLines bufs target startLineNumber endLineNumber
    minimapLineHeight lastRenderData = Ok (needed, bufs') ->
  forall i, width (deref bufs' i) = width (deref bufs i).
Proof.
  unfold _renderUntouchedLines. destruct lastRenderData as [rd|].
  2:{ intros [= _ <-]. reflexivity. }
  set (last := _imageData rd).
  set (lastStart := rendLineNumberStart (_renderedLines rd)).
  set (lastLines := lines (_renderedLines rd)).
  set (WIDTH := width (deref bufs target)).
  assert (Hflush : forall (s : Untouched) b,
            (if negb (copySourceStart s =? -1)
             then flush (store s) target last (copySourceStart s)
                    (copySourceEnd s) (copyDestStart s)
             else Ok (store s)) = Ok b ->
            forall i, width (deref b i) = width (deref (store s) i)).
  { intros s b Hb. destruct (negb _).
    - eapply flush_width, Hb.
    - injection Hb as <-. reflexivity. }
  assert (Hstep : forall lineNumber s s',
            untouched_line target last WIDTH startLineNumber minimapLineHeight
              lastStart lastLines lineNumber s = Ok s' ->
            forall i, width (deref (store s') i) = width (deref (store s) i)).
  { intros lineNumber s s'. unfold untouched_line.
    destruct (_ =? -1); [intros [= <-]; reflexivity|].
    destruct (_ && _); [intros [= <-]; reflexivity|].
    intros H. apply bind_Ok in H. destruct H as (b & Hb & [= <-]). simpl.
    eapply Hflush, Hb. }
  assert (Hloop : forall n lineNumber s s',
            untouched_lines target last WIDTH startLineNumber minimapLineHeight
              lastStart lastLines n lineNumber s = Ok s' ->
            forall i, width (deref (store s') i) = width (deref (store s) i)).
  { induction n as [|n IH]; intros lineNumber s s'; simpl.
    - intros [= <-]. reflexivity.
    - intros H. apply bind_Ok in H. destruct H as (s1 & H1 & H2).
      intros i. rewrite (IH _ _ _ H2 i). eapply Hstep, H1. }
  intros H. apply bind_Ok in H. destruct H as (s & Hs & H).
  apply bind_Ok in H. destruct H as (b & Hb & [= _ <-]).
  intros i. rewrite (Hflush _ _ Hb i). apply (Hloop _ _ _ _ Hs i).
Qed.

Lemma render_rows_length (K : Constants) (env : Env) (target : ImageData)
    (background : RGBA) (useLighterFont : bool) (renderMinimap : RenderMinimap)
    (minimapLineHeight tabSize : Z) (needed : list bool) (lineData : Z -> ViewLineData)
    (n : nat) (lineIndex dy : Z) (renderedLines : list MinimapLine)
    (pixels : Uint8ClampedArray) :
  (forall img call, length (paint env img call) = length (data img)) ->
  length (snd (render_rows K env target background useLighterFont renderMinimap
                 minimapLineHeight tabSize needed lineData n lineIndex dy
                 renderedLines pixels))
  = length pixels.
Proof.
  intros Hpaint. revert lineIndex dy renderedLines pixels.
  induction n as [|n IH]; intros lineIndex dy renderedLines pixels; [reflexivity|].
  cbn [render_rows]. rewrite IH. unfold render_row.
  destruct (truthy_at needed lineIndex); [|reflexivity].
  generalize (_renderLine K (width target) background useLighterFont renderMinimap
                (getColor env) dy tabSize (lineData lineIndex)).
  intros calls. revert pixels. induction calls as [|call calls IHc]; intros pixels.
  - reflexivity.
  - simpl. rewrite IHc. rewrite Hpaint. reflexivity.
Qed.

Lemma integer_Fin (x : number) (z : Z) :
  integer x = Ok z -> exists q, x = Fin q /\ (q == inject_Z z)%Q.
Proof.
  unfold integer, to_integer. destruct x as [q| | |]; try discriminate.
  destruct (Qeq_bool q (inject_Z (Qfloor q))) eqn:H; [|discriminate].
  intros [= <-]. exists q. split; [reflexivity|]. apply Qeq_bool_iff, H.
Qed.

Lemma integer_of_Z (z : Z) : integer (of_Z z) = Ok z.
Proof.
  unfold integer, to_integer, of_Z. rewrite Qfloor_Z.
  rewrite (proj2 (Qeq_bool_iff _ _)) by reflexivity. reflexivity.
Qed.

Lemma ltb_Fin_false (a b : Q) : (Fin a <? Fin b)%num = false -> (b <= a)%Q.
Proof.
  intros H. apply Qnot_lt_le. intros Hlt. apply ltb_Fin in Hlt. congruence.
Qed.

(** The rows of the visible range fit in the canvas. *)
Lemma create_rows_fit (K : Constants) (options : MinimapOptions)
    (vStart vEnd vHeight : number) (gaps : bool)
    (lineCount center scrollTop scrollHeight : number)
    (startLineNumber endLineNumber HEIGHT : Z) :
  positive_cells K ->
  let L := MinimapLayout.create K options vStart vEnd vHeight gaps
             lineCount center scrollTop scrollHeight in
  integer (MinimapLayout.startLineNumber L) = Ok startLineNumber ->
  integer (MinimapLayout.endLineNumber L) = Ok endLineNumber ->
  integer (canvasInnerHeight options) = Ok HEIGHT ->
  Z.max 0 (endLineNumber - startLineNumber + 1)
  * getMinimapLineHeight K (renderMinimap options)
  <= Z.max 0 HEIGHT.
Proof.
  intros HK L Hs He Hh.
  pose proof (pitch_positive K (renderMinimap options) HK) as Hpitch.
  set (pitch := getMinimapLineHeight K (renderMinimap options)) in *.
  destruct (integer_Fin _ _ Hh) as (qh & Hqh & Hqhz).
  set (fitting := Qfloor (qh / inject_Z pitch)).
  assert (Hfloor : floor (canvasInnerHeight options / of_Z pitch) = of_Z fitting).
  { rewrite Hqh. unfold of_Z at 1. cbn [div].
    rewrite Qcompare_pos; [reflexivity|].
    change 0%Q with (inject_Z 0). rewrite <- Zlt_Qlt. exact Hpitch. }
  assert (Hfit : fitting * pitch <= HEIGHT).
  { unfold fitting. rewrite Hqhz. rewrite <- Zdiv_Qdiv.
    pose proof (Z.mul_div_le HEIGHT pitch Hpitch). lia. }
  assert (Hcount : endLineNumber - startLineNumber + 1 <= fitting).
  { unfold L, MinimapLayout.create in Hs, He. fold pitch in Hs, He.
    rewrite Hfloor in Hs, He.
    destruct (of_Z fitting >=? lineCount)%num eqn:Hall.
    - cbn [MinimapLayout.startLineNumber MinimapLayout.endLineNumber] in Hs, He.
      rewrite integer_of_Z in Hs. injection Hs as <-.
      destruct (integer_Fin _ _ He) as (ql & -> & Hql).
      apply leb_Fin in Hall. rewrite Hql in Hall. rewrite <- Zle_Qle in Hall. lia.
    - cbn [MinimapLayout.startLineNumber MinimapLayout.endLineNumber] in Hs, He.
      destruct (integer_Fin _ _ Hs) as (qs & Hqs & Hqsz).
      rewrite Hqs in He.
      destruct (integer_Fin _ _ He) as (qe & Hqe & Hqez).
      assert (Hle : (qe <= qs + inject_Z fitting + - inject_Z 1)%Q).
      { revert Hqe. unfold of_Z. cbn [add sub neg].
        destruct lineCount as [ql| | |]; cbn [min].
        - destruct (Fin (qs + inject_Z fitting + - inject_Z 1) <? Fin ql)%num eqn:Hlt.
          + intros [= <-]. lra.
          + intros [= <-]. apply ltb_Fin_false, Hlt.
        - cbn [ltb]. intros [= <-]. lra.
        - cbn [ltb]. discriminate.
        - discriminate. }
      rewrite Hqez, Hqsz in Hle. rewrite <- !inject_Z_plus, <- inject_Z_opp in Hle.
      rewrite <- inject_Z_plus in Hle. rewrite <- Zle_Qle in Hle. lia. }
  nia.
Qed.

Lemma slot_eq_dec (i j : Slot) : {i = j} + {i <> j}.
Proof. decide equality. Qed.

Lemma slot_cases (i j : Slot) : i <> j -> forall k : Slot, k = i \/ k = j.
Proof. intros Hij k. destruct i, j, k; auto; contradiction. Qed.

Lemma new_MinimapBuffers_well_sized (WIDTH HEIGHT : Z) (background : RGBA) :
  0 <= WIDTH -> 0 <= HEIGHT ->
  well_sized (new_MinimapBuffers WIDTH HEIGHT background) WIDTH HEIGHT.
Proof.
  intros HW HH. unfold well_sized, new_MinimapBuffers, _createBackgroundFillData.
  simpl. rewrite fill_pixels_length. split; [nia|].
  intros i. destruct i; simpl; rewrite length_replicate; split; try reflexivity; nia.
Qed.

Lemma getBuffer_well_sized (this : MinimapBuffers) (WIDTH HEIGHT : Z) :
  well_sized this WIDTH HEIGHT ->
  exists (this' : MinimapBuffers) (i : Slot),
    getBuffer this = Ok (this', i) /\ well_sized this' WIDTH HEIGHT.
Proof.
  intros [Hfill Hsize]. unfold getBuffer.
  set (i := other (_lastUsedBuffer this)).
  destruct (Hsize i) as [Hw Hlen].
  destruct (set_spec (data (deref (_buffers this) i)) (_backgroundFillData this) 0
              ltac:(lia) ltac:(lia)) as (d & -> & Hd & _).
  simpl. eexists. eexists. split; [reflexivity|].
  split; [exact Hfill|]. simpl. intros k.
  destruct (slot_eq_dec k i) as [-> | Hk].
  - rewrite deref_assign_same. simpl. rewrite Hd. split; assumption.
  - rewrite deref_assign_other by congruence. apply Hsize.
Qed.

(** A call of [render] on an enabled minimap, written out. *)
Lemma render_enabled (K : Constants) (env : Env) (this : Minimap)
    (renderingCtx : RestrictedRenderingContext) :
  renderMinimap (_options this) <> None_ ->
  let layout :=
    MinimapLayout.create K (_options this)
      (visibleRange_startLineNumber renderingCtx)
      (visibleRange_endLineNumber renderingCtx)
      (viewportHeight renderingCtx)
      (0 <? whitespaceViewportData_length renderingCtx)
      (getLineCount env) (getVerticalSliderVerticalCenter env)
      (scrollTop renderingCtx) (scrollHeight renderingCtx) in
  let minimapLineHeight := getMinimapLineHeight K (renderMinimap (_options this)) in
  render K env this renderingCtx =
  (let* startLineNumber := integer (MinimapLayout.startLineNumber layout) in
   let* endLineNumber := integer (MinimapLayout.endLineNumber layout) in
   let* got := _getBuffer env this in
   let* untouched :=
     _renderUntouchedLines (_buffers (fst got)) (snd got)
       startLineNumber endLineNumber minimapLineHeight (_lastRenderData this) in
   let lineInfo :=
     getMinimapLinesRenderingData env startLineNumber endLineNumber (fst untouched) in
   let target := deref (snd untouched) (snd got) in
   let rows :=
     render_rows K env target (getColor env (DefaultBackground env))
       (backgroundIsLight env) (renderMinimap (_options this))
       minimapLineHeight (lineInfo_tabSize lineInfo) (fst untouched)
       (lineInfo_data lineInfo)
       (Z.to_nat (endLineNumber - startLineNumber + 1)) 0 0 [] (data target) in
   let* lastRenderData := new_RenderData layout (snd got) (fst rows) in
   Ok {| _options := _options this;
         _lastRenderData := Some lastRenderData;
         _buffers_ :=
           Some {| _backgroundFillData := _backgroundFillData (fst got);
                   _buffers := assign (snd untouched) (snd got)
                                 (with_data target (snd rows));
                   _lastUsedBuffer := _lastUsedBuffer (fst got) |} |}).
Proof.
  intros Hon layout mlh. unfold render. fold layout.
  destruct (renderMinimap (_options this)) eqn:Hrm; [contradiction|..];
    destruct (integer (MinimapLayout.startLineNumber layout)) as [s|]; try reflexivity;
    destruct (integer (MinimapLayout.endLineNumber layout)) as [e|]; try reflexivity;
    simpl; destruct (_getBuffer env this) as [[buffers imageData]|]; try reflexivity;
    simpl; destruct (_renderUntouchedLines _ _ _ _ _ _) as [[needed bufs]|];
    try reflexivity; simpl;
    destruct (render_rows _ _ _ _ _ _ _ _ _ _ _ _ _ _ _); reflexivity.
Qed.

(** Frames in a row.  From a coherent state, on an enabled minimap whose
    layout has integer line numbers, and with a character renderer that
    leaves the size of the pixel data alone, [render] completes and leaves
    a coherent state. *)
Lemma render_keeps_coherent (K : Constants) (env : Env) (this : Minimap)
    (renderingCtx : RestrictedRenderingContext)
    (WIDTH HEIGHT startLineNumber endLineNumber : Z) :
  let layout :=
    MinimapLayout.create K (_options this)
      (visibleRange_startLineNumber renderingCtx)
      (visibleRange_endLineNumber renderingCtx)
      (viewportHeight renderingCtx)
      (0 <? whitespaceViewportData_length renderingCtx)
      (getLineCount env) (getVerticalSliderVerticalCenter env)
      (scrollTop renderingCtx) (scrollHeight renderingCtx) in
  positive_cells K ->
  renderMinimap (_options this) <> None_ ->
  (forall img call, length (paint env img call) = length (data img)) ->
  coherent K this WIDTH HEIGHT ->
  integer (MinimapLayout.startLineNumber layout) = Ok startLineNumber ->
  integer (MinimapLayout.endLineNumber layout) = Ok endLineNumber ->
  exists this',
    render K env this renderingCtx = Ok this' /\ coherent K this' WIDTH HEIGHT.
Proof.
  intros layout HK Hon Hpaint (HW & HH & HW0 & HH0 & Hstate) Hs He.
  pose proof (pitch_positive K (renderMinimap (_options this)) HK) as Hpitch.
  pose proof (create_rows_fit K (_options this) _ _ _ _ _ _ _ _ _ _ _ HK Hs He HH)
    as Hfit.
  rewrite (Z.max_r 0 HEIGHT) in Hfit by exact HH0.
  set (mlh := getMinimapLineHeight K (renderMinimap (_options this))) in *.
  set (count := Z.max 0 (endLineNumber - startLineNumber + 1)) in *.
  (* the buffer of the frame *)
  assert (Hbuffer : exists buffers target,
            _getBuffer env this = Ok (buffers, target)
            /\ well_sized buffers WIDTH HEIGHT
            /\ _lastUsedBuffer buffers = target
            /\ match _lastRenderData this with
               | None => True
               | Some rd =>
                   target <> _imageData rd
                   /\ Forall (fun record =>
                                dy record <> -1 ->
                                0 <= dy record /\ dy record + mlh <= HEIGHT)
                        (lines (_renderedLines rd))
               end).
  { unfold _getBuffer. destruct (_buffers_ this) as [b|].
    - destruct Hstate as [Hsized Hsaved].
      destruct (getBuffer_well_sized b WIDTH HEIGHT Hsized) as (b' & i & Hb & Hb').
      exists b', i. simpl. rewrite Hb. split; [reflexivity|]. split; [exact Hb'|].
      apply getBuffer_rotates in Hb. destruct Hb as (Hi & Hused & _).
      split; [exact Hused|].
      destruct (_lastRenderData this) as [rd|]; [|exact I].
      destruct Hsaved as [Href Hrecords]. split; [|exact Hrecords].
      rewrite Href, Hi. apply other_distinct.
    - rewrite HW, HH. simpl.
      pose proof (new_MinimapBuffers_well_sized WIDTH HEIGHT
                    (getColor env (DefaultBackground env)) HW0 HH0) as Hsized.
      destruct (getBuffer_well_sized _ WIDTH HEIGHT Hsized) as (b' & i & Hb & Hb').
      exists b', i. rewrite Hb. split; [reflexivity|]. split; [exact Hb'|].
      apply getBuffer_rotates in Hb. destruct Hb as (_ & Hused & _).
      split; [exact Hused|]. rewrite Hstate. exact I. }
  destruct Hbuffer as (buffers & target & Hbuffer & [Hfill Hsized] & Hused & Hsaved).
  (* the rows copied from the previous frame *)
  assert (Huntouched : exists needed bufs,
            _renderUntouchedLines (_buffers buffers) target startLineNumber
              endLineNumber mlh (_lastRenderData this) = Ok (needed, bufs)
            /\ forall i, width (deref bufs i) = WIDTH
                         /\ Z.of_nat (length (data (deref bufs i)))
                            = WIDTH * HEIGHT * 4).
  { destruct (_lastRenderData this) as [rd|].
    - destruct Hsaved as [Hdistinct Hrecords].
      destruct (Hsized target) as [Hwt Hlt].
      destruct (Hsized (_imageData rd)) as [_ Hll].
      destruct (_renderUntouchedLines_run (_buffers buffers) target startLineNumber
                  endLineNumber mlh rd Hdistinct Hpitch)
        as (needed & bufs & Hrun & Hlast & Hsize & _ & _).
      + rewrite Hwt. exact HW0.
      + rewrite Hwt, Hll. eapply Forall_impl; [exact Hrecords|].
        intros record Hrecord Hvalid. destruct (Hrecord Hvalid) as [H0 H1].
        split; [exact H0|]. nia.
      + rewrite Hwt, Hlt. unfold count in Hfit. nia.
      + exists needed, bufs. split; [exact Hrun|]. intros i.
        pose proof (_renderUntouchedLines_width _ _ _ _ _ _ _ _ Hrun i) as Hwi.
        rewrite Hwi.
        destruct (slot_cases target (_imageData rd) Hdistinct i) as [-> | ->].
        * split; [exact Hwt|]. unfold Uint8ClampedArray in *. rewrite Hsize. exact Hlt.
        * rewrite Hlast. apply Hsized.
    - eexists. eexists. split; [reflexivity|]. exact Hsized. }
  destruct Huntouched as (needed & bufs & Huntouched & Hbufs).
  (* the rows rasterized and recorded *)
  rewrite (render_enabled K env this renderingCtx Hon). fold layout mlh.
  rewrite Hs, He. cbn [bind]. rewrite Hbuffer. cbn [bind fst snd].
  rewrite Huntouched. cbn [bind fst snd].
  set (lineInfo := getMinimapLinesRenderingData env startLineNumber
                     endLineNumber needed).
  set (rows := render_rows _ _ _ _ _ _ _ _ _ _ _ _ _ _ _).
  unfold new_RenderData. rewrite Hs. cbn [bind].
  eexists. split; [reflexivity|].
  unfold coherent. cbn [_options _buffers_ _lastRenderData].
  split; [exact HW|]. split; [exact HH|]. split; [exact HW0|]. split; [exact HH0|].
  destruct (Hbufs target) as [Hwt Hlt].
  split.
  - split; [exact Hfill|]. cbn [_buffers]. intros i.
    destruct (slot_eq_dec i target) as [-> | Hi].
    + rewrite deref_assign_same. cbn [with_data width data]. split; [exact Hwt|].
      unfold rows. rewrite render_rows_length by exact Hpaint. exact Hlt.
    + rewrite deref_assign_other by congruence. apply Hbufs.
  - cbn [_imageData _lastUsedBuffer _renderedLines lines _set]. split; [congruence|].
    unfold rows. rewrite render_rows_records by reflexivity. cbn [app].
    apply Forall_forall. intros record Hin.
    apply list_elem_of_fmap in Hin. destruct Hin as (k & -> & Hk).
    apply elem_of_seq in Hk. cbn [dy]. intros _. unfold count in Hfit. nia.
Qed.

Lemma fresh_coherent (K : Constants) (options : MinimapOptions) (WIDTH HEIGHT : Z) :
  integer (canvasInnerWidth options) = Ok WIDTH ->
  integer (canvasInnerHeight options) = Ok HEIGHT ->
  0 <= WIDTH -> 0 <= HEIGHT ->
  coherent K (fresh options) WIDTH HEIGHT.
Proof. intros HW HH HW0 HH0. repeat split; assumption. Qed.

(** C2.  Between two frames: the state is coherent and has a saved frame,
    as [render] leaves it, and the layout of the new frame has integer line
    numbers.  The buffer handed out for the new frame is not the one the
    saved frame refers to.  [_renderUntouchedLines] completes on it and
    leaves the saved buffer as it was; and every line number of the new
    range that has a record in the saved frame other than the invalid
    sentinel is flagged as not needing rasterization, and its
    [minimapLineHeight * WIDTH * 4] bytes in the new buffer, at the row
    [(lineNumber - startLineNumber) * minimapLineHeight], are the bytes of
    the saved buffer at the recorded [dy]. *)
Theorem render_reuses_rows (K : Constants) (env : Env) (this : Minimap)
    (renderingCtx : RestrictedRenderingContext) (lastRenderData : RenderData)
    (WIDTH HEIGHT startLineNumber endLineNumber : Z) :
  let layout :=
    MinimapLayout.create K (_options this)
      (visibleRange_startLineNumber renderingCtx)
      (visibleRange_endLineNumber renderingCtx)
      (viewportHeight renderingCtx)
      (0 <? whitespaceViewportData_length renderingCtx)
      (getLineCount env) (getVerticalSliderVerticalCenter env)
      (scrollTop renderingCtx) (scrollHeight renderingCtx) in
  let minimapLineHeight := getMinimapLineHeight K (renderMinimap (_options this)) in
  let last := _imageData lastRenderData in
  let lastStartLineNumber := rendLineNumberStart (_renderedLines lastRenderData) in
  let lastLines := lines (_renderedLines lastRenderData) in
  let row := fun y : Z => y * WIDTH * 4 in
  positive_cells K ->
  coherent K this WIDTH HEIGHT ->
  _lastRenderData this = Some lastRenderData ->
  integer (MinimapLayout.startLineNumber layout) = Ok startLineNumber ->
  integer (MinimapLayout.endLineNumber layout) = Ok endLineNumber ->
  exists (saved buffers : MinimapBuffers) (target : Slot)
         (needed : list bool) (bufs' : Buffers),
    _buffers_ this = Some saved
    /\ _getBuffer env this = Ok (buffers, target)
    /\ target <> last
    /\ width (deref (_buffers buffers) target) = WIDTH
    /\ _renderUntouchedLines (_buffers buffers) target startLineNumber
         endLineNumber minimapLineHeight (Some lastRenderData)
       = Ok (needed, bufs')
    /\ deref bufs' last = deref (_buffers saved) last
    /\ forall (lineNumber : Z) (record : MinimapLine),
         startLineNumber <= lineNumber <= endLineNumber ->
         lastStartLineNumber <= lineNumber ->
         lastLines !! Z.to_nat (lineNumber - lastStartLineNumber) = Some record ->
         dy record <> -1 ->
         let dest_dy := (lineNumber - startLineNumber) * minimapLineHeight in
         needed !! Z.to_nat (lineNumber - startLineNumber) = Some false
         /\ subarray (data (deref bufs' target))
              (row dest_dy) (row (dest_dy + minimapLineHeight))
            = subarray (data (deref (_buffers saved) last))
                (row (dy record)) (row (dy record + minimapLineHeight)).
Proof.
  intros layout mlh last lastStart lastLines row HK
    (HW & HH & HW0 & HH0 & Hstate) Hframe Hs He.
  pose proof (pitch_positive K (renderMinimap (_options this)) HK) as Hpitch.
  pose proof (create_rows_fit K (_options this) _ _ _ _ _ _ _ _ _ _ _ HK Hs He HH)
    as Hfit.
  rewrite (Z.max_r 0 HEIGHT) in Hfit by exact HH0. fold mlh in Hpitch, Hfit.
  destruct (_buffers_ this) as [saved|] eqn:Hsaved; [|congruence].
  rewrite Hframe in Hstate. destruct Hstate as (Hsized & Href & Hrecords).
  fold mlh in Hrecords.
  destruct (getBuffer_well_sized saved WIDTH HEIGHT Hsized)
    as (buffers & target & Hbuffer & [_ Hsized']).
  pose proof (getBuffer_rotates _ _ _ Hbuffer) as (Htarget & _ & Hkept).
  rewrite <- Href in Htarget, Hkept. fold last in Htarget, Hkept.
  assert (Hdistinct : target <> last) by (rewrite Htarget; apply other_distinct).
  destruct (Hsized' target) as [Hwt Hlt].
  destruct (Hsized' last) as [_ Hll].
  destruct (_renderUntouchedLines_run (_buffers buffers) target startLineNumber
              endLineNumber mlh lastRenderData Hdistinct Hpitch)
    as (needed & bufs' & Hrun & Hlast & _ & _ & Hreused).
  - rewrite Hwt. exact HW0.
  - rewrite Hwt. fold last. rewrite Hll. eapply Forall_impl; [exact Hrecords|].
    intros record Hrecord Hvalid. destruct (Hrecord Hvalid) as [H0 H1].
    split; [exact H0|]. nia.
  - rewrite Hwt, Hlt. nia.
  - exists saved, buffers, target, needed, bufs'.
    split; [reflexivity|]. split.
    { unfold _getBuffer. rewrite Hsaved. simpl. exact Hbuffer. }
    split; [exact Hdistinct|]. split; [exact Hwt|]. split; [exact Hrun|].
    fold last in Hlast. rewrite Hkept in Hlast. split; [exact Hlast|].
    intros lineNumber record Hrange Hlo Hlook Hvalid.
    specialize (Hreused lineNumber record Hrange Hlo Hlook Hvalid).
    rewrite Hwt in Hreused. fold last in Hreused. rewrite Hkept in Hreused.
    exact Hreused.
Qed.

(** The first frame of the 10 line document in the narrow minimap. *)
Lemma first_frame_completes :
  render sample_cells (sample_env 10) (fresh narrow_minimap) at_top
  = Ok after_first_frame
  /\ _lastRenderData after_first_frame = Some first_frame_data
  /\ _getBuffer (sample_env 10) after_first_frame = Ok second_frame_buffers.
Proof. repeat split; vm_compute; reflexivity. Qed.

(** The state after the first frame of the 10 line document is coherent. *)
Lemma after_first_frame_coherent : coherent sample_cells after_first_frame 3 8.
Proof.
  destruct (render_keeps_coherent sample_cells (sample_env 10)
              (fresh narrow_minimap) at_top 3 8 1 4) as (this' & Hrender & Hcoherent).
  - unfold positive_cells. simpl. lia.
  - discriminate.
  - intros img call. simpl. apply length_insert.
  - apply fresh_coherent; [reflexivity | reflexivity | lia | lia].
  - reflexivity.
  - reflexivity.
  - destruct first_frame_completes as (Hsame & _). congruence.
Qed.

(** The second frame of the 10 line document, scrolled by 8 pixels, shows
    the lines 2 to 5; line 3 was drawn at [dy = 4] by the first frame and
    is copied to [dy = 2]. *)
Lemma render_reuses_rows_witness :
  exists (buffers : MinimapBuffers) (target : Slot) (needed : list bool)
         (bufs' : Buffers),
    _getBuffer (sample_env 10) after_first_frame = Ok (buffers, target)
    /\ _renderUntouchedLines (_buffers buffers) target 2 5 2 (Some first_frame_data)
       = Ok (needed, bufs')
    /\ needed !! 1%nat = Some false
    /\ subarray (data (deref bufs' target)) 24 48
       = subarray (data (deref (_buffers (fst second_frame_buffers)) slot1)) 48 72.
Proof.
  destruct (render_reuses_rows sample_cells (sample_env 10) after_first_frame
              scrolled first_frame_data 3 8 2 5)
    as (saved & buffers & target & needed & bufs' & Hsaved & Hbuffer & _ & _
        & Hrun & _ & Hreused).
  - unfold positive_cells. simpl. lia.
  - exact after_first_frame_coherent.
  - reflexivity.
  - reflexivity.
  - reflexivity.
  - exists buffers, target, needed, bufs'.
    split; [exact Hbuffer|]. split; [exact Hrun|].
    injection Hsaved as <-.
    apply (Hreused 3 (new_MinimapLine 4)); [lia | simpl; lia | reflexivity | discriminate].
Defined.

(** X23.  The frame after a completed [render] is drawn into the buffer that the
    saved [RenderData] does not refer to, and finds the saved buffer as
    [render] left it. *)
Lemma next_frame_draws_other_buffer (K : Constants) (env : Env)
    (this this' : Minimap) (renderingCtx : RestrictedRenderingContext)
    (buffers : MinimapBuffers) (target : Slot) :
  renderMinimap (_options this) <> None_ ->
  render K env this renderingCtx = Ok this' ->
  _getBuffer env this' = Ok (buffers, target) ->
  exists (lastRenderData : RenderData) (saved : MinimapBuffers),
    _lastRenderData this' = Some lastRenderData
    /\ _buffers_ this' = Some saved
    /\ target <> _imageData lastRenderData
    /\ deref (_buffers buffers) (_imageData lastRenderData)
       = deref (_buffers saved) (_imageData lastRenderData).
Proof.
  intros Hon Hrender Hnext.
  destruct (render_Ok K env this this' renderingCtx Hon Hrender)
    as (s & e & b0 & imageData & needed & bufs & _ & _ & Hb0 & _ & ->).
  unfold _getBuffer in Hb0. apply bind_Ok in Hb0. destruct Hb0 as (b & _ & Hb).
  apply getBuffer_rotates in Hb. destruct Hb as (_ & Hused & _).
  unfold _getBuffer in Hnext. simpl in Hnext.
  apply getBuffer_rotates in Hnext. simpl in Hnext.
  destruct Hnext as (-> & _ & Hkept).
  eexists. eexists. split; [reflexivity|]. split; [reflexivity|]. simpl.
  rewrite Hused in *. split; [apply other_distinct | exact Hkept].
Qed.

(** The layout a completed [render] saves was created from the scroll
    offset of its rendering context. *)
Lemma render_saves_scrollTop (K : Constants) (env : Env) (this this' : Minimap)
    (renderingCtx : RestrictedRenderingContext) (lastRenderData : RenderData) :
  renderMinimap (_options this) <> None_ ->
  render K env this renderingCtx = Ok this' ->
  _lastRenderData this' = Some lastRenderData ->
  MinimapLayout.scrollTop (renderedLayout lastRenderData) = scrollTop renderingCtx.
Proof.
  intros Hon Hrender Hsaved.
  destruct (render_Ok K env this this' renderingCtx Hon Hrender)
    as (s & e & buffers & imageData & needed & bufs & _ & _ & _ & _ & ->).
  simpl in Hsaved. injection Hsaved as <-. simpl.
  apply (create_slider K (_options this)).
Qed.

(** C10, as stated, fails.  With the tiny lines the slider top is
    negative, and near the end of the 1000 line document the layout starts
    at line 1064 and ends at line 1000: [render] completes and saves no
    record, which is not [1000 - 1064 + 1] records. *)
Lemma render_inverted_range_saves_no_record :
  match render sample_cells (sample_env 1000) (fresh tiny_lines) near_end with
  | Ok this' =>
      match _lastRenderData this' with
      | Some lastRenderData =>
          MinimapLayout.startLineNumber (renderedLayout lastRenderData) = of_Z 1064
          /\ MinimapLayout.endLineNumber (renderedLayout lastRenderData) = of_Z 1000
          /\ lines (_renderedLines lastRenderData) = []
          /\ Z.of_nat (length (lines (_renderedLines lastRenderData)))
             <> 1000 - 1064 + 1
      | None => False
      end
  | Throw _ => False
  end.
Proof.
  vm_compute. repeat split. discriminate.
Qed.

(** C10, amended.  After a call of [render] that completes, on an enabled
    minimap, the saved [RenderData] is anchored at [startLineNumber] and
    holds [max(0, endLineNumber - startLineNumber + 1)] records, which is
    [endLineNumber - startLineNumber + 1] unless the range is inverted; the
    [k]-th record has [dy = k * minimapLineHeight], and none is the invalid
    sentinel.  The image it refers to is the buffer handed out for the
    frame: what [_renderUntouchedLines] copied into it, on which each row
    [lineIndex] that needed it was then rasterized at the vertical offset
    [lineIndex * minimapLineHeight]. *)
Theorem render_saves_row_records (K : Constants) (env : Env) (this this' : Minimap)
    (renderingCtx : RestrictedRenderingContext) :
  positive_cells K ->
  renderMinimap (_options this) <> None_ ->
  render K env this renderingCtx = Ok this' ->
  let minimapLineHeight := getMinimapLineHeight K (renderMinimap (_options this)) in
  exists (lastRenderData : RenderData) (startLineNumber endLineNumber : Z),
    _lastRenderData this' = Some lastRenderData
    /\ integer (MinimapLayout.startLineNumber (renderedLayout lastRenderData))
       = Ok startLineNumber
    /\ integer (MinimapLayout.endLineNumber (renderedLayout lastRenderData))
       = Ok endLineNumber
    /\ rendLineNumberStart (_renderedLines lastRenderData) = startLineNumber
    /\ Z.of_nat (length (lines (_renderedLines lastRenderData)))
       = Z.max 0 (endLineNumber - startLineNumber + 1)
    /\ (startLineNumber <= endLineNumber + 1 ->
        Z.of_nat (length (lines (_renderedLines lastRenderData)))
        = endLineNumber - startLineNumber + 1)
    /\ (forall (k : nat) (record : MinimapLine),
          lines (_renderedLines lastRenderData) !! k = Some record ->
          dy record = Z.of_nat k * minimapLineHeight
          /\ dy record <> -1 /\ record <> INVALID)
    /\ exists (buffers buffers' : MinimapBuffers) (needed : list bool) (bufs : Buffers),
         let target := _imageData lastRenderData in
         let lineInfo :=
           getMinimapLinesRenderingData env startLineNumber endLineNumber needed in
         _getBuffer env this = Ok (buffers, target)
         /\ _renderUntouchedLines (_buffers buffers) target startLineNumber
              endLineNumber minimapLineHeight (_lastRenderData this)
            = Ok (needed, bufs)
         /\ _buffers_ this' = Some buffers'
         /\ _lastUsedBuffer buffers' = target
         /\ data (deref (_buffers buffers') target)
            = foldl (fun pixels lineIndex =>
                       render_row K env (deref bufs target)
                         (getColor env (DefaultBackground env))
                         (backgroundIsLight env) (renderMinimap (_options this))
                         (lineInfo_tabSize lineInfo) needed (lineInfo_data lineInfo)
                         lineIndex (lineIndex * minimapLineHeight) pixels)
                (data (deref bufs target))
                (seqZ 0 (Z.max 0 (endLineNumber - startLineNumber + 1))).
Proof.
  intros HK Hon Hrender mlh.
  pose proof (pitch_positive K (renderMinimap (_options this)) HK) as Hpitch.
  fold mlh in Hpitch.
  destruct (render_Ok K env this this' renderingCtx Hon Hrender)
    as (s & e & buffers & imageData & needed & bufs & Hs & He & Hbuffer
        & Huntouched & ->).
  fold mlh in Hs, He, Huntouched |- *.
  set (lineInfo := getMinimapLinesRenderingData env s e needed).
  set (n := Z.to_nat (e - s + 1)).
  pose proof (render_rows_records K env (deref bufs imageData)
                (getColor env (DefaultBackground env)) (backgroundIsLight env)
                (renderMinimap (_options this)) mlh (lineInfo_tabSize lineInfo)
                needed (lineInfo_data lineInfo) n 0 0 [] (data (deref bufs imageData))
                eq_refl) as Hrecords.
  pose proof (render_rows_pixels K env (deref bufs imageData)
                (getColor env (DefaultBackground env)) (backgroundIsLight env)
                (renderMinimap (_options this)) mlh (lineInfo_tabSize lineInfo)
                needed (lineInfo_data lineInfo) n 0 0 [] (data (deref bufs imageData))
                eq_refl) as Hpixels.
  destruct (render_rows _ _ _ _ _ _ _ _ _ _ _ _ _ _ _) as [renderedLines pixels].
  simpl in Hrecords, Hpixels.
  assert (Hrecord : forall (k : nat) (record : MinimapLine),
            renderedLines !! k = Some record -> dy record = Z.of_nat k * mlh).
  { intros k record Hlook. rewrite Hrecords in Hlook.
    apply list_lookup_fmap_Some in Hlook. destruct Hlook as (i & -> & Hi).
    apply lookup_seq in Hi. destruct Hi as [-> _]. simpl. lia. }
  assert (Hcount : Z.of_nat (length renderedLines) = Z.max 0 (e - s + 1)).
  { rewrite Hrecords, length_map, length_seq. unfold n. lia. }
  eexists. exists s, e.
  simpl. split; [reflexivity|]. split; [exact Hs|]. split; [exact He|].
  split; [reflexivity|]. split; [exact Hcount|]. split; [simpl; lia|]. simpl. split.
  - intros k record Hlook. pose proof (Hrecord k record Hlook) as Hdy.
    split; [exact Hdy|]. split; [nia|].
    unfold INVALID. intros ->. simpl in Hdy. nia.
  - exists buffers. eexists. exists needed, bufs.
    split; [exact Hbuffer|]. split; [exact Huntouched|]. split; [reflexivity|].
    simpl. split.
    + unfold _getBuffer in Hbuffer. apply bind_Ok in Hbuffer.
      destruct Hbuffer as (b0 & _ & Hb0). apply getBuffer_rotates in Hb0.
      apply Hb0.
    + rewrite deref_assign_same. simpl. rewrite Hpixels.
      unfold n. replace (Z.of_nat (Z.to_nat (e - s + 1))) with (Z.max 0 (e - s + 1)) by lia.
      reflexivity.
Qed.

(** The first frame of the 10 line document records its 4 rows. *)
Lemma render_saves_row_records_witness :
  exists (lastRenderData : RenderData),
    _lastRenderData after_first_frame = Some lastRenderData
    /\ rendLineNumberStart (_renderedLines lastRenderData) = 1
    /\ Z.of_nat (length (lines (_renderedLines lastRenderData))) = 4
    /\ forall (k : nat) (record : MinimapLine),
         lines (_renderedLines lastRenderData) !! k = Some record ->
         dy record = Z.of_nat k * 2 /\ dy record <> -1 /\ record <> INVALID.
Proof.
  destruct (render_saves_row_records sample_cells (sample_env 10)
              (fresh narrow_minimap) after_first_frame at_top)
    as (rd & s & e & Hsaved & Hs & He & Hstart & Hcount & _ & Hrecords & _).
  - unfold positive_cells. simpl. lia.
  - discriminate.
  - vm_compute. reflexivity.
  - exists rd. split; [exact Hsaved|].
    assert (Hrd : rd = first_frame_data).
    { assert (H : _lastRenderData after_first_frame = Some first_frame_data)
        by reflexivity.
      congruence. }
    subst rd. vm_compute in Hs, He. injection Hs as <-. injection He as <-.
    split; [exact Hstart|]. split; [exact Hcount|]. exact Hrecords.
Defined.

(** * Further properties *)

(** ** The layout and the slider drag *)

Local Close Scope Z_scope.

Lemma div_Fin (a b : Q) : ~ (b == 0)%Q -> (Fin a / Fin b)%num = Fin (a / b).
Proof.
  intros Hb. simpl.
  destruct (b ?= 0)%Q eqn:Hc; [apply Qeq_alt in Hc; contradiction | reflexivity | reflexivity].
Qed.

Lemma min_Fin (a b : Q) :
  exists c, min (Fin a) (Fin b) = Fin c /\ (c <= a)%Q /\ (c <= b)%Q /\ (c = a \/ c = b).
Proof.
  simpl. destruct (b ?= a)%Q eqn:Hc.
  - exists a. apply Qeq_alt in Hc. repeat split; auto; lra.
  - exists b. apply Qlt_alt in Hc. repeat split; auto; lra.
  - exists a. apply Qgt_alt in Hc. repeat split; auto; lra.
Qed.

Lemma max_of_Z (x y : Z) : max (of_Z x) (of_Z y) = of_Z (Z.max x y).
Proof.
  unfold of_Z. simpl. destruct (inject_Z x ?= inject_Z y)%Q eqn:Hc.
  - apply Qeq_alt in Hc. rewrite inject_Z_injective in Hc. subst. rewrite Z.max_id. reflexivity.
  - apply Qlt_alt in Hc. rewrite <- Zlt_Qlt in Hc. rewrite Z.max_r by lia. reflexivity.
  - apply Qgt_alt in Hc. rewrite <- Zlt_Qlt in Hc. rewrite Z.max_l by lia. reflexivity.
Qed.

Lemma integer_Qeq (q : Q) (z : Z) : (q == inject_Z z)%Q -> integer (Fin q) = Ok z.
Proof.
  intros H. unfold integer, to_integer.
  assert (Hf : Qfloor q = z) by (rewrite H; apply Qfloor_Z).
  rewrite Hf. rewrite (proj2 (Qeq_bool_iff _ _) H). reflexivity.
Qed.

Lemma create_sliderHeight (K : Constants) (options : MinimapOptions)
    (vStart vEnd vHeight : number) (gaps : bool)
    (lineCount center scrollTop scrollHeight : number) :
  let L := MinimapLayout.create K options vStart vEnd vHeight gaps
             lineCount center scrollTop scrollHeight in
  let pitch := of_Z (getMinimapLineHeight K (renderMinimap options)) in
  MinimapLayout.sliderHeight L =
    if gaps && negb (vEnd === lineCount)%num
    then floor ((vEnd - vStart + of_Z 1) * pitch / pixelRatio options)%num
    else floor (vHeight / lineHeight options * pitch / pixelRatio options)%num.
Proof.
  unfold MinimapLayout.create.
  destruct (_ >=? lineCount)%num; simpl; destruct (gaps && _); reflexivity.
Qed.

(** With finite inputs, a non-zero pixel ratio and line height, and a
    document that scrolls, the slider of a layout is finite. *)
Lemma create_finite (K : Constants) (options : MinimapOptions)
    (gaps : bool) (center : number)
    (pr lh H vs ve vh lc st sh : Q) :
  pixelRatio options = Fin pr -> ~ (pr == 0)%Q ->
  lineHeight options = Fin lh -> ~ (lh == 0)%Q ->
  minimapHeight options = Fin H ->
  ~ (sh == vh)%Q ->
  let L := MinimapLayout.create K options (Fin vs) (Fin ve) (Fin vh) gaps
             (Fin lc) center (Fin st) (Fin sh) in
  exists (h : Z) (m : Q),
    MinimapLayout.sliderHeight L = of_Z h
    /\ min (minimapHeight options - MinimapLayout.sliderHeight L)
           ((Fin lc - of_Z 1) * of_Z (getMinimapLineHeight K (renderMinimap options))
            / pixelRatio options) = Fin m
    /\ MinimapLayout._computedSliderRatio L = Fin (m / (sh + - vh))
    /\ MinimapLayout.sliderTop L = Fin (st * (m / (sh + - vh))).
Proof.
  intros Hpr Hpr0 Hlh Hlh0 HH Hrange L.
  destruct (create_slider K options (Fin vs) (Fin ve) (Fin vh) gaps
              (Fin lc) center (Fin st) (Fin sh)) as (_ & Hr & Htop).
  pose proof (create_sliderHeight K options (Fin vs) (Fin ve) (Fin vh) gaps
                (Fin lc) center (Fin st) (Fin sh)) as Hsh.
  cbv zeta in Hsh. fold L in Hr, Htop, Hsh.
  set (pitch := getMinimapLineHeight K (renderMinimap options)) in *.
  rewrite Hpr, Hlh in Hsh.
  assert (Hh : exists h, MinimapLayout.sliderHeight L = of_Z h).
  { rewrite Hsh. destruct (gaps && _).
    - unfold of_Z. cbn [sub add neg mul]. rewrite div_Fin by exact Hpr0.
      eexists. reflexivity.
    - rewrite (div_Fin vh lh) by exact Hlh0. unfold of_Z. cbn [mul].
      rewrite div_Fin by exact Hpr0. eexists. reflexivity. }
  destruct Hh as (h & Hh). exists h.
  rewrite Hr, Htop, Hr. rewrite Hh, HH, Hpr.
  unfold of_Z. cbn [sub add neg mul]. rewrite div_Fin by exact Hpr0.
  destruct (min_Fin (H + - inject_Z h)
              ((lc + - inject_Z 1) * inject_Z pitch / pr)) as (m & -> & _).
  exists m. rewrite div_Fin by (intros E; apply Hrange; lra).
  repeat split; reflexivity.
Qed.

Lemma min_integer (x : Z) (q : Q) (y : Z) :
  (q == inject_Z y)%Q -> integer (min (of_Z x) (Fin q)) = Ok (Z.min x y).
Proof.
  intros Hq. destruct (min_Fin (inject_Z x) q) as (c & Hc & Hcx & Hcq & Hcase).
  unfold of_Z. rewrite Hc. apply integer_Qeq.
  rewrite Hq in Hcq.
  destruct Hcase as [-> | ->].
  - rewrite <- Zle_Qle in Hcq. rewrite Z.min_l by lia. reflexivity.
  - rewrite Hq in Hcx |- *. rewrite <- Zle_Qle in Hcx. rewrite Z.min_r by lia. reflexivity.
Qed.

Lemma floor_div_pitch (ch : Q) (pitch : Z) :
  (0 < pitch)%Z ->
  floor (Fin ch / of_Z pitch) = of_Z (Qfloor (ch / inject_Z pitch)).
Proof.
  intros Hp. unfold of_Z at 1. rewrite div_Fin; [reflexivity|].
  intros E. change 0%Q with (inject_Z 0) in E. rewrite inject_Z_injective in E. lia.
Qed.

Lemma fitting_rows_fit (ch : Q) (pitch n : Z) :
  (0 < pitch)%Z -> (n <= Qfloor (ch / inject_Z pitch))%Z -> (0 <= n)%Z ->
  (inject_Z (n * pitch) <= ch)%Q.
Proof.
  intros Hp Hn H0.
  assert (Hpq : (0 < inject_Z pitch)%Q)
    by (change 0%Q with (inject_Z 0); rewrite <- Zlt_Qlt; exact Hp).
  pose proof (Qfloor_le (ch / inject_Z pitch)) as Hf.
  assert (Hnq : (inject_Z n <= ch / inject_Z pitch)%Q).
  { eapply Qle_trans; [|exact Hf]. rewrite <- Zle_Qle. exact Hn. }
  rewrite inject_Z_mult.
  apply (Qmult_le_compat_r _ _ (inject_Z pitch)) in Hnq; [|lra].
  eapply Qle_trans; [exact Hnq|].
  assert (E : (ch / inject_Z pitch * inject_Z pitch == ch)%Q) by (field; lra).
  rewrite E. lra.
Qed.

Lemma create_lines (K : Constants) (options : MinimapOptions)
    (vStart vEnd vHeight : number) (gaps : bool)
    (lineCount center scrollTop scrollHeight : number) :
  let L := MinimapLayout.create K options vStart vEnd vHeight gaps
             lineCount center scrollTop scrollHeight in
  let pitch := of_Z (getMinimapLineHeight K (renderMinimap options)) in
  let fitting := floor (canvasInnerHeight options / pitch) in
  MinimapLayout.startLineNumber L =
    (if (fitting >=? lineCount)%num then of_Z 1
     else max (of_Z 1)
            (floor (vStart - MinimapLayout.sliderTop L * pixelRatio options / pitch)%num))
  /\ MinimapLayout.endLineNumber L =
    (if (fitting >=? lineCount)%num then lineCount
     else min lineCount (MinimapLayout.startLineNumber L + fitting - of_Z 1)%num).
Proof.
  unfold MinimapLayout.create.
  destruct (_ >=? lineCount)%num; simpl; split; reflexivity.
Qed.

(** X1.  The range of lines of a layout, for finite inputs with a non-zero
    pixel ratio and line height and a document that scrolls: its two ends
    are whole line numbers, it starts at line 1 or later and ends at the
    last line of the document or earlier, and it holds no more lines than
    rows fit in the canvas, [floor(canvasInnerHeight / minimapLineHeight)],
    so that its rows fit in the height of the canvas. *)
Theorem create_range_within_document (K : Constants) (options : MinimapOptions)
    (gaps : bool) (center : number)
    (pr lh H ch vs ve vh st sh : Q) (lc : Z) :
  positive_cells K ->
  pixelRatio options = Fin pr -> ~ (pr == 0)%Q ->
  lineHeight options = Fin lh -> ~ (lh == 0)%Q ->
  minimapHeight options = Fin H ->
  canvasInnerHeight options = Fin ch ->
  ~ (sh == vh)%Q ->
  let L := MinimapLayout.create K options (Fin vs) (Fin ve) (Fin vh) gaps
             (of_Z lc) center (Fin st) (Fin sh) in
  let minimapLineHeight := getMinimapLineHeight K (renderMinimap options) in
  exists s e : Z,
    integer (MinimapLayout.startLineNumber L) = Ok s
    /\ integer (MinimapLayout.endLineNumber L) = Ok e
    /\ (1 <= s)%Z /\ (e <= lc)%Z
    /\ (e - s + 1 <= Qfloor (ch / inject_Z minimapLineHeight))%Z
    /\ ((s <= e + 1)%Z -> (inject_Z ((e - s + 1) * minimapLineHeight) <= ch)%Q).
Proof.
  intros HK Hpr Hpr0 Hlh Hlh0 HH Hch Hrange L pitch.
  pose proof (pitch_positive K (renderMinimap options) HK) as Hpitch. fold pitch in Hpitch.
  destruct (create_finite K options gaps center pr lh H vs ve vh (inject_Z lc) st sh
              Hpr Hpr0 Hlh Hlh0 HH Hrange) as (h & m & _ & _ & _ & Htop).
  change (Fin (inject_Z lc)) with (of_Z lc) in Htop. fold L in Htop.
  destruct (create_lines K options (Fin vs) (Fin ve) (Fin vh) gaps
              (of_Z lc) center (Fin st) (Fin sh)) as [Hs He].
  fold L pitch in Hs, He. rewrite Hs in He. rewrite Hs, He. clear Hs He.
  set (fitting := Qfloor (ch / inject_Z pitch)).
  assert (Hfits : forall s e, (e - s + 1 <= fitting)%Z -> (s <= e + 1)%Z ->
                    (inject_Z ((e - s + 1) * pitch) <= ch)%Q).
  { intros s e Hle Hse. apply fitting_rows_fit; [exact Hpitch | exact Hle | lia]. }
  rewrite Hch, floor_div_pitch by exact Hpitch. fold fitting.
  destruct (of_Z fitting >=? of_Z lc)%num eqn:Hall.
  - exists 1%Z, lc. rewrite !integer_of_Z.
    apply leb_Fin in Hall. rewrite <- Zle_Qle in Hall.
    split; [reflexivity|]. split; [reflexivity|]. split; [lia|]. split; [lia|].
    split; [lia|]. apply Hfits. lia.
  - set (s := Z.max 1 (Qfloor (vs + - (st * (m / (sh + - vh)) * pr / inject_Z pitch)))).
    assert (Hstart : max (of_Z 1)
                       (floor (Fin vs - MinimapLayout.sliderTop L * pixelRatio options
                                        / of_Z pitch)%num) = of_Z s).
    { rewrite Htop, Hpr. unfold of_Z at 2. cbn [mul].
      rewrite div_Fin
        by (intros E; change 0%Q with (inject_Z 0) in E;
            rewrite inject_Z_injective in E; lia).
      cbn [sub add neg floor]. apply max_of_Z. }
    rewrite Hstart.
    exists s, (Z.min lc (s + fitting - 1))%Z.
    rewrite integer_of_Z. split; [reflexivity|].
    split.
    { unfold of_Z at 2 3 4. cbn [add sub neg]. apply min_integer.
      unfold Z.sub. rewrite !inject_Z_plus, inject_Z_opp. reflexivity. }
    split; [lia|]. split; [lia|]. split; [lia|]. apply Hfits. lia.
Qed.



(** X2.  The slider when the document scrolls: its height and the ratio do not
    depend on the scroll position, and scrolling down never moves it up. *)
Theorem create_slider_monotone (K : Constants) (options : MinimapOptions)
    (center1 center2 : number)
    (pr lh H vs1 ve1 vs2 ve2 vh lc st1 st2 sh : Q) :
  positive_cells K ->
  pixelRatio options = Fin pr -> (0 < pr)%Q ->
  lineHeight options = Fin lh -> ~ (lh == 0)%Q ->
  minimapHeight options = Fin H ->
  (1 <= lc)%Q ->
  (vh < sh)%Q ->
  (st1 <= st2)%Q ->
  let L1 := MinimapLayout.create K options (Fin vs1) (Fin ve1) (Fin vh) false
              (Fin lc) center1 (Fin st1) (Fin sh) in
  let L2 := MinimapLayout.create K options (Fin vs2) (Fin ve2) (Fin vh) false
              (Fin lc) center2 (Fin st2) (Fin sh) in
  (MinimapLayout.sliderHeight L1 <=? minimapHeight options)%num = true ->
  MinimapLayout.sliderHeight L2 = MinimapLayout.sliderHeight L1
  /\ MinimapLayout._computedSliderRatio L2 = MinimapLayout._computedSliderRatio L1
  /\ (MinimapLayout.sliderTop L1 <=? MinimapLayout.sliderTop L2)%num = true.
Proof.
  intros HK Hpr Hpr0 Hlh Hlh0 HH Hlc Hscroll Hst L1 L2 Hfits.
  pose proof (pitch_positive K (renderMinimap options) HK) as Hpitch.
  assert (Hsame : MinimapLayout.sliderHeight L2 = MinimapLayout.sliderHeight L1).
  { unfold L1, L2. rewrite !create_sliderHeight. reflexivity. }
  destruct (create_finite K options false center1 pr lh H vs1 ve1 vh lc st1 sh)
    as (h1 & m1 & Hh1 & Hm1 & Hr1 & Ht1); try assumption; try lra.
  destruct (create_finite K options false center2 pr lh H vs2 ve2 vh lc st2 sh)
    as (h2 & m2 & Hh2 & Hm2 & Hr2 & Ht2); try assumption; try lra.
  fold L1 in Hh1, Hm1, Hr1, Ht1. fold L2 in Hh2, Hm2, Hr2, Ht2.
  rewrite Hsame, Hm1 in Hm2. injection Hm2 as <-.
  split; [exact Hsame|]. split; [congruence|].
  rewrite Ht1, Ht2. apply leb_Fin.
  (* the slider travels a non-negative distance *)
  assert (Hm : (0 <= m1)%Q).
  { revert Hm1. rewrite Hh1, HH, Hpr in *. apply leb_Fin in Hfits.
    unfold of_Z. cbn [sub add neg mul]. rewrite div_Fin by lra.
    destruct (min_Fin (H + - inject_Z h1)
                ((lc + - inject_Z 1) * inject_Z (getMinimapLineHeight K (renderMinimap options)) / pr))
      as (c & -> & _ & _ & Hcase).
    intros [= <-]. destruct Hcase as [-> | ->]; [lra|].
    apply Qle_shift_div_l; [exact Hpr0|]. rewrite Qmult_0_l.
    apply Qmult_le_0_compat.
    - change (inject_Z 1) with 1%Q. lra.
    - change 0%Q with (inject_Z 0). rewrite <- Zle_Qle. lia. }
  assert (Hr : (0 <= m1 / (sh + - vh))%Q).
  { apply Qle_shift_div_l; [lra|]. lra. }
  apply Qmult_le_compat_r; assumption.
Qed.

Lemma round_Fin (q : Q) : round (Fin q) = of_Z (Qfloor (q + (1 # 2))).
Proof. reflexivity. Qed.

(** X6.  While a drag is not reset, a pointer that is further down requests a
    scroll offset that is no smaller (the ratio being positive).  A move is
    not reset off Windows, however far the pointer is, and on Windows when
    the pointer is within the reset distance. *)
Theorem sliderMouseMove_monotone (isWindows : bool) (drag : SliderDrag)
    (move1 move2 : IStandardMouseMoveEventData) (t r y0 y1 y2 : Q) :
  MinimapLayout.sliderTop (initialSliderState drag) = Fin t ->
  MinimapLayout._computedSliderRatio (initialSliderState drag) = Fin r ->
  (0 < r)%Q ->
  initialMousePosition drag = Fin y0 ->
  posy move1 = Fin y1 -> posy move2 = Fin y2 -> (y1 <= y2)%Q ->
  isWindows = false
  \/ (abs (posx move1 - initialMouseOrthogonalPosition drag)
      >? MOUSE_DRAG_RESET_DISTANCE)%num = false ->
  isWindows = false
  \/ (abs (posx move2 - initialMouseOrthogonalPosition drag)
      >? MOUSE_DRAG_RESET_DISTANCE)%num = false ->
  (sliderMouseMove isWindows drag move1 <=? sliderMouseMove isWindows drag move2)%num
  = true.
Proof.
  intros Htop Hr Hr0 Hy0 Hy1 Hy2 Hle Hnear1 Hnear2.
  unfold sliderMouseMove.
  assert (Hkept1 : isWindows
                   && (abs (posx move1 - initialMouseOrthogonalPosition drag)
                       >? MOUSE_DRAG_RESET_DISTANCE)%num = false)
    by (destruct Hnear1 as [-> | ->]; [reflexivity | apply andb_false_r]).
  assert (Hkept2 : isWindows
                   && (abs (posx move2 - initialMouseOrthogonalPosition drag)
                       >? MOUSE_DRAG_RESET_DISTANCE)%num = false)
    by (destruct Hnear2 as [-> | ->]; [reflexivity | apply andb_false_r]).
  rewrite Hkept1, Hkept2.
  unfold MinimapLayout.getDesiredScrollTopFromDelta.
  rewrite Htop, Hr, Hy0, Hy1, Hy2. cbn [sub add neg].
  rewrite !div_Fin by lra. rewrite !round_Fin. apply leb_Fin.
  rewrite <- Zle_Qle. apply Qfloor_resp_le.
  apply Qplus_le_l. apply Qmult_le_compat_r; [lra|].
  apply Qinv_le_0_compat. lra.
Qed.

(** X7.  In a document that does not scroll, shown from its top, the slider top
    is [NaN], and every pointer move of a drag that is not reset (off
    Windows, or within the reset distance) requests the scroll offset
    [NaN]. *)
Theorem sliderMouseMove_no_scroll_range (K : Constants) (options : MinimapOptions)
    (vStart vEnd vHeight : number) (gaps : bool)
    (lineCount center scrollTop scrollHeight : number)
    (isWindows : bool) (drag : SliderDrag) (move : IStandardMouseMoveEventData) :
  (scrollHeight === vHeight)%num = true ->
  (scrollTop === of_Z 0)%num = true ->
  let L := MinimapLayout.create K options vStart vEnd vHeight gaps
             lineCount center scrollTop scrollHeight in
  initialSliderState drag = L ->
  isWindows = false
  \/ (abs (posx move - initialMouseOrthogonalPosition drag)
      >? MOUSE_DRAG_RESET_DISTANCE)%num = false ->
  (forall delta, MinimapLayout.getDesiredScrollTopFromDelta L delta = NaN)
  /\ sliderMouseMove isWindows drag move = NaN.
Proof.
  intros Heq H0 L Hdrag Hnear.
  destruct (create_slider K options vStart vEnd vHeight gaps
              lineCount center scrollTop scrollHeight) as (_ & Hratio & Htop).
  fold L in Hratio, Htop.
  assert (Hr : is_finite (MinimapLayout._computedSliderRatio L) = false).
  { rewrite Hratio.
    destruct (sub_same _ _ Heq) as [(z & -> & Hz) | ->].
    - apply div_zero_not_finite, Hz.
    - destruct (min _ _); reflexivity. }
  assert (Hnan : MinimapLayout.sliderTop L = NaN).
  { rewrite Htop. apply mul_zero_not_finite; assumption. }
  assert (Hall : forall delta, MinimapLayout.getDesiredScrollTopFromDelta L delta = NaN).
  { intros delta. unfold MinimapLayout.getDesiredScrollTopFromDelta. rewrite Hnan.
    reflexivity. }
  split; [exact Hall|].
  unfold sliderMouseMove.
  assert (Hkept : isWindows
                  && (abs (posx move - initialMouseOrthogonalPosition drag)
                      >? MOUSE_DRAG_RESET_DISTANCE)%num = false)
    by (destruct Hnear as [-> | ->]; [reflexivity | apply andb_false_r]).
  rewrite Hkept, Hdrag. apply Hall.
Qed.

(** X8.  When the slider top is not negative, the range of a layout is not
    inverted.  For a first visible line [vs] of the document and a canvas
    that holds at least one row, the range starts at line 1 or later and no
    later than [vs], and ends no earlier than it starts and no later than
    the last line. *)
Theorem create_range_not_inverted (K : Constants) (options : MinimapOptions)
    (vEnd vHeight : number) (gaps : bool) (center scrollTop scrollHeight : number)
    (pr ch t : Q) (vs lc : Z) :
  positive_cells K ->
  pixelRatio options = Fin pr -> (0 < pr)%Q ->
  canvasInnerHeight options = Fin ch ->
  (inject_Z (getMinimapLineHeight K (renderMinimap options)) <= ch)%Q ->
  (1 <= vs <= lc)%Z ->
  let L := MinimapLayout.create K options (of_Z vs) vEnd vHeight gaps
             (of_Z lc) center scrollTop scrollHeight in
  MinimapLayout.sliderTop L = Fin t -> (0 <= t)%Q ->
  exists s e : Z,
    integer (MinimapLayout.startLineNumber L) = Ok s
    /\ integer (MinimapLayout.endLineNumber L) = Ok e
    /\ (1 <= s <= vs)%Z /\ (s <= e <= lc)%Z.
Proof.
  intros HK Hpr Hpr0 Hch Hrow Hvs L Htop Ht.
  pose proof (pitch_positive K (renderMinimap options) HK) as Hpitch.
  set (pitch := getMinimapLineHeight K (renderMinimap options)) in *.
  assert (Hpq : (0 < inject_Z pitch)%Q)
    by (change 0%Q with (inject_Z 0); rewrite <- Zlt_Qlt; exact Hpitch).
  destruct (create_lines K options (of_Z vs) vEnd vHeight gaps
              (of_Z lc) center scrollTop scrollHeight) as [Hs He].
  fold L pitch in Hs, He. rewrite Hs in He. rewrite Hs, He. clear Hs He.
  rewrite Hch, floor_div_pitch by exact Hpitch.
  set (fitting := Qfloor (ch / inject_Z pitch)).
  assert (Hfitting : (1 <= fitting)%Z).
  { assert (H1 : (inject_Z 1 <= ch / inject_Z pitch)%Q).
    { apply Qle_shift_div_l; [exact Hpq|]. change (inject_Z 1) with 1%Q. lra. }
    apply Qfloor_resp_le in H1. rewrite Qfloor_Z in H1. exact H1. }
  destruct (of_Z fitting >=? of_Z lc)%num.
  - exists 1%Z, lc. rewrite !integer_of_Z. repeat split; lia.
  - set (s := Z.max 1 (Qfloor (inject_Z vs + - (t * pr / inject_Z pitch)))).
    assert (Hstart : max (of_Z 1)
                       (floor (of_Z vs - MinimapLayout.sliderTop L * pixelRatio options
                                         / of_Z pitch)%num) = of_Z s).
    { rewrite Htop, Hpr. unfold of_Z at 3. cbn [mul]. rewrite div_Fin by lra.
      unfold of_Z at 2. cbn [sub add neg floor]. apply max_of_Z. }
    rewrite Hstart.
    assert (Hle : (Qfloor (inject_Z vs + - (t * pr / inject_Z pitch)) <= vs)%Z).
    { assert (H1 : (inject_Z vs + - (t * pr / inject_Z pitch) <= inject_Z vs)%Q).
      { assert (H2 : (0 <= t * pr / inject_Z pitch)%Q).
        { apply Qle_shift_div_l; [exact Hpq|]. rewrite Qmult_0_l.
          apply Qmult_le_0_compat; lra. }
        lra. }
      apply Qfloor_resp_le in H1. rewrite Qfloor_Z in H1. exact H1. }
    exists s, (Z.min lc (s + fitting - 1))%Z.
    rewrite integer_of_Z. split; [reflexivity|].
    split.
    { unfold of_Z at 2 3 4. cbn [add sub neg]. apply min_integer.
      unfold Z.sub. rewrite !inject_Z_plus, inject_Z_opp. reflexivity. }
    unfold s. lia.
Qed.

(** X24.  The whole document is shown exactly when its rows fit in the canvas.
    For a layout with whole line numbers, of a document of [lc] lines in a
    canvas [ch] device pixels high: the range is [1 .. lc] if and only if
    [lc * minimapLineHeight <= ch]. *)
Theorem create_full_fit_iff (K : Constants) (options : MinimapOptions)
    (vStart vEnd vHeight : number) (gaps : bool)
    (center scrollTop scrollHeight : number) (ch : Q) (lc s e : Z) :
  positive_cells K ->
  canvasInnerHeight options = Fin ch ->
  let L := MinimapLayout.create K options vStart vEnd vHeight gaps
             (of_Z lc) center scrollTop scrollHeight in
  let minimapLineHeight := getMinimapLineHeight K (renderMinimap options) in
  integer (MinimapLayout.startLineNumber L) = Ok s ->
  integer (MinimapLayout.endLineNumber L) = Ok e ->
  (s = 1 /\ e = lc)%Z <-> (inject_Z (lc * minimapLineHeight) <= ch)%Q.
Proof.
  intros HK Hch L pitch Hs He.
  pose proof (pitch_positive K (renderMinimap options) HK) as Hpitch. fold pitch in Hpitch.
  assert (Hpq : (0 < inject_Z pitch)%Q)
    by (change 0%Q with (inject_Z 0); rewrite <- Zlt_Qlt; exact Hpitch).
  destruct (create_lines K options vStart vEnd vHeight gaps
              (of_Z lc) center scrollTop scrollHeight) as [Hstart Hend].
  fold L pitch in Hstart, Hend.
  rewrite Hch, floor_div_pitch in Hstart, Hend by exact Hpitch.
  set (fitting := Qfloor (ch / inject_Z pitch)) in *.
  assert (Hfit : (lc <= fitting)%Z <-> (inject_Z (lc * pitch) <= ch)%Q).
  { unfold fitting. rewrite inject_Z_mult. split; intros H.
    - pose proof (Qfloor_le (ch / inject_Z pitch)) as Hf.
      assert (H1 : (inject_Z lc <= ch / inject_Z pitch)%Q).
      { eapply Qle_trans; [|exact Hf]. rewrite <- Zle_Qle. exact H. }
      apply (Qmult_le_compat_r _ _ (inject_Z pitch)) in H1; [|lra].
      assert (E : (ch / inject_Z pitch * inject_Z pitch == ch)%Q) by (field; lra).
      rewrite E in H1. exact H1.
    - assert (H1 : (inject_Z lc <= ch / inject_Z pitch)%Q)
        by (apply Qle_shift_div_l; assumption).
      apply Qfloor_resp_le in H1. rewrite Qfloor_Z in H1. exact H1. }
  rewrite <- Hfit. clear Hfit.
  destruct (of_Z fitting >=? of_Z lc)%num eqn:Hall.
  - apply leb_Fin in Hall. rewrite <- Zle_Qle in Hall.
    rewrite Hstart, integer_of_Z in Hs. rewrite Hend, integer_of_Z in He.
    injection Hs as <-. injection He as <-. tauto.
  - assert (Hlt : (fitting < lc)%Z).
    { apply Z.lt_nge. intros Hle. rewrite Zle_Qle in Hle. apply leb_Fin in Hle.
      unfold geb, of_Z in Hall. congruence. }
    split; [|lia]. intros [-> ->]. exfalso.
    rewrite Hend in He. destruct (integer_Fin _ _ Hs) as (qs & Hqs & Hqsz).
    rewrite Hqs in He. revert He. unfold of_Z at 2 3. cbn [add sub neg].
    rewrite (min_integer lc _ (1 + fitting - 1))
      by (rewrite Hqsz; unfold Z.sub; rewrite !inject_Z_plus, inject_Z_opp; reflexivity).
    intros [= He]. lia.
Qed.

(** The 1000 line document of 20 pixel lines, scrolled by 100 pixels: the
    minimap of 600 device pixels holds 150 rows, the lines 4 to 153. *)
Lemma create_range_within_document_witness :
  let L := MinimapLayout.create sample_cells short_document
             (Fin 6) (Fin 35) (Fin 600) false (of_Z 1000) (of_Z 0) (Fin 100) (Fin 20580) in
  exists s e : Z,
    integer (MinimapLayout.startLineNumber L) = Ok s
    /\ integer (MinimapLayout.endLineNumber L) = Ok e
    /\ (1 <= s)%Z /\ (e <= 1000)%Z
    /\ (e - s + 1 <= Qfloor (600 / inject_Z 4))%Z
    /\ ((s <= e + 1)%Z -> (inject_Z ((e - s + 1) * 4) <= 600)%Q).
Proof.
  apply (create_range_within_document sample_cells short_document false (of_Z 0)
           1 20 600 600 6 35 600 100 20580 1000);
    try reflexivity; try (unfold positive_cells; simpl; lia);
    intros H; vm_compute in H; discriminate.
Defined.

Lemma create_slider_monotone_witness :
  let L1 := MinimapLayout.create sample_cells short_document
              (Fin 6) (Fin 35) (Fin 600) false (Fin 1000) (of_Z 0) (Fin 100) (Fin 20580) in
  let L2 := MinimapLayout.create sample_cells short_document
              (Fin 11) (Fin 40) (Fin 600) false (Fin 1000) (of_Z 0) (Fin 200) (Fin 20580) in
  MinimapLayout.sliderHeight L2 = MinimapLayout.sliderHeight L1
  /\ MinimapLayout._computedSliderRatio L2 = MinimapLayout._computedSliderRatio L1
  /\ (MinimapLayout.sliderTop L1 <=? MinimapLayout.sliderTop L2)%num = true.
Proof.
  apply (create_slider_monotone sample_cells short_document (of_Z 0) (of_Z 0)
           1 20 600 6 35 11 40 600 1000 100 200 20580);
    try reflexivity; try (unfold positive_cells; simpl; lia);
    try (vm_compute; congruence).
Defined.

(** A drag started after the first frame of the 10 line document. *)
Lemma sliderMouseMove_monotone_witness :
  let drag :=
    {| initialMousePosition := of_Z 300;
       initialMouseOrthogonalPosition := of_Z 1200;
       initialSliderState :=
         MinimapLayout.create sample_cells short_document
           (Fin 6) (Fin 35) (Fin 600) false (Fin 1000) (of_Z 0) (Fin 100) (Fin 20580) |} in
  (sliderMouseMove true drag {| posx := of_Z 1100; posy := of_Z 310 |}
   <=? sliderMouseMove true drag {| posx := of_Z 1250; posy := of_Z 350 |})%num = true
  /\ (sliderMouseMove false drag {| posx := of_Z 1100; posy := of_Z 310 |}
      <=? sliderMouseMove false drag {| posx := of_Z 2000; posy := of_Z 350 |})%num
     = true.
Proof.
  split.
  - apply (sliderMouseMove_monotone true _ _ _ (100 * (480 / 19980)) (480 / 19980)
             (inject_Z 300) (inject_Z 310) (inject_Z 350));
      try reflexivity; try (right; reflexivity); vm_compute; congruence.
  - apply (sliderMouseMove_monotone false _ _ _ (100 * (480 / 19980)) (480 / 19980)
             (inject_Z 300) (inject_Z 310) (inject_Z 350));
      try reflexivity; try (left; reflexivity); vm_compute; congruence.
Defined.

(** The 10 line document, which does not scroll. *)
Lemma sliderMouseMove_no_scroll_range_witness :
  let L := MinimapLayout.create sample_cells short_document
             (of_Z 1) (of_Z 10) (of_Z 600) false (of_Z 10) (of_Z 0) (of_Z 0) (of_Z 600) in
  let drag :=
    {| initialMousePosition := of_Z 300;
       initialMouseOrthogonalPosition := of_Z 1200;
       initialSliderState := L |} in
  (forall delta, MinimapLayout.getDesiredScrollTopFromDelta L delta = NaN)
  /\ sliderMouseMove true drag {| posx := of_Z 1100; posy := of_Z 310 |} = NaN
  /\ sliderMouseMove false drag {| posx := of_Z 2000; posy := of_Z 310 |} = NaN.
Proof.
  intros L drag.
  destruct (sliderMouseMove_no_scroll_range sample_cells short_document
              (of_Z 1) (of_Z 10) (of_Z 600) false (of_Z 10) (of_Z 0) (of_Z 0) (of_Z 600)
              true drag {| posx := of_Z 1100; posy := of_Z 310 |}
              eq_refl eq_refl eq_refl (or_intror eq_refl)) as [Hall Hnear].
  destruct (sliderMouseMove_no_scroll_range sample_cells short_document
              (of_Z 1) (of_Z 10) (of_Z 600) false (of_Z 10) (of_Z 0) (of_Z 0) (of_Z 600)
              false drag {| posx := of_Z 2000; posy := of_Z 310 |}
              eq_refl eq_refl eq_refl (or_introl eq_refl)) as [_ Hfar].
  exact (conj Hall (conj Hnear Hfar)).
Defined.

(** The 1000 line document scrolled by 10000 pixels: the lines 440 to 589. *)
Lemma create_range_not_inverted_witness :
  let L := MinimapLayout.create sample_cells short_document
             (of_Z 501) (of_Z 530) (of_Z 600) false (of_Z 1000) (of_Z 0)
             (of_Z 10000) (of_Z 20580) in
  integer (MinimapLayout.startLineNumber L) = Ok 440%Z
  /\ integer (MinimapLayout.endLineNumber L) = Ok 589%Z
  /\ exists s e : Z,
       integer (MinimapLayout.startLineNumber L) = Ok s
       /\ integer (MinimapLayout.endLineNumber L) = Ok e
       /\ (1 <= s <= 501)%Z /\ (s <= e <= 1000)%Z.
Proof.
  split; [reflexivity|]. split; [reflexivity|].
  apply (create_range_not_inverted sample_cells short_document
           (of_Z 530) (of_Z 600) false (of_Z 0) (of_Z 10000) (of_Z 20580)
           1 600 (10000 * (480 / 19980)) 501 1000);
    try reflexivity; try (unfold positive_cells; simpl; lia);
    try lia; vm_compute; congruence.
Defined.

(** The 10 line document fits in the canvas of 600 device pixels, 4 a row. *)
Lemma create_full_fit_iff_witness :
  let L := MinimapLayout.create sample_cells short_document
             (of_Z 1) (of_Z 10) (of_Z 600) false (of_Z 10) (of_Z 0) (of_Z 0) (of_Z 600) in
  integer (MinimapLayout.startLineNumber L) = Ok 1%Z
  /\ integer (MinimapLayout.endLineNumber L) = Ok 10%Z
  /\ ((1 = 1 /\ 10 = 10)%Z <-> (inject_Z (10 * 4) <= 600)%Q).
Proof.
  split; [reflexivity|]. split; [reflexivity|].
  apply (create_full_fit_iff sample_cells short_document
           (of_Z 1) (of_Z 10) (of_Z 600) false (of_Z 0) (of_Z 0) (of_Z 600)
           600 10 1 10);
    try reflexivity; unfold positive_cells; simpl; lia.
Defined.

(** ** The options *)

Lemma floor_integer (q : Q) : integer (floor (Fin q)) = Ok (Qfloor q).
Proof. apply integer_of_Z. Qed.

Lemma strict_eqb_sym (x y : number) : (x === y)%num = (y === x)%num.
Proof.
  destruct x as [a| | |], y as [b| | |]; simpl; try reflexivity.
  apply eq_true_iff_eq. rewrite !Qeq_bool_iff. split; intros H; symmetry; exact H.
Qed.

Lemma strict_eqb_refl (x : number) : (x === x)%num = true <-> x <> NaN.
Proof.
  destruct x as [a| | |]; simpl; split; try congruence; try discriminate.
  intros _. apply Qeq_bool_iff. reflexivity.
Qed.

Lemma ShowSlider_eqb_sym (x y : ShowSlider) : ShowSlider_eqb x y = ShowSlider_eqb y x.
Proof. destruct x, y; reflexivity. Qed.

(** X10.  [equals] is symmetric; and options equal themselves exactly when none
    of their numbers is [NaN]. *)
Theorem equals_symmetric_reflexive (this other : MinimapOptions) :
  equals this other = equals other this
  /\ (equals this this = true <->
      Forall (fun x => x <> NaN)
        [pixelRatio this; lineHeight this; minimapWidth this; minimapHeight this;
         canvasInnerWidth this; canvasInnerHeight this;
         canvasOuterWidth this; canvasOuterHeight this]).
Proof.
  split.
  - unfold equals. rewrite (Z.eqb_sym (RenderMinimap_value (renderMinimap this))).
    rewrite (ShowSlider_eqb_sym (showSlider this)).
    rewrite (strict_eqb_sym (pixelRatio this)), (strict_eqb_sym (lineHeight this)),
      (strict_eqb_sym (minimapWidth this)), (strict_eqb_sym (minimapHeight this)),
      (strict_eqb_sym (canvasInnerWidth this)), (strict_eqb_sym (canvasInnerHeight this)),
      (strict_eqb_sym (canvasOuterWidth this)), (strict_eqb_sym (canvasOuterHeight this)).
    reflexivity.
  - unfold equals. rewrite Z.eqb_refl.
    replace (ShowSlider_eqb (showSlider this) (showSlider this)) with true
      by (destruct (showSlider this); reflexivity).
    rewrite !andb_true_iff, !strict_eqb_refl, !Forall_cons, Forall_nil. tauto.
Qed.

Lemma equals_refl (this : MinimapOptions) :
  Forall (fun x => x <> NaN)
    [pixelRatio this; lineHeight this; minimapWidth this; minimapHeight this;
     canvasInnerWidth this; canvasInnerHeight this;
     canvasOuterWidth this; canvasOuterHeight this] ->
  equals this this = true.
Proof.
  unfold equals. rewrite Z.eqb_refl.
  replace (ShowSlider_eqb (showSlider this) (showSlider this)) with true
    by (destruct (showSlider this); reflexivity).
  rewrite !andb_true_iff, !strict_eqb_refl, !Forall_cons, Forall_nil. tauto.
Qed.

Lemma strict_eqb_NaN (x : number) : (x === NaN)%num = false.
Proof. destruct x; reflexivity. Qed.

(** X11.  A configuration event that finds the configuration the options were
    built from, with finite numbers and a non-zero pixel ratio, asks for no
    rendering and leaves the view part as it is: its saved frame and its
    buffers are kept. *)
Theorem onConfigurationChanged_same_configuration (configuration : IConfiguration)
    (this : Minimap) (pr lh w h : Q) :
  cfg_pixelRatio configuration = Fin pr -> ~ (pr == 0)%Q ->
  cfg_lineHeight configuration = Fin lh ->
  cfg_minimapWidth configuration = Fin w ->
  cfg_height configuration = Fin h ->
  _options this = new_MinimapOptions configuration ->
  onConfigurationChanged configuration this = (false, this).
Proof.
  intros Hpr Hpr0 Hlh Hw Hh Hsame.
  unfold onConfigurationChanged, _onOptionsMaybeChanged. rewrite Hsame.
  rewrite equals_refl; [reflexivity|].
  unfold new_MinimapOptions.
  cbn [pixelRatio lineHeight minimapWidth minimapHeight canvasInnerWidth
       canvasInnerHeight canvasOuterWidth canvasOuterHeight].
  rewrite Hpr, Hlh, Hw, Hh. cbn [mul floor]. unfold of_Z. rewrite !div_Fin by exact Hpr0.
  repeat constructor; discriminate.
Qed.

(** X12.  With a pixel ratio of zero the CSS width of the canvas is [0 / 0], and
    options that hold a [NaN] equal no options, themselves included: every
    configuration event then replaces the options and drops the saved frame
    and the buffers, whatever the state. *)
Theorem onConfigurationChanged_zero_pixel_ratio (configuration : IConfiguration)
    (this : Minimap) (pr w : Q) :
  cfg_pixelRatio configuration = Fin pr -> (pr == 0)%Q ->
  cfg_minimapWidth configuration = Fin w ->
  canvasOuterWidth (new_MinimapOptions configuration) = NaN
  /\ onConfigurationChanged configuration this
     = (true, {| _options := new_MinimapOptions configuration;
                 _lastRenderData := None;
                 _buffers_ := None |}).
Proof.
  intros Hpr Hpr0 Hw.
  assert (Hnan : canvasOuterWidth (new_MinimapOptions configuration) = NaN).
  { unfold new_MinimapOptions. cbn [canvasOuterWidth]. rewrite Hpr, Hw.
    cbn [mul floor]. unfold of_Z. cbn [div]. rewrite (Qcompare_zero pr Hpr0).
    assert (Hfloor : Qfloor (pr * w) = 0%Z).
    { assert (E : (pr * w == inject_Z 0)%Q) by (rewrite Hpr0; ring).
      rewrite E. apply Qfloor_Z. }
    rewrite Hfloor. reflexivity. }
  split; [exact Hnan|].
  unfold onConfigurationChanged, _onOptionsMaybeChanged, equals.
  rewrite Hnan, strict_eqb_NaN, andb_false_r, andb_false_l. reflexivity.
Qed.

(** ** The two buffers *)

Local Open Scope Z_scope.

Lemma fill_pixels_lookup (n : nat) (background : RGBA) (p : nat) :
  (p < n)%nat ->
  fill_pixels n background !! (4 * p)%nat = Some (r background)
  /\ fill_pixels n background !! (4 * p + 1)%nat = Some (g background)
  /\ fill_pixels n background !! (4 * p + 2)%nat = Some (b background)
  /\ fill_pixels n background !! (4 * p + 3)%nat = Some Byte.xff.
Proof.
  revert p. induction n as [|n IH]; intros p Hp; [lia|].
  destruct p as [|p].
  - simpl. repeat split; reflexivity.
  - specialize (IH p ltac:(lia)).
    replace (4 * S p)%nat with (S (S (S (S (4 * p))))) by lia.
    simpl. exact IH.
Qed.

Lemma set_whole (target source : Uint8ClampedArray) :
  length source = length target -> set target source 0 = Ok source.
Proof.
  intros Hlen. unfold set.
  destruct (Z.leb_spec (0 + Z.of_nat (length source)) (Z.of_nat (length target))); [|lia].
  simpl. unfold Uint8ClampedArray in *.
  rewrite drop_ge by lia. rewrite app_nil_r. reflexivity.
Qed.

(** X13.  [getBuffer] always gives a buffer that is filled with the background
    colour.  For buffers of [WIDTH] by [HEIGHT] pixels whose fill data was
    made for the colour [background], whatever was drawn before: the call
    completes, hands out the buffer that was not handed out last, and every
    pixel of it has the red, green and blue of the background and the alpha
    255; the other buffer is left as it was. *)
Theorem getBuffer_background (this : MinimapBuffers) (WIDTH HEIGHT : Z)
    (background : RGBA) :
  0 <= WIDTH -> 0 <= HEIGHT ->
  well_sized this WIDTH HEIGHT ->
  _backgroundFillData this = _createBackgroundFillData WIDTH HEIGHT background ->
  exists (this' : MinimapBuffers) (i : Slot),
    getBuffer this = Ok (this', i)
    /\ i = other (_lastUsedBuffer this)
    /\ _lastUsedBuffer this' = i
    /\ _backgroundFillData this' = _backgroundFillData this
    /\ deref (_buffers this') (other i) = deref (_buffers this) (other i)
    /\ width (deref (_buffers this') i) = WIDTH
    /\ Z.of_nat (length (data (deref (_buffers this') i))) = WIDTH * HEIGHT * 4
    /\ forall p : Z, 0 <= p < WIDTH * HEIGHT ->
         let pixels := data (deref (_buffers this') i) in
         byte_at pixels (4 * p) = Some (r background)
         /\ byte_at pixels (4 * p + 1) = Some (g background)
         /\ byte_at pixels (4 * p + 2) = Some (b background)
         /\ byte_at pixels (4 * p + 3) = Some Byte.xff.
Proof.
  intros HW HH [Hfill Hsize] Hdata. unfold getBuffer.
  set (i := other (_lastUsedBuffer this)).
  destruct (Hsize i) as [Hw Hlen].
  rewrite set_whole by lia. cbn [bind].
  eexists. eexists. split; [reflexivity|].
  cbn [_lastUsedBuffer _backgroundFillData _buffers].
  split; [reflexivity|]. split; [reflexivity|]. split; [reflexivity|].
  split; [apply deref_assign_other; destruct i; discriminate|].
  rewrite deref_assign_same. cbn [with_data width data].
  split; [exact Hw|]. split; [exact Hfill|].
  intros p Hp. cbv zeta. rewrite Hdata.
  unfold _createBackgroundFillData, byte_at.
  destruct (fill_pixels_lookup (Z.to_nat HEIGHT * Z.to_nat WIDTH) background (Z.to_nat p))
    as (H0 & H1 & H2 & H3); [nia|].
  destruct (Z.ltb_spec (4 * p) 0); [lia|].
  destruct (Z.ltb_spec (4 * p + 1) 0); [lia|].
  destruct (Z.ltb_spec (4 * p + 2) 0); [lia|].
  destruct (Z.ltb_spec (4 * p + 3) 0); [lia|].
  replace (Z.to_nat (4 * p)) with (4 * Z.to_nat p)%nat by lia.
  replace (Z.to_nat (4 * p + 1)) with (4 * Z.to_nat p + 1)%nat by lia.
  replace (Z.to_nat (4 * p + 2)) with (4 * Z.to_nat p + 2)%nat by lia.
  replace (Z.to_nat (4 * p + 3)) with (4 * Z.to_nat p + 3)%nat by lia.
  repeat split; assumption.
Qed.

Lemma onConfigurationChanged_same_configuration_witness :
  onConfigurationChanged narrow_configuration after_first_frame
  = (false, after_first_frame).
Proof.
  apply (onConfigurationChanged_same_configuration narrow_configuration
           after_first_frame 1 4 3 8);
    try reflexivity.
  intros H. vm_compute in H. discriminate.
Defined.

Lemma onConfigurationChanged_zero_pixel_ratio_witness :
  let this := fresh (new_MinimapOptions flat_configuration) in
  canvasOuterWidth (new_MinimapOptions flat_configuration) = NaN
  /\ onConfigurationChanged flat_configuration this
     = (true, {| _options := new_MinimapOptions flat_configuration;
                 _lastRenderData := None;
                 _buffers_ := None |}).
Proof.
  apply (onConfigurationChanged_zero_pixel_ratio flat_configuration
           (fresh (new_MinimapOptions flat_configuration)) 0 100);
    reflexivity.
Defined.

(** The buffers of the narrow minimap as the first frame left them: the
    other buffer is handed out, black. *)
Lemma getBuffer_background_witness :
  exists (this' : MinimapBuffers) (i : Slot),
    getBuffer (fst second_frame_buffers) = Ok (this', i)
    /\ i = slot1
    /\ forall p : Z, 0 <= p < 3 * 8 ->
         let pixels := data (deref (_buffers this') i) in
         byte_at pixels (4 * p) = Some Byte.x00
         /\ byte_at pixels (4 * p + 1) = Some Byte.x00
         /\ byte_at pixels (4 * p + 2) = Some Byte.x00
         /\ byte_at pixels (4 * p + 3) = Some Byte.xff.
Proof.
  destruct (getBuffer_background (fst second_frame_buffers) 3 8 black)
    as (this' & i & Hget & Hi & _ & _ & _ & _ & _ & Hpixels).
  - lia.
  - lia.
  - split; [reflexivity|]. intros i. destruct i; split; reflexivity.
  - reflexivity.
  - exists this', i. split; [exact Hget|]. split; [exact Hi|]. exact Hpixels.
Defined.

(** ** The calls of the line rasterizer *)

Section RenderLineLoops.

Variable K : Constants.
Variable target_width : Z.
Variable backgroundColor : RGBA.
Variable useLighterFont : bool.
Variable renderMinimap : RenderMinimap.
Variable line_dy_ : Z.
Variable tabSize : Z.
Variable content_ : list Z.

Local Notation "'charWidth'" := (getMinimapCharWidth K renderMinimap).
Local Notation "'render_char_'" :=
  (render_char K target_width backgroundColor useLighterFont renderMinimap
     line_dy_ tabSize content_).
Local Notation "'render_chars_'" :=
  (render_chars K target_width backgroundColor useLighterFont renderMinimap
     line_dy_ tabSize content_).
Local Notation "'render_tokens_'" :=
  (render_tokens K target_width backgroundColor useLighterFont renderMinimap
     line_dy_ tabSize content_).
Local Notation "'draw_char_'" :=
  (draw_char backgroundColor useLighterFont renderMinimap line_dy_).

(** A property of the cursor that every iteration of the inner loop keeps
    is kept by the two loops. *)
Lemma render_tokens_invariant (P : LineCursor -> Prop) (getColor : ColorId -> RGBA)
    (tokens : list ViewLineToken) (c : LineCursor) :
  (forall token c, token ∈ tokens -> P c ->
     P (cursor_of (render_char_ (getColor (getForeground token)) c))) ->
  P c -> P (cursor_of (render_tokens_ getColor tokens c)).
Proof.
  revert c. induction tokens as [|token rest IH]; intros c Hstep Hc; simpl; [exact Hc|].
  assert (Hchars : forall n c0, P c0 ->
            P (cursor_of (render_chars_ (getColor (getForeground token)) n c0))).
  { induction n as [|n IHn]; intros c0 Hc0; simpl; [exact Hc0|].
    pose proof (Hstep token c0 ltac:(left) Hc0) as H1.
    destruct (render_char_ _ c0) as [c1 | c1]; simpl in H1.
    - apply IHn, H1.
    - exact H1. }
  specialize (Hchars (Z.to_nat (endIndex token - charIndex c)) c Hc).
  destruct (render_chars_ _ _ c) as [c' | c']; simpl in Hchars.
  - apply IH; [|exact Hchars]. intros token' c0 Hin. apply Hstep. right. exact Hin.
  - exact Hchars.
Qed.

(** What one iteration does, as a case distinction. *)
Lemma render_char_cases (tokenColor : RGBA) (c : LineCursor) :
  let charCode := charCodeAt content_ (charIndex c) in
  (target_width - charWidth < dx c /\ render_char_ tokenColor c = Returned c)
  \/ (dx c <= target_width - charWidth /\ charCode = Some CharCode.Tab
      /\ render_char_ tokenColor c =
         Running {| dx := dx c + (tabSize - Z.rem (column c) tabSize) * charWidth;
                    charIndex := charIndex c + 1;
                    tabsCharDelta :=
                      tabsCharDelta c + (tabSize - Z.rem (column c) tabSize - 1);
                    calls := calls c |})
  \/ (dx c <= target_width - charWidth /\ charCode = Some CharCode.Space
      /\ render_char_ tokenColor c =
         Running {| dx := dx c + charWidth;
                    charIndex := charIndex c + 1;
                    tabsCharDelta := tabsCharDelta c;
                    calls := calls c |})
  \/ (dx c <= target_width - charWidth
      /\ charCode <> Some CharCode.Tab /\ charCode <> Some CharCode.Space
      /\ render_char_ tokenColor c =
         Running {| dx := dx c + charWidth;
                    charIndex := charIndex c + 1;
                    tabsCharDelta := tabsCharDelta c;
                    calls := calls c ++ [draw_char_ (dx c) charCode tokenColor] |}).
Proof.
  intros charCode.
  destruct (Z_lt_dec (target_width - charWidth) (dx c)) as [Hedge | Hroom].
  { left. split; [exact Hedge|]. unfold render_char.
    destruct (Z.gtb_spec (dx c) (target_width - charWidth)); [reflexivity | lia]. }
  right.
  destruct (decide (charCode = Some CharCode.Tab)) as [Htab | Htab].
  { left. split; [lia|]. split; [exact Htab|]. apply render_char_tab; [lia | exact Htab]. }
  right.
  destruct (decide (charCode = Some CharCode.Space)) as [Hspace | Hspace].
  { left. split; [lia|]. split; [exact Hspace|].
    apply render_char_space; [lia | exact Hspace]. }
  right. split; [lia|]. split; [exact Htab|]. split; [exact Hspace|].
  apply render_char_visible; [lia | exact Htab | exact Hspace].
Qed.

End RenderLineLoops.

Lemma draw_char_arguments (backgroundColor : RGBA) (useLighterFont : bool)
    (renderMinimap : RenderMinimap) (dy x : Z) (charCode : option Z) (tokenColor : RGBA) :
  let call := draw_char backgroundColor useLighterFont renderMinimap dy x charCode tokenColor in
  call_dx call = x /\ call_dy call = dy
  /\ call_color call = tokenColor
  /\ call_backgroundColor call = backgroundColor
  /\ call_useLighterFont call = useLighterFont
  /\ call_method call = match renderMinimap with None_ => SmallBlocks | m => m end
  /\ (call_chCode call = Some charCode \/ call_chCode call = None).
Proof.
  unfold draw_char. destruct renderMinimap; simpl; repeat split; auto.
Qed.

(** X14.  Every call [_renderLine] makes on the character renderer is a call of
    the method of the zoom category (the small blocks' when the category is
    none of the four), at the vertical offset of the line, with the
    background colour and the font flag it was given and the colour of one
    of the line's tokens; and no call is asked to draw a tab or a space. *)
Theorem _renderLine_call_arguments (K : Constants) (target_width : Z)
    (backgroundColor : RGBA) (useLighterFont : bool) (renderMinimap : RenderMinimap)
    (getColor : ColorId -> RGBA) (dy tabSize : Z) (lineData : ViewLineData) :
  Forall (fun call =>
            call_method call = match renderMinimap with None_ => SmallBlocks | m => m end
            /\ call_dy call = dy
            /\ call_backgroundColor call = backgroundColor
            /\ call_useLighterFont call = useLighterFont
            /\ (exists token, token ∈ tokens lineData
                              /\ call_color call = getColor (getForeground token))
            /\ call_chCode call <> Some (Some CharCode.Tab)
            /\ call_chCode call <> Some (Some CharCode.Space))
    (_renderLine K target_width backgroundColor useLighterFont renderMinimap
       getColor dy tabSize lineData).
Proof.
  unfold _renderLine.
  apply (render_tokens_invariant K target_width backgroundColor useLighterFont
           renderMinimap dy tabSize (content lineData)
           (fun c => Forall _ (calls c))); [|constructor].
  intros token c Hin Hc.
  destruct (render_char_cases K target_width backgroundColor useLighterFont
              renderMinimap dy tabSize (content lineData)
              (getColor (getForeground token)) c)
    as [[_ ->] | [(_ & _ & ->) | [(_ & _ & ->) | (_ & Htab & Hspace & ->)]]];
    simpl; try exact Hc.
  apply Forall_app. split; [exact Hc|]. constructor; [|constructor].
  destruct (draw_char_arguments backgroundColor useLighterFont renderMinimap dy
              (dx c) (charCodeAt (content lineData) (charIndex c))
              (getColor (getForeground token)))
    as (_ & Hdy & Hcolor & Hbg & Hfont & Hmethod & Hcode).
  split; [exact Hmethod|]. split; [exact Hdy|]. split; [exact Hbg|].
  split; [exact Hfont|]. split; [exists token; split; [exact Hin | exact Hcolor]|].
  destruct Hcode as [-> | ->]; split; congruence.
Qed.

Lemma tab_advance (tabSize col : Z) :
  0 < tabSize -> 1 <= tabSize - Z.rem col tabSize.
Proof.
  intros Ht. pose proof (Z.rem_bound_abs col tabSize ltac:(lia)). lia.
Qed.

(** X15.  The glyph cells of a line do not overlap: each call is at least a cell
    width to the right of the call before it, and none is left of the
    target's left edge. *)
Theorem _renderLine_cells_disjoint (K : Constants) (target_width : Z)
    (backgroundColor : RGBA) (useLighterFont : bool) (renderMinimap : RenderMinimap)
    (getColor : ColorId -> RGBA) (dy tabSize : Z) (lineData : ViewLineData) :
  positive_cells K ->
  0 < tabSize ->
  let charWidth := getMinimapCharWidth K renderMinimap in
  let calls := _renderLine K target_width backgroundColor useLighterFont renderMinimap
                 getColor dy tabSize lineData in
  forall (i j : nat) (a b : DrawCall),
    (i < j)%nat -> calls !! i = Some a -> calls !! j = Some b ->
    0 <= call_dx a /\ call_dx a + charWidth <= call_dx b.
Proof.
  intros HK Htab charWidth calls_.
  pose proof (charWidth_positive K renderMinimap HK) as Hcw. fold charWidth in Hcw.
  set (P := fun c : LineCursor =>
              0 <= dx c
              /\ Forall (fun call => 0 <= call_dx call
                                     /\ call_dx call + charWidth <= dx c) (calls c)
              /\ forall (i j : nat) (a b : DrawCall),
                   (i < j)%nat -> calls c !! i = Some a -> calls c !! j = Some b ->
                   call_dx a + charWidth <= call_dx b).
  assert (HP : P (cursor_of
                    (render_tokens K target_width backgroundColor useLighterFont
                       renderMinimap dy tabSize (content lineData) getColor
                       (tokens lineData)
                       {| dx := 0; charIndex := 0; tabsCharDelta := 0; calls := [] |}))).
  { apply render_tokens_invariant.
    - intros token c _ (Hdx & Hall & Hsorted).
      destruct (render_char_cases K target_width backgroundColor useLighterFont
                  renderMinimap dy tabSize (content lineData)
                  (getColor (getForeground token)) c)
        as [[_ ->] | [(_ & _ & ->) | [(_ & _ & ->) | (_ & _ & _ & ->)]]];
        unfold P; simpl.
      + split; [exact Hdx|]. split; assumption.
      + pose proof (tab_advance tabSize (column c) Htab) as Hadv.
        fold charWidth.
        assert (Hstep : dx c <= dx c + (tabSize - Z.rem (column c) tabSize) * charWidth)
          by nia.
        split; [lia|]. split; [|exact Hsorted].
        eapply Forall_impl; [exact Hall|]. simpl. intros call [? ?]. split; lia.
      + fold charWidth. split; [lia|]. split; [|exact Hsorted].
        eapply Forall_impl; [exact Hall|]. simpl. intros call [? ?]. split; lia.
      + fold charWidth. split; [lia|]. split.
        * apply Forall_app. split.
          -- eapply Forall_impl; [exact Hall|]. simpl. intros call [? ?]. split; lia.
          -- constructor; [|constructor].
             destruct (draw_char_arguments backgroundColor useLighterFont renderMinimap dy
                         (dx c) (charCodeAt (content lineData) (charIndex c))
                         (getColor (getForeground token))) as (-> & _). lia.
        * intros i j a b Hij Ha Hb.
          pose proof (lookup_lt_Some _ _ _ Hb) as Hlen.
          rewrite length_app in Hlen. simpl in Hlen.
          rewrite lookup_app_l in Ha by lia.
          destruct (decide (j < length (calls c))%nat) as [Hj | Hj].
          -- rewrite lookup_app_l in Hb by lia. exact (Hsorted i j a b Hij Ha Hb).
          -- rewrite lookup_app_r in Hb by lia.
             replace (j - length (calls c))%nat with 0%nat in Hb by lia.
             injection Hb as <-.
             destruct (draw_char_arguments backgroundColor useLighterFont renderMinimap dy
                         (dx c) (charCodeAt (content lineData) (charIndex c))
                         (getColor (getForeground token))) as (-> & _).
             rewrite Forall_forall in Hall.
             destruct (Hall a (list_elem_of_lookup_2 _ _ _ Ha)). lia.
    - unfold P. simpl. split; [lia|]. split; [constructor|].
      intros i j a b _ Ha. rewrite lookup_nil in Ha. discriminate. }
  destruct HP as (_ & Hall & Hsorted).
  intros i j a b Hij Ha Hb. split.
  - rewrite Forall_forall in Hall.
    destruct (Hall a (list_elem_of_lookup_2 _ _ _ Ha)). lia.
  - exact (Hsorted i j a b Hij Ha Hb).
Qed.

Lemma next_tab_stop (tabSize col : Z) :
  0 < tabSize -> 0 <= col ->
  col + (tabSize - Z.rem col tabSize) = tabSize * (col / tabSize + 1).
Proof.
  intros Ht Hc. rewrite Z.rem_mod_nonneg by lia.
  pose proof (Z.div_mod col tabSize ltac:(lia)). lia.
Qed.

(** X16.  Glyph cells sit on the grid of visual columns, and tabs move to tab
    stops.  Every call of a line is at a horizontal position that is a
    whole number of cell widths; and a tab met at the visual column [col]
    moves the cursor to the next multiple of the tab size after [col],
    [tabSize * (col / tabSize + 1)], without a call. *)
Theorem _renderLine_tab_stops (K : Constants) (target_width : Z)
    (backgroundColor : RGBA) (useLighterFont : bool) (renderMinimap : RenderMinimap)
    (getColor : ColorId -> RGBA) (dy tabSize : Z) (lineData : ViewLineData) :
  0 < tabSize ->
  let charWidth := getMinimapCharWidth K renderMinimap in
  Forall (fun call => exists col, 0 <= col /\ call_dx call = col * charWidth)
    (_renderLine K target_width backgroundColor useLighterFont renderMinimap
       getColor dy tabSize lineData)
  /\ forall (tokenColor : RGBA) (c : LineCursor),
       0 <= column c ->
       dx c = column c * charWidth ->
       dx c <= target_width - charWidth ->
       charCodeAt (content lineData) (charIndex c) = Some CharCode.Tab ->
       exists c',
         render_char K target_width backgroundColor useLighterFont renderMinimap
           dy tabSize (content lineData) tokenColor c = Running c'
         /\ column c' = tabSize * (column c / tabSize + 1)
         /\ dx c' = column c' * charWidth
         /\ calls c' = calls c.
Proof.
  intros Htab charWidth. split.
  - set (P := fun c : LineCursor =>
                0 <= column c /\ dx c = column c * charWidth
                /\ Forall (fun call => exists col, 0 <= col /\ call_dx call = col * charWidth)
                     (calls c)).
    assert (HP : P (cursor_of
                      (render_tokens K target_width backgroundColor useLighterFont
                         renderMinimap dy tabSize (content lineData) getColor
                         (tokens lineData)
                         {| dx := 0; charIndex := 0; tabsCharDelta := 0; calls := [] |}))).
    { apply render_tokens_invariant.
      - intros token c _ (Hcol & Hdx & Hall).
        destruct (render_char_cases K target_width backgroundColor useLighterFont
                    renderMinimap dy tabSize (content lineData)
                    (getColor (getForeground token)) c)
          as [[_ ->] | [(_ & _ & ->) | [(_ & _ & ->) | (_ & _ & _ & ->)]]];
          unfold P, column in *; simpl; fold charWidth.
        + split; [exact Hcol|]. split; assumption.
        + pose proof (tab_advance tabSize (charIndex c + tabsCharDelta c) Htab).
          split; [lia|]. split; [lia|]. exact Hall.
        + split; [lia|]. split; [lia|]. exact Hall.
        + split; [lia|]. split; [lia|].
          apply Forall_app. split; [exact Hall|]. constructor; [|constructor].
          destruct (draw_char_arguments backgroundColor useLighterFont renderMinimap dy
                      (dx c) (charCodeAt (content lineData) (charIndex c))
                      (getColor (getForeground token))) as (-> & _).
          exists (charIndex c + tabsCharDelta c). split; [exact Hcol | exact Hdx].
      - unfold P, column. simpl. split; [lia|]. split; [lia|]. constructor. }
    apply HP.
  - intros tokenColor c Hcol Hdx Hroom Hchar.
    eexists. split; [apply render_char_tab; [exact Hroom | exact Hchar]|].
    unfold column in *. simpl. fold charWidth.
    pose proof (next_tab_stop tabSize (charIndex c + tabsCharDelta c) Htab Hcol) as Hstop.
    split; [lia|]. split; [|reflexivity]. rewrite Hdx. lia.
Qed.

(** ** The rows the reuse engine leaves alone *)

Section Skip.

Variable bufs : Buffers.
Variables target last : Slot.
Variable WIDTH : Z.
Variables startLineNumber minimapLineHeight lastStartLineNumber : Z.
Variable lastLines : list MinimapLine.
Variable count : Z.

Hypothesis distinct : target <> last.
Hypothesis pitch_pos : 0 < minimapLineHeight.
Hypothesis width_nonneg : 0 <= WIDTH.
Hypothesis rows_within :
  count * minimapLineHeight * WIDTH * 4 <= Z.of_nat (length (data (deref bufs target))).

Local Notation "'inv'" :=
  (reuse_inv bufs target last WIDTH startLineNumber minimapLineHeight
     lastStartLineNumber lastLines).
Local Notation "'skip'" :=
  (skip_inv bufs target WIDTH startLineNumber minimapLineHeight
     lastStartLineNumber lastLines).
Local Notation "'step'" :=
  (untouched_line target last WIDTH startLineNumber minimapLineHeight
     lastStartLineNumber lastLines).
Local Notation "'valid' k" :=
  (line_dy lastLines (startLineNumber + k - lastStartLineNumber) <> -1)
  (at level 10, k at level 9).

(** Flushing the pending request changes bytes in rows of lines with a
    valid record only. *)
Lemma flush_if_pending_skip (i : Z) (s : Untouched) (bufs' : Buffers) :
  0 <= i <= count -> inv i s -> skip i s ->
  (if negb (copySourceStart s =? -1)
   then flush (store s) target last (copySourceStart s)
          (copySourceEnd s) (copyDestStart s)
   else Ok (store s)) = Ok bufs' ->
  forall x,
    (forall k, 0 <= k < i -> valid k -> ~ in_row minimapLineHeight WIDTH k x) ->
    byte_at (data (deref bufs' target)) x = byte_at (data (deref bufs target)) x.
Proof using All.
  intros Hi Hinv [_ Hbytes Hpending] Hflush x Hx.
  destruct (Z.eqb_spec (copySourceStart s) (-1)) as [Hnone | Hsome];
    cbn [negb] in Hflush.
  { injection Hflush as <-. apply Hbytes, Hx. }
  destruct Hinv as [_ _ Hlast Hsize Hpend _].
  destruct Hpend as [[? _] | (Hcs & Hce & Hcd & Hlen & Hcde)]; [contradiction|].
  pose proof (offset_mono WIDTH (i * minimapLineHeight) (count * minimapLineHeight)
                width_nonneg ltac:(nia)) as Hic.
  destruct (flush_spec (store s) target last (copySourceStart s) (copySourceEnd s)
              (copyDestStart s) distinct Hcs) as (b & Hb & _ & _ & Hwritten).
  { rewrite Hlast. exact Hce. }
  { exact Hcd. }
  { rewrite Hsize. lia. }
  rewrite Hb in Hflush. injection Hflush as <-.
  rewrite Hwritten.
  destruct (Z.leb_spec (copyDestStart s) x); simpl; [|apply Hbytes, Hx].
  destruct (Z.ltb_spec x (copyDestStart s + (copySourceEnd s - copySourceStart s)));
    [|apply Hbytes, Hx].
  destruct (Hpending Hsome x ltac:(lia)) as (k & Hk & Hvalid & Hrow).
  exfalso. exact (Hx k Hk Hvalid Hrow).
Qed.

Lemma untouched_line_skip (i : Z) (s s' : Untouched) :
  0 <= i < count -> inv i s -> skip i s ->
  step (startLineNumber + i) s = Ok s' -> skip (i + 1) s'.
Proof using All.
  intros Hi Hinv Hskip Hstep.
  pose proof Hinv as [Hdy Hn _ _ _ _].
  pose proof Hskip as [Hneeded Hbytes Hpending].
  unfold untouched_line in Hstep.
  replace (startLineNumber + i - startLineNumber) with i in Hstep by lia.
  set (d := line_dy lastLines (startLineNumber + i - lastStartLineNumber)) in *.
  assert (Hpush : forall v, array_store false (needed s) i v = needed s ++ [v])
    by (intros v; apply array_store_push; exact Hn).
  assert (Hold : forall v k, 0 <= k < i ->
            needed s !! Z.to_nat k = Some true ->
            (needed s ++ [v]) !! Z.to_nat k = Some true).
  { intros v k Hk Hlook. rewrite lookup_app_l by lia. exact Hlook. }
  assert (Hnew : forall v, (needed s ++ [v]) !! Z.to_nat i = Some v).
  { intros v. rewrite lookup_app_r by lia.
    replace (Z.to_nat i - length (needed s))%nat with 0%nat by lia. reflexivity. }
  assert (Hwiden : forall x,
            (forall k, 0 <= k < i + 1 -> valid k -> ~ in_row minimapLineHeight WIDTH k x) ->
            forall k, 0 <= k < i -> valid k -> ~ in_row minimapLineHeight WIDTH k x).
  { intros x Hx k Hk. apply Hx. lia. }
  rewrite !Hpush in Hstep.
  destruct (Z.eqb_spec d (-1)) as [Hinvalid | Hvalid].
  - (* nothing to reuse *)
    injection Hstep as <-. constructor; simpl.
    + intros k Hk Hd. destruct (Z.eq_dec k i) as [-> | Hki]; [apply Hnew|].
      apply Hold; [lia|]. apply Hneeded; [lia | exact Hd].
    + intros x Hx. apply Hbytes, Hwiden, Hx.
    + intros Hsome x Hx. destruct (Hpending Hsome x Hx) as (k & Hk & Hv & Hrow).
      exists k. split; [lia|]. split; assumption.
  - rewrite Hdy in Hstep.
    destruct ((copySourceEnd s =? d * WIDTH * 4)
              && (copyDestEnd s =? i * minimapLineHeight * WIDTH * 4)) eqn:Hcontig.
    + (* contiguous zone *)
      apply andb_true_iff in Hcontig. destruct Hcontig as [_ Hcde].
      apply Z.eqb_eq in Hcde.
      injection Hstep as <-. constructor; simpl.
      * intros k Hk Hd. destruct (Z.eq_dec k i) as [-> | Hki]; [contradiction|].
        apply Hold; [lia|]. apply Hneeded; [lia | exact Hd].
      * intros x Hx. apply Hbytes, Hwiden, Hx.
      * intros Hsome x Hx.
        destruct (Z_lt_dec x (copyDestEnd s)) as [Hold_range | Hrow].
        -- destruct (Hpending Hsome x ltac:(lia)) as (k & Hk & Hv & Hrow).
           exists k. split; [lia|]. split; assumption.
        -- exists i. split; [lia|]. split; [exact Hvalid|]. unfold in_row. lia.
    + (* a new zone: the pending request, if any, is flushed *)
      apply bind_Ok in Hstep. destruct Hstep as (bufs' & Hflush & Hstep).
      injection Hstep as <-. constructor; simpl.
      * intros k Hk Hd. destruct (Z.eq_dec k i) as [-> | Hki]; [contradiction|].
        apply Hold; [lia|]. apply Hneeded; [lia | exact Hd].
      * intros x Hx.
        apply (flush_if_pending_skip i s bufs' ltac:(lia) Hinv Hskip Hflush).
        apply Hwiden, Hx.
      * intros _ x Hx. exists i. split; [lia|]. split; [exact Hvalid|].
        unfold in_row. lia.
Qed.

Lemma untouched_lines_skip (n : nat) (i : Z) (s s' : Untouched) :
  (forall idx, line_dy lastLines idx <> -1 ->
     0 <= line_dy lastLines idx
     /\ (line_dy lastLines idx + minimapLineHeight) * WIDTH * 4
        <= Z.of_nat (length (data (deref bufs last)))) ->
  0 <= i -> i + Z.of_nat n <= count -> inv i s -> skip i s ->
  untouched_lines target last WIDTH startLineNumber minimapLineHeight
    lastStartLineNumber lastLines n (startLineNumber + i) s = Ok s' ->
  skip (i + Z.of_nat n) s'.
Proof using All.
  intros Hrecords. revert i s. induction n as [|n IH]; intros i s Hi Hn Hinv Hskip Hloop.
  - simpl in Hloop. injection Hloop as <-.
    replace (i + Z.of_nat 0) with i by lia. exact Hskip.
  - simpl in Hloop. apply bind_Ok in Hloop. destruct Hloop as (s1 & Hstep & Hloop).
    destruct (untouched_line_inv bufs target last WIDTH startLineNumber
                minimapLineHeight lastStartLineNumber lastLines count
                distinct pitch_pos width_nonneg Hrecords rows_within i s
                ltac:(lia) Hinv) as (s1' & Hstep' & Hinv1).
    rewrite Hstep in Hstep'. injection Hstep' as <-.
    pose proof (untouched_line_skip i s s1 ltac:(lia) Hinv Hskip Hstep) as Hskip1.
    replace (startLineNumber + i + 1) with (startLineNumber + (i + 1)) in Hloop by lia.
    replace (i + Z.of_nat (S n)) with (i + 1 + Z.of_nat n) by lia.
    apply (IH (i + 1) s1); [lia | lia | exact Hinv1 | exact Hskip1 | exact Hloop].
Qed.

End Skip.

Lemma line_dy_invalid (lastLines : list MinimapLine) (idx : Z) :
  idx < 0 \/ Z.of_nat (length lastLines) <= idx
  \/ (exists record, lastLines !! Z.to_nat idx = Some record /\ dy record = -1) ->
  line_dy lastLines idx = -1.
Proof.
  intros H. unfold line_dy.
  destruct (Z.leb_spec 0 idx); simpl; [|reflexivity].
  destruct (Z.ltb_spec idx (Z.of_nat (length lastLines))); [|reflexivity].
  destruct H as [? | [? | (record & Hlook & Hdy)]]; [lia | lia |].
  rewrite Hlook. exact Hdy.
Qed.

Lemma rows_disjoint (minimapLineHeight WIDTH k k' x : Z) :
  0 < minimapLineHeight -> 0 <= WIDTH ->
  in_row minimapLineHeight WIDTH k x -> in_row minimapLineHeight WIDTH k' x -> k = k'.
Proof.
  unfold in_row. intros Hp Hw [H1 H2] [H3 H4].
  destruct (Z_lt_dec k k') as [Hlt | Hge].
  - pose proof (offset_mono WIDTH (k * minimapLineHeight + minimapLineHeight)
                  (k' * minimapLineHeight) Hw ltac:(nia)). lia.
  - destruct (Z_lt_dec k' k) as [Hlt | Hge']; [|lia].
    pose proof (offset_mono WIDTH (k' * minimapLineHeight + minimapLineHeight)
                  (k * minimapLineHeight) Hw ltac:(nia)). lia.
Qed.

(** What [_renderUntouchedLines] leaves alone when the target is not the
    buffer of the previous frame, the recorded rows lie within the previous
    buffer and the rows of the new range within the target. *)
Lemma _renderUntouchedLines_leaves (bufs : Buffers) (target : Slot)
    (startLineNumber endLineNumber minimapLineHeight : Z)
    (lastRenderData : RenderData) :
  let last := _imageData lastRenderData in
  let lastStartLineNumber := rendLineNumberStart (_renderedLines lastRenderData) in
  let lastLines := lines (_renderedLines lastRenderData) in
  let WIDTH := width (deref bufs target) in
  let row := fun y : Z => y * WIDTH * 4 in
  let count := Z.max 0 (endLineNumber - startLineNumber + 1) in
  target <> last ->
  0 < minimapLineHeight ->
  0 <= WIDTH ->
  Forall (fun record =>
            dy record <> -1 ->
            0 <= dy record
            /\ row (dy record + minimapLineHeight)
               <= Z.of_nat (length (data (deref bufs last))))
    lastLines ->
  row ((endLineNumber - startLineNumber + 1) * minimapLineHeight)
    <= Z.of_nat (length (data (deref bufs target))) ->
  exists (needed : list bool) (bufs' : Buffers),
    _renderUntouchedLines bufs target startLineNumber endLineNumber
      minimapLineHeight (Some lastRenderData) = Ok (needed, bufs')
    /\ length (data (deref bufs' target)) = length (data (deref bufs target))
    /\ (forall k : Z, 0 <= k < count ->
          line_dy lastLines (startLineNumber + k - lastStartLineNumber) = -1 ->
          needed !! Z.to_nat k = Some true)
    /\ forall x : Z,
         (forall k : Z, 0 <= k < count ->
            line_dy lastLines (startLineNumber + k - lastStartLineNumber) <> -1 ->
            ~ in_row minimapLineHeight WIDTH k x) ->
         byte_at (data (deref bufs' target)) x = byte_at (data (deref bufs target)) x.
Proof.
  intros last lastStartLineNumber lastLines WIDTH row count0 Hdistinct Hpitch Hwidth
    Hrecords Hrows.
  set (count := Z.of_nat (Z.to_nat (endLineNumber - startLineNumber + 1))).
  assert (Hcount : count0 = count) by (unfold count0, count; lia).
  rewrite Hcount. clear Hcount count0.
  assert (Hwithin : forall idx, line_dy lastLines idx <> -1 ->
            0 <= line_dy lastLines idx
            /\ (line_dy lastLines idx + minimapLineHeight) * WIDTH * 4
               <= Z.of_nat (length (data (deref bufs last)))).
  { intros idx Hidx. destruct (line_dy_valid lastLines idx Hidx) as (record & Hin & Heq).
    rewrite Heq in *. rewrite Forall_forall in Hrecords. apply Hrecords; assumption. }
  assert (Hfit : count * minimapLineHeight * WIDTH * 4
                 <= Z.of_nat (length (data (deref bufs target)))).
  { unfold count, row in *.
    destruct (Z_le_dec 0 (endLineNumber - startLineNumber + 1)).
    - rewrite Z2Nat.id by lia. exact Hrows.
    - replace (Z.to_nat (endLineNumber - startLineNumber + 1)) with 0%nat by lia.
      simpl. lia. }
  set (s0 := {| needed := []; copySourceStart := -1; copySourceEnd := -1;
                copyDestStart := -1; copyDestEnd := -1; dest_dy := 0;
                store := bufs |}).
  assert (Hinv0 : reuse_inv bufs target last WIDTH startLineNumber minimapLineHeight
                    lastStartLineNumber lastLines 0 s0).
  { constructor; simpl; try reflexivity; lia. }
  assert (Hskip0 : skip_inv bufs target WIDTH startLineNumber minimapLineHeight
                     lastStartLineNumber lastLines 0 s0).
  { constructor; simpl; [lia | reflexivity | congruence]. }
  destruct (untouched_lines_inv bufs target last WIDTH startLineNumber
              minimapLineHeight lastStartLineNumber lastLines count
              Hdistinct Hpitch Hwidth Hwithin Hfit
              (Z.to_nat (endLineNumber - startLineNumber + 1)) 0 s0
              ltac:(lia) ltac:(fold count; lia) Hinv0)
    as (s & Hloop & Hinv).
  pose proof (untouched_lines_skip bufs target last WIDTH startLineNumber
                minimapLineHeight lastStartLineNumber lastLines count
                Hdistinct Hpitch Hwidth Hfit
                (Z.to_nat (endLineNumber - startLineNumber + 1)) 0 s0 s
                Hwithin ltac:(lia) ltac:(fold count; lia) Hinv0 Hskip0 Hloop)
    as Hskip.
  fold count in Hinv, Hskip. rewrite Z.add_0_l in Hinv, Hskip.
  destruct (flush_if_pending bufs target last WIDTH startLineNumber
              minimapLineHeight lastStartLineNumber lastLines count
              Hdistinct Hpitch Hwidth Hwithin Hfit count s ltac:(lia) Hinv)
    as (bufs' & Hflush & _ & Hsize & _).
  pose proof (flush_if_pending_skip bufs target last WIDTH startLineNumber
                minimapLineHeight lastStartLineNumber lastLines count
                Hdistinct Hpitch Hwidth Hfit count s bufs' ltac:(lia) Hinv Hskip Hflush)
    as Hbytes.
  exists (needed s), bufs'.
  split; [|split; [exact Hsize|split; [|exact Hbytes]]].
  - unfold _renderUntouchedLines. fold last lastStartLineNumber lastLines WIDTH s0.
    replace (startLineNumber) with (startLineNumber + 0) at 3 by lia.
    rewrite Hloop. simpl. rewrite Hflush. reflexivity.
  - destruct Hskip as [Hneeded _ _]. exact Hneeded.
Qed.

(** X17.  The lines [_renderUntouchedLines] does not reuse.  A line of the new
    range that has no record in the saved frame (it lies outside the saved
    range), or whose record is the invalid sentinel, as [onContentChanged]
    and [onTokensChanged] leave a record, is flagged as needing
    rasterization, and no byte of its row in the target is written: the row
    stays as the target had it, and so does everything below the rows of
    the range.  (The target is not the buffer of the saved frame, the saved
    rows lie within that buffer and the rows of the range within the
    target.) *)
Theorem _renderUntouchedLines_skips_rows (bufs : Buffers) (target : Slot)
    (startLineNumber endLineNumber minimapLineHeight : Z)
    (lastRenderData : RenderData) :
  let last := _imageData lastRenderData in
  let lastStartLineNumber := rendLineNumberStart (_renderedLines lastRenderData) in
  let lastLines := lines (_renderedLines lastRenderData) in
  let WIDTH := width (deref bufs target) in
  let row := fun y : Z => y * WIDTH * 4 in
  target <> last ->
  0 < minimapLineHeight ->
  0 <= WIDTH ->
  Forall (fun record =>
            dy record <> -1 ->
            0 <= dy record
            /\ row (dy record + minimapLineHeight)
               <= Z.of_nat (length (data (deref bufs last))))
    lastLines ->
  row ((endLineNumber - startLineNumber + 1) * minimapLineHeight)
    <= Z.of_nat (length (data (deref bufs target))) ->
  exists (needed : list bool) (bufs' : Buffers),
    _renderUntouchedLines bufs target startLineNumber endLineNumber
      minimapLineHeight (Some lastRenderData) = Ok (needed, bufs')
    /\ (forall lineNumber : Z,
          startLineNumber <= lineNumber <= endLineNumber ->
          lineNumber < lastStartLineNumber
          \/ lastStartLineNumber + Z.of_nat (length lastLines) <= lineNumber
          \/ (exists record,
                lastLines !! Z.to_nat (lineNumber - lastStartLineNumber) = Some record
                /\ (record = INVALID
                    \/ (exists before, record = onContentChanged before)
                    \/ (exists before, record = onTokensChanged before))) ->
          let dest_dy := (lineNumber - startLineNumber) * minimapLineHeight in
          needed !! Z.to_nat (lineNumber - startLineNumber) = Some true
          /\ subarray (data (deref bufs' target))
               (row dest_dy) (row (dest_dy + minimapLineHeight))
             = subarray (data (deref bufs target))
                 (row dest_dy) (row (dest_dy + minimapLineHeight)))
    /\ forall x : Z,
         row (Z.max 0 (endLineNumber - startLineNumber + 1) * minimapLineHeight) <= x ->
         byte_at (data (deref bufs' target)) x = byte_at (data (deref bufs target)) x.
Proof.
  intros last lastStartLineNumber lastLines WIDTH row Hdistinct Hpitch Hwidth
    Hrecords Hrows.
  destruct (_renderUntouchedLines_leaves bufs target startLineNumber endLineNumber
              minimapLineHeight lastRenderData Hdistinct Hpitch Hwidth Hrecords Hrows)
    as (needed & bufs' & Hrun & Hsize & Hneeded & Hbytes).
  fold last lastStartLineNumber lastLines WIDTH in Hneeded, Hbytes.
  set (count := Z.max 0 (endLineNumber - startLineNumber + 1)) in *.
  assert (Hfit : count * minimapLineHeight * WIDTH * 4
                 <= Z.of_nat (length (data (deref bufs target)))).
  { unfold count, row in *.
    destruct (Z_le_dec 0 (endLineNumber - startLineNumber + 1)).
    - rewrite Z.max_r by lia. exact Hrows.
    - rewrite Z.max_l by lia. lia. }
  exists needed, bufs'. split; [exact Hrun|]. split.
  - intros lineNumber Hrange Hnone dest_dy.
    set (k := lineNumber - startLineNumber) in *.
    assert (Hk : 0 <= k < count) by (unfold k, count; lia).
    assert (Hd : line_dy lastLines (startLineNumber + k - lastStartLineNumber) = -1).
    { replace (startLineNumber + k - lastStartLineNumber)
        with (lineNumber - lastStartLineNumber) by (unfold k; lia).
      apply line_dy_invalid.
      destruct Hnone as [? | [? | (record & Hlook & Hcase)]];
        [left; lia | right; left; lia |].
      right. right. exists record. split; [exact Hlook|].
      destruct Hcase as [-> | [[before ->] | [before ->]]]; reflexivity. }
    split; [apply Hneeded; assumption|].
    pose proof (offset_mono WIDTH (k * minimapLineHeight + minimapLineHeight)
                  (count * minimapLineHeight) Hwidth ltac:(nia)) as Hkfit.
    unfold row, dest_dy.
    apply subarray_ext.
    + nia.
    + unfold Uint8ClampedArray in *. rewrite Hsize. lia.
    + nia.
    + lia.
    + lia.
    + intros j Hj. apply Hbytes. intros k' Hk' Hvalid Hrow.
      assert (Hmine : in_row minimapLineHeight WIDTH k (k * minimapLineHeight * WIDTH * 4 + j))
        by (unfold in_row; lia).
      pose proof (rows_disjoint _ _ _ _ _ Hpitch Hwidth Hmine Hrow) as <-.
      contradiction.
  - intros x Hx. apply Hbytes. intros k Hk _ [_ Hrow].
    unfold row in Hx. fold count in Hx.
    pose proof (offset_mono WIDTH (k * minimapLineHeight + minimapLineHeight)
                  (count * minimapLineHeight) Hwidth ltac:(nia)). lia.
Qed.

(** The line ["a<tab>b"] with the large glyphs: [a] at 0 and [b] at 8. *)
Lemma _renderLine_cells_disjoint_witness :
  let a := x2RenderChar 0 0 (Some 97) white black false in
  let b := x2RenderChar 8 0 (Some 98) white black false in
  _renderLine sample_cells 10 black false Large (fun _ => white) 0 4 (a_tab_b 1) = [a; b]
  /\ 0 <= call_dx a /\ call_dx a + 2 <= call_dx b.
Proof.
  split; [reflexivity|].
  apply (_renderLine_cells_disjoint sample_cells 10 black false Large
           (fun _ => white) 0 4 (a_tab_b 1) ltac:(unfold positive_cells; simpl; lia)
           ltac:(lia) 0%nat 1%nat);
    [lia | reflexivity | reflexivity].
Defined.

(** The tab of ["a<tab>b"], met at the visual column 1 with tab size 4,
    moves the cursor to the column 4. *)
Lemma _renderLine_tab_stops_witness :
  Forall (fun call => exists col, 0 <= col /\ call_dx call = col * 2)
    (_renderLine sample_cells 10 black false Large (fun _ => white) 0 4 (a_tab_b 1))
  /\ exists c',
       render_char sample_cells 10 black false Large 0 4 [97; 9; 98] white
         {| dx := 2; charIndex := 1; tabsCharDelta := 0; calls := [] |} = Running c'
       /\ column c' = 4 * (1 / 4 + 1)
       /\ dx c' = column c' * 2
       /\ calls c' = [].
Proof.
  destruct (_renderLine_tab_stops sample_cells 10 black false Large
              (fun _ => white) 0 4 (a_tab_b 1) ltac:(lia)) as [Hgrid Htab].
  split; [exact Hgrid|].
  apply (Htab white {| dx := 2; charIndex := 1; tabsCharDelta := 0; calls := [] |});
    [unfold column; simpl; lia | reflexivity | simpl; lia | reflexivity].
Defined.

(** The second frame of the 10 line document, for the lines 2 to 5: line 5
    was not in the first frame, which showed the lines 1 to 4; it is
    flagged, and its row, the last of the target, is left as it was. *)
Lemma _renderUntouchedLines_skips_rows_witness :
  exists (needed : list bool) (bufs' : Buffers),
    _renderUntouchedLines (_buffers (fst second_frame_buffers)) slot0 2 5 2
      (Some first_frame_data) = Ok (needed, bufs')
    /\ needed !! 3%nat = Some true
    /\ subarray (data (deref bufs' slot0)) 72 96
       = subarray (data (deref (_buffers (fst second_frame_buffers)) slot0)) 72 96.
Proof.
  destruct (_renderUntouchedLines_skips_rows (_buffers (fst second_frame_buffers))
              slot0 2 5 2 first_frame_data)
    as (needed & bufs' & Hrun & Hskipped & _).
  - discriminate.
  - lia.
  - simpl. lia.
  - repeat (apply List.Forall_cons; [intros _; vm_compute; split; discriminate|]).
    apply List.Forall_nil.
  - vm_compute. discriminate.
  - exists needed, bufs'. split; [exact Hrun|].
    apply (Hskipped 5); [lia|]. right. left. simpl. lia.
Defined.

(** ** Frames and view events *)

Lemma regular_canvas (configuration : IConfiguration) :
  regular configuration ->
  exists WIDTH HEIGHT : Z,
    integer (canvasInnerWidth (new_MinimapOptions configuration)) = Ok WIDTH
    /\ integer (canvasInnerHeight (new_MinimapOptions configuration)) = Ok HEIGHT
    /\ 1 <= WIDTH /\ 1 <= HEIGHT.
Proof.
  intros (pr & w & h & Hpr & Hpr0 & Hw & Hw1 & Hh & Hh1).
  exists (Qfloor (pr * w)), (Qfloor (pr * h)).
  unfold new_MinimapOptions. cbn [canvasInnerWidth canvasInnerHeight].
  rewrite Hpr, Hw, Hh. cbn [mul].
  split; [apply floor_integer|]. split; [apply floor_integer|].
  split.
  - apply Qfloor_resp_le in Hw1. change 1%Q with (inject_Z 1) in Hw1.
    rewrite Qfloor_Z in Hw1. exact Hw1.
  - apply Qfloor_resp_le in Hh1. change 1%Q with (inject_Z 1) in Hh1.
    rewrite Qfloor_Z in Hh1. exact Hh1.
Qed.

Lemma enabled_or_not (renderMinimap : RenderMinimap) :
  renderMinimap = None_ \/ renderMinimap <> None_.
Proof. destruct renderMinimap; [left; reflexivity | right; discriminate ..]. Qed.

Lemma render_disabled (K : Constants) (env : Env) (this : Minimap)
    (renderingCtx : RestrictedRenderingContext) :
  renderMinimap (_options this) = None_ -> render K env this renderingCtx = Ok this.
Proof. intros H. unfold render. rewrite H. reflexivity. Qed.

Lemma handleEvent_coherent (K : Constants) (e : ViewEvent) (this : Minimap)
    (WIDTH HEIGHT : Z) :
  (forall configuration,
     e = ViewConfigurationChangedEvent configuration -> regular configuration) ->
  coherent K this WIDTH HEIGHT ->
  exists WIDTH' HEIGHT', coherent K (snd (handleEvent e this)) WIDTH' HEIGHT'.
Proof.
  intros Hregular Hcoherent.
  pose proof Hcoherent as (HW & HH & HW0 & HH0 & Hstate).
  destruct e as [configuration| | | |]; simpl.
  - unfold onConfigurationChanged, _onOptionsMaybeChanged.
    destruct (equals _ _); simpl; [exists WIDTH, HEIGHT; exact Hcoherent|].
    destruct (regular_canvas configuration (Hregular configuration eq_refl))
      as (W' & H' & HW' & HH' & HW1 & HH1).
    exists W', H'. apply (fresh_coherent K _ W' H' HW' HH'); lia.
  - exists WIDTH, HEIGHT. unfold coherent. simpl.
    repeat (split; [assumption|]).
    destruct (_buffers_ this) as [buffers|]; [|reflexivity].
    split; [apply Hstate | exact I].
  - exists WIDTH, HEIGHT. exact Hcoherent.
  - exists WIDTH, HEIGHT. apply (fresh_coherent K (_options this)); assumption.
  - exists WIDTH, HEIGHT. unfold coherent. simpl.
    repeat (split; [assumption|]).
    destruct (_buffers_ this) as [buffers|]; [|reflexivity].
    split; [apply Hstate | exact I].
Qed.

Lemma reachable_coherent (K : Constants) (this : Minimap) :
  positive_cells K -> reachable K this ->
  exists WIDTH HEIGHT : Z, coherent K this WIDTH HEIGHT.
Proof.
  intros HK Hreach. induction Hreach as
    [configuration Hregular
    | e this Hreach IH Hregular
    | env renderingCtx this this' Hreach IH Hpaint Hrender].
  - destruct (regular_canvas configuration Hregular) as (W & H & HW & HH & HW1 & HH1).
    exists W, H. apply fresh_coherent; [assumption | assumption | lia | lia].
  - destruct IH as (W & H & Hcoherent).
    eapply handleEvent_coherent; eassumption.
  - destruct IH as (W & H & Hcoherent). exists W, H.
    destruct (enabled_or_not (renderMinimap (_options this))) as [Hoff | Hon].
    + rewrite render_disabled in Hrender by exact Hoff. congruence.
    + destruct (render_Ok K env this this' renderingCtx Hon Hrender)
        as (s & e & _ & _ & _ & _ & Hs & He & _).
      destruct (render_keeps_coherent K env this renderingCtx W H s e HK Hon Hpaint
                  Hcoherent Hs He) as (this'' & Hrender' & Hcoherent').
      congruence.
Qed.

Lemma integer_throws (x : number) (e : exn) : integer x = Throw e -> e = NonIntegral.
Proof. unfold integer. destruct (to_integer x); congruence. Qed.

(** X18.  The view part never fails while it draws.  In every state that the
    constructor, the handlers of view events and completed frames lead to,
    the buffers, once created, have the size of the canvas and a saved
    frame refers to the buffer used last; a frame drawn from such a state
    raises no [RangeError]; and when the line numbers of its layout are
    whole numbers it completes, in a state of the same kind. *)
Theorem reachable_render_completes (K : Constants) (env : Env) (this : Minimap)
    (renderingCtx : RestrictedRenderingContext) :
  positive_cells K ->
  reachable K this ->
  paints_in_place env ->
  let layout :=
    MinimapLayout.create K (_options this)
      (visibleRange_startLineNumber renderingCtx)
      (visibleRange_endLineNumber renderingCtx)
      (viewportHeight renderingCtx)
      (0 <? whitespaceViewportData_length renderingCtx)
      (getLineCount env) (getVerticalSliderVerticalCenter env)
      (scrollTop renderingCtx) (scrollHeight renderingCtx) in
  (exists WIDTH HEIGHT : Z, coherent K this WIDTH HEIGHT)
  /\ render K env this renderingCtx <> Throw RangeError
  /\ forall startLineNumber endLineNumber : Z,
       integer (MinimapLayout.startLineNumber layout) = Ok startLineNumber ->
       integer (MinimapLayout.endLineNumber layout) = Ok endLineNumber ->
       exists this',
         render K env this renderingCtx = Ok this' /\ reachable K this'.
Proof.
  intros HK Hreach Hpaint layout.
  destruct (reachable_coherent K this HK Hreach) as (W & H & Hcoherent).
  split; [exists W, H; exact Hcoherent|].
  assert (Hcompletes : forall s e,
            integer (MinimapLayout.startLineNumber layout) = Ok s ->
            integer (MinimapLayout.endLineNumber layout) = Ok e ->
            exists this', render K env this renderingCtx = Ok this').
  { intros s e Hs He.
    destruct (enabled_or_not (renderMinimap (_options this))) as [Hoff | Hon].
    - exists this. apply render_disabled, Hoff.
    - destruct (render_keeps_coherent K env this renderingCtx W H s e HK Hon Hpaint
                  Hcoherent Hs He) as (this' & Hrender & _).
      exists this'. exact Hrender. }
  split.
  - destruct (enabled_or_not (renderMinimap (_options this))) as [Hoff | Hon].
    { rewrite render_disabled by exact Hoff. discriminate. }
    destruct (integer (MinimapLayout.startLineNumber layout)) as [s|err] eqn:Hs.
    + destruct (integer (MinimapLayout.endLineNumber layout)) as [e|err] eqn:He.
      * destruct (Hcompletes s e eq_refl eq_refl) as (this' & ->). discriminate.
      * rewrite (render_enabled K env this renderingCtx Hon). fold layout.
        rewrite Hs, He. simpl. apply integer_throws in He. congruence.
    + rewrite (render_enabled K env this renderingCtx Hon). fold layout.
      rewrite Hs. simpl. apply integer_throws in Hs. congruence.
  - intros s e Hs He. destruct (Hcompletes s e Hs He) as (this' & Hrender).
    exists this'. split; [exact Hrender|].
    exact (reachable_render K env renderingCtx this this' Hreach Hpaint Hrender).
Qed.

Lemma _getBuffer_filled (K : Constants) (env : Env) (this : Minimap)
    (WIDTH HEIGHT : Z) (buffers : MinimapBuffers) (i : Slot) :
  coherent K this WIDTH HEIGHT ->
  _getBuffer env this = Ok (buffers, i) ->
  data (deref (_buffers buffers) i) = _backgroundFillData buffers
  /\ well_sized buffers WIDTH HEIGHT
  /\ (_buffers_ this = None ->
      _backgroundFillData buffers
      = _createBackgroundFillData WIDTH HEIGHT (getColor env (DefaultBackground env))).
Proof.
  intros (HW & HH & HW0 & HH0 & Hstate) Hget.
  assert (Hfrom : forall b, well_sized b WIDTH HEIGHT -> getBuffer b = Ok (buffers, i) ->
            data (deref (_buffers buffers) i) = _backgroundFillData buffers
            /\ well_sized buffers WIDTH HEIGHT
            /\ _backgroundFillData buffers = _backgroundFillData b).
  { intros b Hsized Hb.
    destruct (getBuffer_well_sized b WIDTH HEIGHT Hsized) as (b' & i' & Hb' & Hsized').
    rewrite Hb in Hb'. injection Hb' as <- <-.
    split; [|split; [exact Hsized'|]].
    - destruct Hsized as [Hfill Hsize]. unfold getBuffer in Hb.
      destruct (Hsize (other (_lastUsedBuffer b))) as [_ Hlen].
      rewrite set_whole in Hb by lia. simpl in Hb. injection Hb as <- <-.
      simpl. rewrite deref_assign_same. reflexivity.
    - unfold getBuffer in Hb. apply bind_Ok in Hb. destruct Hb as (d & _ & Hb).
      injection Hb as <- _. reflexivity. }
  unfold _getBuffer in Hget. destruct (_buffers_ this) as [b|].
  - simpl in Hget. destruct Hstate as [Hsized _].
    destruct (Hfrom b Hsized Hget) as (H1 & H2 & _).
    split; [exact H1|]. split; [exact H2|]. discriminate.
  - rewrite HW, HH in Hget. simpl in Hget.
    destruct (Hfrom _ (new_MinimapBuffers_well_sized WIDTH HEIGHT
                         (getColor env (DefaultBackground env)) HW0 HH0) Hget)
      as (H1 & H2 & H3).
    split; [exact H1|]. split; [exact H2|]. intros _. exact H3.
Qed.

Lemma foldl_ext_in {A B : Type} (f g : A -> B -> A) (l : list B) (a : A) :
  (forall x a, x ∈ l -> f a x = g a x) -> foldl f a l = foldl g a l.
Proof.
  revert a. induction l as [|x l IH]; intros a H; [reflexivity|].
  simpl. rewrite (H x a) by left. apply IH. intros y b Hy. apply H. right. exact Hy.
Qed.

Lemma truthy_at_replicate (n : nat) (v : bool) (k : Z) :
  0 <= k < Z.of_nat n -> truthy_at (replicate n v) k = v.
Proof.
  intros Hk. unfold truthy_at. destruct (Z.ltb_spec k 0); [lia|].
  rewrite lookup_replicate_2 by lia. reflexivity.
Qed.

Lemma with_data_with_data (img : ImageData) (d1 d2 : Uint8ClampedArray) :
  with_data (with_data img d1) d2 = with_data img d2.
Proof. reflexivity. Qed.

Lemma with_data_same (img : ImageData) : with_data img (data img) = img.
Proof. destruct img. reflexivity. Qed.

Lemma handleEvent_invalidates (e : ViewEvent) (this : Minimap) :
  invalidates e this ->
  fst (handleEvent e this) = true
  /\ _lastRenderData (snd (handleEvent e this)) = None.
Proof.
  destruct e as [configuration| | | |]; simpl; try (intros _; split; reflexivity).
  - unfold onConfigurationChanged, _onOptionsMaybeChanged. intros ->. split; reflexivity.
  - contradiction.
Qed.

(** X19.  A frame drawn without a saved frame, as after the events that
    invalidate it (a flush, a change of zones, of the token colours, or of
    the options): the handler asks for a rendering, and the frame that
    follows reuses nothing.  The view model is asked for every line of the
    range, and the image is the background fill of the buffers on which the
    calls of every row were painted in turn, row [lineIndex] at the
    vertical offset [lineIndex * minimapLineHeight]. *)
Theorem render_after_invalidating_event (K : Constants) (env : Env) (e : ViewEvent)
    (this this' : Minimap) (renderingCtx : RestrictedRenderingContext) :
  positive_cells K ->
  reachable K this ->
  (forall configuration,
     e = ViewConfigurationChangedEvent configuration -> regular configuration) ->
  invalidates e this ->
  let invalidated := snd (handleEvent e this) in
  let renderMinimap := renderMinimap (_options invalidated) in
  let minimapLineHeight := getMinimapLineHeight K renderMinimap in
  renderMinimap <> None_ ->
  render K env invalidated renderingCtx = Ok this' ->
  fst (handleEvent e this) = true
  /\ exists (lastRenderData : RenderData) (buffers : MinimapBuffers)
            (startLineNumber endLineNumber : Z),
       _lastRenderData this' = Some lastRenderData
       /\ _buffers_ this' = Some buffers
       /\ integer (MinimapLayout.startLineNumber (renderedLayout lastRenderData))
          = Ok startLineNumber
       /\ integer (MinimapLayout.endLineNumber (renderedLayout lastRenderData))
          = Ok endLineNumber
       /\ let count := Z.max 0 (endLineNumber - startLineNumber + 1) in
          let lineInfo :=
            getMinimapLinesRenderingData env startLineNumber endLineNumber
              (replicate (Z.to_nat count) true) in
          let image := deref (_buffers buffers) (_imageData lastRenderData) in
          data image
          = foldl (fun pixels lineIndex =>
                     foldl (fun d call => paint env (with_data image d) call) pixels
                       (_renderLine K (width image)
                          (getColor env (DefaultBackground env))
                          (backgroundIsLight env) renderMinimap (getColor env)
                          (lineIndex * minimapLineHeight)
                          (lineInfo_tabSize lineInfo)
                          (lineInfo_data lineInfo lineIndex)))
              (_backgroundFillData buffers) (seqZ 0 count).
Proof.
  intros HK Hreach Hregular Hinvalid this1 rm mlh Hon Hrender.
  destruct (handleEvent_invalidates e this Hinvalid) as [Hasks Hnone].
  split; [exact Hasks|]. fold this1 in Hnone.
  assert (Hreach1 : reachable K this1) by (apply reachable_event; assumption).
  destruct (reachable_coherent K this1 HK Hreach1) as (W & H & Hcoherent).
  destruct (render_Ok K env this1 this' renderingCtx Hon Hrender)
    as (s & e_ & buffers & imageData & needed & bufs & Hs & He & Hbuffer
        & Huntouched & ->).
  fold rm mlh in Hs, He, Huntouched |- *.
  rewrite Hnone in Huntouched. unfold _renderUntouchedLines in Huntouched.
  change 0 with (Z.of_nat (length (@nil bool))) in Huntouched.
  rewrite all_needed_spec in Huntouched. injection Huntouched as <- <-.
  destruct (_getBuffer_filled K env this1 W H buffers imageData Hcoherent Hbuffer)
    as (Hfilled & _ & _).
  set (n := Z.to_nat (e_ - s + 1)) in *.
  eexists. eexists. exists s, e_.
  cbn [_lastRenderData _buffers_ renderedLayout]. split; [reflexivity|].
  split; [reflexivity|]. split; [exact Hs|]. split; [exact He|].
  cbn [_buffers _imageData _backgroundFillData]. rewrite deref_assign_same.
  cbn [data width with_data app].
  replace (Z.to_nat (Z.max 0 (e_ - s + 1))) with n by (unfold n; lia).
  set (lineInfo := getMinimapLinesRenderingData env s e_ (replicate n true)).
  rewrite render_rows_pixels by reflexivity.
  replace (Z.max 0 (e_ - s + 1)) with (Z.of_nat n) by (unfold n; lia).
  rewrite Hfilled. apply foldl_ext_in. intros k pixels Hk.
  apply elem_of_seqZ in Hk. unfold render_row.
  rewrite truthy_at_replicate by lia. reflexivity.
Qed.

Lemma render_options (K : Constants) (env : Env) (this this' : Minimap)
    (renderingCtx : RestrictedRenderingContext) :
  render K env this renderingCtx = Ok this' -> _options this' = _options this.
Proof.
  intros Hrender.
  destruct (enabled_or_not (renderMinimap (_options this))) as [Hoff | Hon].
  - rewrite render_disabled in Hrender by exact Hoff. congruence.
  - destruct (render_Ok K env this this' renderingCtx Hon Hrender)
      as (s & e & b & i & needed & bufs & _ & _ & _ & _ & ->).
    reflexivity.
Qed.

Lemma render_rows_not_needed (K : Constants) (env : Env) (target : ImageData)
    (background : RGBA) (useLighterFont : bool) (renderMinimap : RenderMinimap)
    (minimapLineHeight tabSize : Z) (lineData : Z -> ViewLineData)
    (n : nat) (pixels : Uint8ClampedArray) :
  snd (render_rows K env target background useLighterFont renderMinimap
         minimapLineHeight tabSize (replicate n false) lineData n 0 0 [] pixels)
  = pixels.
Proof.
  rewrite render_rows_pixels by reflexivity.
  assert (Hid : forall l, (forall k, k ∈ l -> 0 <= k < Z.of_nat n) ->
            foldl (fun d k =>
                     render_row K env target background useLighterFont renderMinimap
                       tabSize (replicate n false) lineData k (k * minimapLineHeight) d)
              pixels l = pixels).
  { induction l as [|k l IH]; intros Hl; [reflexivity|]. simpl.
    unfold render_row at 2. rewrite truthy_at_replicate by (apply Hl; left).
    apply IH. intros k' Hk'. apply Hl. right. exact Hk'. }
  apply Hid. intros k Hk. apply elem_of_seqZ in Hk. lia.
Qed.

(** X20.  Drawing the same frame again.  When a frame has completed and the next
    one is drawn for the same rendering context and the same document, it
    completes too; it is drawn into the other buffer; every line of the
    range is found in the saved frame, so no line is asked of the view
    model and nothing is rasterized; and the frame it saves has the records
    of the first, and row by row the bytes of the first. *)
Theorem render_same_frame_again (K : Constants) (env : Env) (this this1 : Minimap)
    (renderingCtx : RestrictedRenderingContext) :
  positive_cells K ->
  reachable K this ->
  paints_in_place env ->
  renderMinimap (_options this) <> None_ ->
  render K env this renderingCtx = Ok this1 ->
  let minimapLineHeight := getMinimapLineHeight K (renderMinimap (_options this)) in
  exists (this2 : Minimap) (first second : RenderData) (saved buffers : MinimapBuffers)
         (startLineNumber endLineNumber : Z) (bufs : Buffers),
    render K env this1 renderingCtx = Ok this2
    /\ _lastRenderData this1 = Some first /\ _buffers_ this1 = Some saved
    /\ _lastRenderData this2 = Some second /\ _buffers_ this2 = Some buffers
    /\ integer (MinimapLayout.startLineNumber (renderedLayout first)) = Ok startLineNumber
    /\ integer (MinimapLayout.endLineNumber (renderedLayout first)) = Ok endLineNumber
    /\ _imageData second <> _imageData first
    /\ renderedLayout second = renderedLayout first
    /\ _renderedLines second = _renderedLines first
    /\ let count := Z.max 0 (endLineNumber - startLineNumber + 1) in
       let image1 := deref (_buffers saved) (_imageData first) in
       let image2 := deref (_buffers buffers) (_imageData second) in
       let row := fun y : Z => y * width image2 * 4 in
       (exists handed : MinimapBuffers,
          _getBuffer env this1 = Ok (handed, _imageData second)
          /\ _renderUntouchedLines (_buffers handed) (_imageData second)
               startLineNumber endLineNumber minimapLineHeight (Some first)
             = Ok (replicate (Z.to_nat count) false, bufs))
       /\ data image2 = data (deref bufs (_imageData second))
       /\ forall lineIndex : Z, 0 <= lineIndex < count ->
            subarray (data image2) (row (lineIndex * minimapLineHeight))
              (row (lineIndex * minimapLineHeight + minimapLineHeight))
            = subarray (data image1) (row (lineIndex * minimapLineHeight))
                (row (lineIndex * minimapLineHeight + minimapLineHeight)).
Proof.
  intros HK Hreach Hpaint Hon Hrender mlh.
  pose proof (pitch_positive K (renderMinimap (_options this)) HK) as Hpitch.
  fold mlh in Hpitch.
  destruct (reachable_coherent K this HK Hreach) as (W & H & Hcoherent).
  (* the first frame *)
  destruct (render_Ok K env this this1 renderingCtx Hon Hrender)
    as (s & e & buffers0 & image0 & needed0 & bufs0 & Hs & He & _ & _ & Hthis1).
  fold mlh in Hthis1.
  destruct (render_keeps_coherent K env this renderingCtx W H s e HK Hon Hpaint
              Hcoherent Hs He) as (this1' & Hrender' & Hcoherent1).
  rewrite Hrender in Hrender'. injection Hrender' as <-.
  pose proof (render_options K env this this1 renderingCtx Hrender) as Hoptions.
  assert (Hon1 : renderMinimap (_options this1) <> None_) by (rewrite Hoptions; exact Hon).
  set (n := Z.to_nat (e - s + 1)) in *.
  set (rows0 := render_rows _ _ _ _ _ _ _ _ _ _ _ _ _ _ _) in Hthis1.
  assert (Hrecords0 : fst rows0
                      = map (fun k => new_MinimapLine (0 + Z.of_nat k * mlh)) (seq 0 n)).
  { unfold rows0. rewrite render_rows_records by reflexivity. reflexivity. }
  set (first := {| renderedLayout :=
                     MinimapLayout.create K (_options this)
                       (visibleRange_startLineNumber renderingCtx)
                       (visibleRange_endLineNumber renderingCtx)
                       (viewportHeight renderingCtx)
                       (0 <? whitespaceViewportData_length renderingCtx)
                       (getLineCount env) (getVerticalSliderVerticalCenter env)
                       (scrollTop renderingCtx) (scrollHeight renderingCtx);
                   _imageData := image0;
                   _renderedLines := _set s (fst rows0) |}) in *.
  (* the second frame completes *)
  assert (Hs1 : integer (MinimapLayout.startLineNumber
                           (MinimapLayout.create K (_options this1)
                              (visibleRange_startLineNumber renderingCtx)
                              (visibleRange_endLineNumber renderingCtx)
                              (viewportHeight renderingCtx)
                              (0 <? whitespaceViewportData_length renderingCtx)
                              (getLineCount env) (getVerticalSliderVerticalCenter env)
                              (scrollTop renderingCtx) (scrollHeight renderingCtx)))
                = Ok s) by (rewrite Hoptions; exact Hs).
  assert (He1 : integer (MinimapLayout.endLineNumber
                           (MinimapLayout.create K (_options this1)
                              (visibleRange_startLineNumber renderingCtx)
                              (visibleRange_endLineNumber renderingCtx)
                              (viewportHeight renderingCtx)
                              (0 <? whitespaceViewportData_length renderingCtx)
                              (getLineCount env) (getVerticalSliderVerticalCenter env)
                              (scrollTop renderingCtx) (scrollHeight renderingCtx)))
                = Ok e) by (rewrite Hoptions; exact He).
  destruct (render_keeps_coherent K env this1 renderingCtx W H s e HK Hon1 Hpaint
              Hcoherent1 Hs1 He1) as (this2 & Hrender2 & _).
  destruct (render_Ok K env this1 this2 renderingCtx Hon1 Hrender2)
    as (s' & e' & handed & image & needed & bufs & Hs' & He' & Hbuffer
        & Huntouched & Hthis2).
  rewrite Hs1 in Hs'. injection Hs' as <-. rewrite He1 in He'. injection He' as <-.
  rewrite Hoptions in Huntouched, Hthis2. fold mlh n in Huntouched, Hthis2.
  (* the state between the two frames *)
  pose proof (create_rows_fit K (_options this) _ _ _ _ _ _ _ _ _ _ _ HK Hs He
                (proj1 (proj2 Hcoherent))) as Hfit.
  destruct Hcoherent1 as (_ & _ & HW0 & HH0 & Hstate1).
  rewrite (Z.max_r 0 H) in Hfit by exact HH0. fold mlh in Hfit.
  assert (Hsaved : exists saved, _buffers_ this1 = Some saved
                                 /\ _lastRenderData this1 = Some first).
  { rewrite Hthis1. eexists. split; reflexivity. }
  destruct Hsaved as (saved & Hsaved & Hfirst).
  rewrite Hsaved, Hfirst, Hoptions in Hstate1. fold mlh in Hstate1.
  destruct Hstate1 as (Hsized & Href & Hwithin).
  unfold _getBuffer in Hbuffer. rewrite Hsaved in Hbuffer. simpl in Hbuffer.
  destruct (getBuffer_well_sized saved W H Hsized) as (handed' & image' & Hb & [_ Hsized']).
  rewrite Hbuffer in Hb. injection Hb as <- <-.
  pose proof (getBuffer_rotates _ _ _ Hbuffer) as (Himage & _ & Hkept).
  rewrite <- Href in Himage, Hkept.
  assert (Hdistinct : image <> _imageData first)
    by (rewrite Himage; apply other_distinct).
  destruct (Hsized' image) as [Hwt Hlt].
  destruct (Hsized' (_imageData first)) as [_ Hll].
  rewrite Hfirst in Huntouched.
  destruct (_renderUntouchedLines_run (_buffers handed) image s e mlh first
              Hdistinct Hpitch)
    as (needed' & bufs' & Hrun & Hlast & Hsize & Hlength & Hreused).
  { rewrite Hwt. exact HW0. }
  { rewrite Hwt, Hll. eapply Forall_impl; [exact Hwithin|].
    intros record Hrecord Hvalid. destruct (Hrecord Hvalid) as [H0 H1].
    split; [exact H0|]. nia. }
  { rewrite Hwt, Hlt. nia. }
  rewrite Huntouched in Hrun. injection Hrun as <- <-.
  rewrite Hwt in Hreused.
  (* every line of the range has a record of the first frame *)
  assert (Hrecord : forall k : Z, 0 <= k < Z.of_nat n ->
            lines (_renderedLines first) !! Z.to_nat k
            = Some (new_MinimapLine (k * mlh))).
  { intros k Hk. unfold first. cbn [_renderedLines lines _set]. rewrite Hrecords0.
    rewrite list_lookup_fmap, lookup_seq_lt by lia. simpl. f_equal. f_equal. lia. }
  assert (Hline : forall k : Z, 0 <= k < Z.of_nat n ->
            needed !! Z.to_nat k = Some false
            /\ subarray (data (deref bufs image)) (k * mlh * W * 4)
                 ((k * mlh + mlh) * W * 4)
               = subarray (data (deref (_buffers handed) (_imageData first)))
                   (k * mlh * W * 4) ((k * mlh + mlh) * W * 4)).
  { intros k Hk.
    specialize (Hreused (s + k) (new_MinimapLine (k * mlh))).
    cbn [rendLineNumberStart _renderedLines first _set] in Hreused.
    replace (s + k - s) with k in Hreused by lia.
    apply Hreused; [unfold n in Hk; lia | lia | apply Hrecord; exact Hk |].
    simpl. nia. }
  assert (Hneeded : needed = replicate n false).
  { apply list_eq. intros i.
    destruct (decide (i < n)%nat) as [Hi | Hi].
    - rewrite lookup_replicate_2 by exact Hi.
      destruct (Hline (Z.of_nat i) ltac:(lia)) as [Hlook _].
      rewrite Nat2Z.id in Hlook. exact Hlook.
    - rewrite (lookup_ge_None_2 (replicate n false) i)
        by (rewrite length_replicate; lia).
      apply lookup_ge_None_2. unfold n in *. lia. }
  subst needed.
  (* the frame that is saved *)
  set (rows := render_rows _ _ _ _ _ _ _ _ _ _ _ _ _ _ _) in Hthis2.
  assert (Hpixels : snd rows = data (deref bufs image))
    by (unfold rows; apply render_rows_not_needed).
  assert (Hrecords : fst rows = fst rows0).
  { unfold rows. rewrite render_rows_records by reflexivity.
    rewrite Hrecords0. reflexivity. }
  exists this2, first. eexists. exists saved. eexists. exists s, e, bufs.
  split; [exact Hrender2|]. split; [exact Hfirst|]. split; [exact Hsaved|].
  rewrite Hthis2. cbn [_lastRenderData _buffers_].
  split; [reflexivity|]. split; [reflexivity|].
  cbn [renderedLayout _imageData _renderedLines _buffers].
  split; [exact Hs|]. split; [exact He|]. split; [exact Hdistinct|].
  split; [reflexivity|].
  split; [rewrite Hrecords; reflexivity|].
  rewrite deref_assign_same. cbn [with_data width data].
  replace (Z.to_nat (Z.max 0 (e - s + 1))) with n by (unfold n; lia).
  split; [exists handed; split; [|exact Huntouched]|].
  { unfold _getBuffer. rewrite Hsaved. exact Hbuffer. }
  split; [exact Hpixels|].
  intros k Hk. rewrite Hpixels.
  assert (Hwb : width (deref bufs image) = W).
  { rewrite (_renderUntouchedLines_width _ _ _ _ _ _ _ _ Huntouched image). exact Hwt. }
  rewrite Hwb. destruct (Hline k ltac:(unfold n; lia)) as [_ Hbytes].
  rewrite Hbytes, Hkept. reflexivity.
Qed.

(** ** The mouse-down listener of the canvas *)

Lemma min_bound (x y : number) : min x y = NaN \/ (min x y <=? y)%num = true.
Proof.
  destruct x as [a| | |], y as [b| | |]; simpl; auto;
    try (right; reflexivity).
  - right. destruct (b ?= a)%Q eqn:Hc.
    + apply Qeq_alt in Hc. apply leb_Fin. lra.
    + apply leb_Fin. lra.
    + apply Qgt_alt in Hc. apply leb_Fin. lra.
  - right. apply leb_Fin. lra.
Qed.

(** X21.  A press on the canvas reveals nothing while the minimap is disabled or
    no frame is saved; otherwise it asks for a line, and never for one
    beyond the last line of the document. *)
Theorem canvasMouseDown_within_document (K : Constants) (env : Env) (this : Minimap)
    (offsetY : number) :
  (canvasMouseDown K env this offsetY = None <->
   renderMinimap (_options this) = None_ \/ _lastRenderData this = None)
  /\ forall lineNumber : number,
       canvasMouseDown K env this offsetY = Some lineNumber ->
       lineNumber = NaN \/ (lineNumber <=? getLineCount env)%num = true.
Proof.
  unfold canvasMouseDown. split.
  - destruct (renderMinimap (_options this)), (_lastRenderData this);
      split; try discriminate; auto; intros [? | ?]; discriminate.
  - intros lineNumber.
    destruct (renderMinimap (_options this)); [discriminate|..];
      (destruct (_lastRenderData this); [|discriminate]);
      intros [= <-]; apply min_bound.
Qed.

Lemma create_end_within (K : Constants) (options : MinimapOptions)
    (vStart vEnd vHeight : number) (gaps : bool)
    (center scrollTop scrollHeight : number) (lc e : Z) :
  let L := MinimapLayout.create K options vStart vEnd vHeight gaps
             (of_Z lc) center scrollTop scrollHeight in
  integer (MinimapLayout.endLineNumber L) = Ok e -> (e <= lc)%Z.
Proof.
  intros L.
  destruct (create_lines K options vStart vEnd vHeight gaps
              (of_Z lc) center scrollTop scrollHeight) as [_ He].
  fold L in He. rewrite He. clear He.
  destruct (_ >=? of_Z lc)%num.
  - rewrite integer_of_Z. intros [= <-]. lia.
  - destruct (_ + _ - _)%num as [q| | |].
    + destruct (min_Fin (inject_Z lc) q) as (c & Hc & Hle & _).
      unfold of_Z. rewrite Hc. intros Hint.
      destruct (integer_Fin _ _ Hint) as (c' & [= <-] & Hce).
      rewrite Hce in Hle. rewrite <- Zle_Qle in Hle. exact Hle.
    + simpl. change (Fin (inject_Z lc)) with (of_Z lc). rewrite integer_of_Z.
      intros [= <-]. lia.
    + simpl. discriminate.
    + simpl. discriminate.
Qed.

Lemma min_integer_l (q : Q) (x y : Z) :
  (q == inject_Z x)%Q -> integer (min (Fin q) (of_Z y)) = Ok (Z.min x y).
Proof.
  intros Hq. destruct (min_Fin q (inject_Z y)) as (c & Hc & Hcq & Hcy & Hcase).
  unfold of_Z. rewrite Hc. apply integer_Qeq.
  destruct Hcase as [-> | ->].
  - rewrite Hq in Hcy |- *. rewrite <- Zle_Qle in Hcy. rewrite Z.min_l by lia. reflexivity.
  - rewrite Hq in Hcq. rewrite <- Zle_Qle in Hcq. rewrite Z.min_r by lia. reflexivity.
Qed.

(** X22.  From the rows of a frame back to the lines.  After a frame has
    completed, with a pixel ratio that is a whole number, a press on the
    canvas at a whole vertical offset which, in device pixels, lies in the
    row that the frame recorded for the line [startLineNumber + k] asks to
    reveal that line.  The offset is one of the whole numbers on which
    binary64 is exact: below [2 ^ 53] the product [pixelRatio * offsetY]
    is computed without rounding, and the rounding of its quotient by the
    row height does not reach the next whole number. *)
Theorem canvasMouseDown_reveals_row_line (K : Constants) (env : Env)
    (this this' : Minimap) (renderingCtx : RestrictedRenderingContext)
    (lastRenderData : RenderData) (k : nat) (record : MinimapLine)
    (pixelRatio_ offsetY lc : Z) :
  positive_cells K ->
  renderMinimap (_options this) <> None_ ->
  pixelRatio (_options this) = of_Z pixelRatio_ ->
  getLineCount env = of_Z lc ->
  render K env this renderingCtx = Ok this' ->
  _lastRenderData this' = Some lastRenderData ->
  lines (_renderedLines lastRenderData) !! k = Some record ->
  let minimapLineHeight := getMinimapLineHeight K (renderMinimap (_options this)) in
  (dy record <= pixelRatio_ * offsetY < dy record + minimapLineHeight)%Z ->
  (pixelRatio_ * offsetY + minimapLineHeight <= 2 ^ 53)%Z ->
  exists lineNumber : number,
    canvasMouseDown K env this' (of_Z offsetY) = Some lineNumber
    /\ integer lineNumber
       = Ok (rendLineNumberStart (_renderedLines lastRenderData) + Z.of_nat k)%Z.
Proof.
  intros HK Hon Hpr Hlc Hrender Hsaved Hrecord mlh [Hlo Hhi] _.
  rewrite Zle_Qle in Hlo. rewrite Zlt_Qlt in Hhi. rewrite inject_Z_mult in Hlo, Hhi.
  unfold of_Z in Hpr |- *.
  set (pr := inject_Z pixelRatio_) in *. set (y := inject_Z offsetY) in *.
  pose proof (pitch_positive K (renderMinimap (_options this)) HK) as Hpitch.
  fold mlh in Hpitch.
  assert (Hpq : (0 < inject_Z mlh)%Q)
    by (change 0%Q with (inject_Z 0); rewrite <- Zlt_Qlt; exact Hpitch).
  destruct (render_Ok K env this this' renderingCtx Hon Hrender)
    as (s & e & buffers & image & needed & bufs & Hs & He & _ & _ & Hthis').
  fold mlh in Hthis'.
  rewrite Hlc in He. apply create_end_within in He.
  rewrite Hthis' in Hsaved. cbn [_lastRenderData] in Hsaved.
  injection Hsaved as <-. cbn [_renderedLines lines rendLineNumberStart _set] in *.
  rewrite render_rows_records in Hrecord by reflexivity. cbn [app] in Hrecord.
  apply list_lookup_fmap_Some in Hrecord. destruct Hrecord as (i & -> & Hi).
  apply lookup_seq in Hi. destruct Hi as [-> Hk]. cbn [dy plus] in Hlo, Hhi.
  rewrite Z.add_0_l in Hlo, Hhi.
  assert (Hindex : Qfloor (pr * y / inject_Z mlh) = Z.of_nat k).
  { assert (H1 : (inject_Z (Z.of_nat k) <= pr * y / inject_Z mlh)%Q).
    { apply Qle_shift_div_l; [exact Hpq|]. rewrite <- inject_Z_mult. exact Hlo. }
    assert (H2 : (pr * y / inject_Z mlh < inject_Z (Z.of_nat k + 1))%Q).
    { apply Qlt_shift_div_r; [exact Hpq|]. rewrite <- inject_Z_mult.
      replace ((Z.of_nat k + 1) * mlh)%Z with (Z.of_nat k * mlh + mlh)%Z by lia.
      exact Hhi. }
    apply Qfloor_resp_le in H1. rewrite Qfloor_Z in H1.
    pose proof (Qfloor_le (pr * y / inject_Z mlh)) as H3.
    assert (H4 : (inject_Z (Qfloor (pr * y / inject_Z mlh))
                  < inject_Z (Z.of_nat k + 1))%Q) by (eapply Qle_lt_trans; eauto).
    rewrite <- Zlt_Qlt in H4. lia. }
  destruct (integer_Fin _ _ Hs) as (qs & Hqs & Hqsz).
  unfold canvasMouseDown. rewrite Hthis'. cbn [_options _lastRenderData renderedLayout].
  fold mlh. rewrite Hpr, Hqs, Hlc.
  assert (Hline : (floor (Fin pr * Fin y / of_Z mlh) + Fin qs)%num
                  = Fin (inject_Z (Z.of_nat k) + qs)).
  { unfold of_Z at 1. cbn [mul]. rewrite div_Fin by lra. cbn [floor].
    rewrite Hindex. reflexivity. }
  assert (Hresult : integer (min (floor (Fin pr * Fin y / of_Z mlh) + Fin qs)%num
                               (of_Z lc))
                    = Ok (s + Z.of_nat k)%Z).
  { rewrite Hline.
    rewrite (min_integer_l _ (Z.of_nat k + s) lc)
      by (rewrite Hqsz, inject_Z_plus; reflexivity).
    f_equal. lia. }
  destruct (renderMinimap (_options this)); [contradiction|..];
    (eexists; split; [reflexivity | exact Hresult]).
Qed.

Lemma narrow_configuration_regular : regular narrow_configuration.
Proof.
  exists 1%Q, 3%Q, 8%Q. repeat split; try reflexivity; vm_compute; congruence.
Qed.

Lemma sample_env_paints_in_place (lineCount : Z) : paints_in_place (sample_env lineCount).
Proof. intros img call. simpl. apply length_insert. Qed.

Lemma fresh_narrow_reachable : reachable sample_cells (fresh narrow_minimap).
Proof. apply (reachable_fresh sample_cells narrow_configuration narrow_configuration_regular). Qed.

(** The first frame of the 10 line document in the narrow minimap. *)
Lemma reachable_render_completes_witness :
  (exists WIDTH HEIGHT : Z, coherent sample_cells (fresh narrow_minimap) WIDTH HEIGHT)
  /\ render sample_cells (sample_env 10) (fresh narrow_minimap) at_top <> Throw RangeError
  /\ exists this',
       render sample_cells (sample_env 10) (fresh narrow_minimap) at_top = Ok this'
       /\ reachable sample_cells this'.
Proof.
  destruct (reachable_render_completes sample_cells (sample_env 10)
              (fresh narrow_minimap) at_top)
    as (Hcoherent & Hsafe & Hcompletes).
  - unfold positive_cells. simpl. lia.
  - exact fresh_narrow_reachable.
  - apply sample_env_paints_in_place.
  - split; [exact Hcoherent|]. split; [exact Hsafe|].
    apply (Hcompletes 1 4); reflexivity.
Defined.

(** A flush after the first frame of the 10 line document, then the frame
    for the view scrolled by 8 pixels. *)
Lemma render_after_invalidating_event_witness :
  exists (lastRenderData : RenderData) (buffers : MinimapBuffers),
    render sample_cells (sample_env 10) (snd (handleEvent ViewFlushedEvent after_first_frame))
      scrolled = Ok frame_after_flush
    /\ fst (handleEvent ViewFlushedEvent after_first_frame) = true
    /\ _lastRenderData frame_after_flush = Some lastRenderData
    /\ _buffers_ frame_after_flush = Some buffers
    /\ let lineInfo :=
         getMinimapLinesRenderingData (sample_env 10) 2 5 [true; true; true; true] in
       let image := deref (_buffers buffers) (_imageData lastRenderData) in
       data image
       = foldl (fun pixels lineIndex =>
                  foldl (fun d call => paint (sample_env 10) (with_data image d) call) pixels
                    (_renderLine sample_cells (width image) black false Small
                       (getColor (sample_env 10)) (lineIndex * 2)
                       (lineInfo_tabSize lineInfo)
                       (lineInfo_data lineInfo lineIndex)))
           (_backgroundFillData buffers) [0; 1; 2; 3].
Proof.
  assert (Hrender : render sample_cells (sample_env 10)
                      (snd (handleEvent ViewFlushedEvent after_first_frame)) scrolled
                    = Ok frame_after_flush) by (vm_compute; reflexivity).
  destruct (render_after_invalidating_event sample_cells (sample_env 10)
              ViewFlushedEvent after_first_frame frame_after_flush scrolled)
    as (Hasks & rd & buffers & s & e & Hsaved & Hbuffers & Hs & He & Himage).
  - unfold positive_cells. simpl. lia.
  - apply (reachable_render sample_cells (sample_env 10) at_top (fresh narrow_minimap)).
    + exact fresh_narrow_reachable.
    + apply sample_env_paints_in_place.
    + vm_compute. reflexivity.
  - intros configuration Hconfiguration. discriminate.
  - exact I.
  - discriminate.
  - exact Hrender.
  - exists rd, buffers. split; [exact Hrender|]. split; [exact Hasks|].
    split; [exact Hsaved|]. split; [exact Hbuffers|].
    vm_compute in Hsaved. injection Hsaved as <-.
    vm_compute in Hs, He. injection Hs as <-. injection He as <-.
    exact Himage.
Defined.

(** The first frame of the 10 line document, drawn twice. *)
Lemma render_same_frame_again_witness :
  exists (this2 : Minimap) (second : RenderData) (saved buffers : MinimapBuffers),
    render sample_cells (sample_env 10) after_first_frame at_top = Ok this2
    /\ _buffers_ after_first_frame = Some saved
    /\ _lastRenderData this2 = Some second /\ _buffers_ this2 = Some buffers
    /\ _imageData second <> _imageData first_frame_data
    /\ _renderedLines second = _renderedLines first_frame_data
    /\ forall lineIndex : Z, 0 <= lineIndex < 4 ->
         subarray (data (deref (_buffers buffers) (_imageData second)))
           (lineIndex * 2 * width (deref (_buffers buffers) (_imageData second)) * 4)
           ((lineIndex * 2 + 2) * width (deref (_buffers buffers) (_imageData second)) * 4)
         = subarray (data (deref (_buffers saved) (_imageData first_frame_data)))
             (lineIndex * 2 * width (deref (_buffers buffers) (_imageData second)) * 4)
             ((lineIndex * 2 + 2) * width (deref (_buffers buffers) (_imageData second)) * 4).
Proof.
  destruct (render_same_frame_again sample_cells (sample_env 10)
              (fresh narrow_minimap) after_first_frame at_top)
    as (this2 & first & second & saved & buffers & s & e & bufs & Hrender & Hfirst
        & Hsaved & Hsecond & Hbuffers & Hs & He & Hother & _ & Hrecords & _ & _ & Hrows).
  - unfold positive_cells. simpl. lia.
  - exact fresh_narrow_reachable.
  - apply sample_env_paints_in_place.
  - discriminate.
  - vm_compute. reflexivity.
  - assert (Hfirst' : first = first_frame_data).
    { assert (H : _lastRenderData after_first_frame = Some first_frame_data)
        by reflexivity.
      congruence. }
    subst first. vm_compute in Hs, He. injection Hs as <-. injection He as <-.
    exists this2, second, saved, buffers.
    split; [exact Hrender|]. split; [exact Hsaved|]. split; [exact Hsecond|].
    split; [exact Hbuffers|]. split; [exact Hother|]. split; [exact Hrecords|].
    exact Hrows.
Defined.

(** A press 5 pixels down the canvas after the first frame of the 10 line
    document: the third row, so line 3. *)
Lemma canvasMouseDown_reveals_row_line_witness :
  exists lineNumber : number,
    canvasMouseDown sample_cells (sample_env 10) after_first_frame (of_Z 5)
    = Some lineNumber
    /\ integer lineNumber = Ok 3.
Proof.
  apply (canvasMouseDown_reveals_row_line sample_cells (sample_env 10)
           (fresh narrow_minimap) after_first_frame at_top first_frame_data
           2%nat (new_MinimapLine 4) 1 5 10);
    try reflexivity; try (unfold positive_cells; simpl; lia); try discriminate.
Defined.

(** The second frame of the 10 line document is drawn into the buffer 0,
    the first frame's image being in the buffer 1. *)
Lemma next_frame_draws_other_buffer_witness :
  exists (lastRenderData : RenderData) (saved : MinimapBuffers),
    _lastRenderData after_first_frame = Some lastRenderData
    /\ _buffers_ after_first_frame = Some saved
    /\ snd second_frame_buffers <> _imageData lastRenderData
    /\ deref (_buffers (fst second_frame_buffers)) (_imageData lastRenderData)
       = deref (_buffers saved) (_imageData lastRenderData).
Proof.
  apply (next_frame_draws_other_buffer sample_cells (sample_env 10)
           (fresh narrow_minimap) after_first_frame at_top
           (fst second_frame_buffers) (snd second_frame_buffers));
    [discriminate | vm_compute; reflexivity | reflexivity].
Defined.

(** ** Reuse is transparent *)

Lemma call_at_dy (dy : Z) (call : DrawCall) :
  call_dx (at_dy dy call) = call_dx call /\ call_dy (at_dy dy call) = dy.
Proof. destruct call; split; reflexivity. Qed.

Lemma at_dy_same (call : DrawCall) : at_dy (call_dy call) call = call.
Proof. destruct call; reflexivity. Qed.

Section AtDy.

Variable K : Constants.
Variable target_width : Z.
Variable backgroundColor : RGBA.
Variable useLighterFont : bool.
Variable renderMinimap : RenderMinimap.
Variable tabSize : Z.
Variable content_ : list Z.
Variable dy : Z.

Let lift (c : LineCursor) : LineCursor :=
  {| dx := dx c; charIndex := charIndex c; tabsCharDelta := tabsCharDelta c;
     calls := map (at_dy dy) (calls c) |}.

Let lift_flow (f : Flow) : Flow :=
  match f with Running c => Running (lift c) | Returned c => Returned (lift c) end.

Lemma render_char_at_dy (tokenColor : RGBA) (c : LineCursor) :
  render_char K target_width backgroundColor useLighterFont renderMinimap
    dy tabSize content_ tokenColor (lift c)
  = lift_flow (render_char K target_width backgroundColor useLighterFont renderMinimap
                 0 tabSize content_ tokenColor c).
Proof.
  unfold render_char, lift_flow, lift. cbn [dx charIndex tabsCharDelta calls].
  destruct (dx c >? _); [reflexivity|].
  repeat case_decide; cbn [dx charIndex tabsCharDelta calls]; try reflexivity.
  rewrite map_app. cbn [map]. do 3 f_equal.
  unfold draw_char. destruct renderMinimap; reflexivity.
Qed.

Lemma render_chars_at_dy (tokenColor : RGBA) (n : nat) (c : LineCursor) :
  render_chars K target_width backgroundColor useLighterFont renderMinimap
    dy tabSize content_ tokenColor n (lift c)
  = lift_flow (render_chars K target_width backgroundColor useLighterFont renderMinimap
                 0 tabSize content_ tokenColor n c).
Proof.
  revert c. induction n as [|n IH]; intros c; [reflexivity|].
  cbn [render_chars]. rewrite render_char_at_dy.
  destruct (render_char _ _ _ _ _ 0 _ _ _ c) as [c' | c']; cbn [lift_flow].
  - apply IH.
  - reflexivity.
Qed.

Lemma render_tokens_at_dy (getColor : ColorId -> RGBA) (tokens : list ViewLineToken)
    (c : LineCursor) :
  render_tokens K target_width backgroundColor useLighterFont renderMinimap
    dy tabSize content_ getColor tokens (lift c)
  = lift_flow (render_tokens K target_width backgroundColor useLighterFont renderMinimap
                 0 tabSize content_ getColor tokens c).
Proof.
  revert c. induction tokens as [|token rest IH]; intros c; [reflexivity|].
  cbn [render_tokens].
  change (charIndex (lift c)) with (charIndex c). rewrite render_chars_at_dy.
  destruct (render_chars _ _ _ _ _ 0 _ _ _ _ c) as [c' | c']; cbn [lift_flow].
  - apply IH.
  - reflexivity.
Qed.

End AtDy.

(** The calls of a line at the vertical offset [dy] are its calls at the
    offset 0, moved. *)
Lemma _renderLine_at_dy (K : Constants) (target_width : Z) (backgroundColor : RGBA)
    (useLighterFont : bool) (renderMinimap : RenderMinimap)
    (getColor : ColorId -> RGBA) (dy tabSize : Z) (lineData : ViewLineData) :
  _renderLine K target_width backgroundColor useLighterFont renderMinimap
    getColor dy tabSize lineData
  = map (at_dy dy)
      (_renderLine K target_width backgroundColor useLighterFont renderMinimap
         getColor 0 tabSize lineData).
Proof.
  unfold _renderLine.
  pose proof (render_tokens_at_dy K target_width backgroundColor useLighterFont
                renderMinimap tabSize (content lineData) dy getColor (tokens lineData)
                {| dx := 0; charIndex := 0; tabsCharDelta := 0; calls := [] |}) as H.
  cbn [map dx charIndex tabsCharDelta calls] in H. rewrite H.
  destruct (render_tokens _ _ _ _ _ 0 _ _ _ _ _); reflexivity.
Qed.

(** The cells of the calls of a line lie within the target. *)
Lemma _renderLine_cells (K : Constants) (target_width : Z) (backgroundColor : RGBA)
    (useLighterFont : bool) (renderMinimap : RenderMinimap)
    (getColor : ColorId -> RGBA) (dy tabSize : Z) (lineData : ViewLineData) :
  positive_cells K ->
  0 < tabSize ->
  Forall (fun call =>
            0 <= call_dx call
            /\ call_dx call + getMinimapCharWidth K renderMinimap <= target_width)
    (_renderLine K target_width backgroundColor useLighterFont renderMinimap
       getColor dy tabSize lineData).
Proof.
  intros HK Htab.
  pose proof (charWidth_positive K renderMinimap HK) as Hcw.
  set (charWidth := getMinimapCharWidth K renderMinimap) in *.
  set (P := fun c : LineCursor =>
              0 <= dx c
              /\ Forall (fun call => 0 <= call_dx call
                                     /\ call_dx call + charWidth <= target_width)
                   (calls c)).
  assert (HP : P (cursor_of
                    (render_tokens K target_width backgroundColor useLighterFont
                       renderMinimap dy tabSize (content lineData) getColor
                       (tokens lineData)
                       {| dx := 0; charIndex := 0; tabsCharDelta := 0; calls := [] |}))).
  { apply render_tokens_invariant.
    - intros token c _ (Hdx & Hall).
      destruct (render_char_cases K target_width backgroundColor useLighterFont
                  renderMinimap dy tabSize (content lineData)
                  (getColor (getForeground token)) c)
        as [[_ ->] | [(_ & _ & ->) | [(_ & _ & ->) | (Hroom & _ & _ & ->)]]];
        unfold P; simpl.
      + split; assumption.
      + pose proof (tab_advance tabSize (column c) Htab) as Hadv.
        fold charWidth. split; [nia | exact Hall].
      + fold charWidth. split; [lia | exact Hall].
      + fold charWidth in Hroom |- *. split; [lia|].
        apply Forall_app. split; [exact Hall|]. constructor; [|constructor].
        destruct (draw_char_arguments backgroundColor useLighterFont renderMinimap dy
                    (dx c) (charCodeAt (content lineData) (charIndex c))
                    (getColor (getForeground token))) as (-> & _). lia.
    - unfold P. simpl. split; [lia | constructor]. }
  exact (proj2 HP).
Qed.

Lemma band_length (WIDTH h : Z) (d : Uint8ClampedArray) (dy : Z) :
  0 <= WIDTH -> 0 <= h -> 0 <= dy ->
  (dy + h) * WIDTH * 4 <= Z.of_nat (length d) ->
  Z.of_nat (length (band WIDTH h d dy)) = h * WIDTH * 4.
Proof.
  intros HW Hh Hdy Hlen. unfold band. rewrite subarray_length; nia.
Qed.

Lemma band_byte_at (WIDTH h : Z) (d : Uint8ClampedArray) (dy j : Z) :
  0 <= WIDTH -> 0 <= h -> 0 <= dy ->
  (dy + h) * WIDTH * 4 <= Z.of_nat (length d) ->
  0 <= j < h * WIDTH * 4 ->
  byte_at (band WIDTH h d dy) j = byte_at d (dy * WIDTH * 4 + j).
Proof.
  intros HW Hh Hdy Hlen Hj. unfold band. apply subarray_byte_at; nia.
Qed.

Lemma band_ext (WIDTH h : Z) (d1 d2 : Uint8ClampedArray) (dy1 dy2 : Z) :
  0 <= WIDTH -> 0 <= h ->
  0 <= dy1 -> (dy1 + h) * WIDTH * 4 <= Z.of_nat (length d1) ->
  0 <= dy2 -> (dy2 + h) * WIDTH * 4 <= Z.of_nat (length d2) ->
  (forall j, 0 <= j < h * WIDTH * 4 ->
     byte_at d1 (dy1 * WIDTH * 4 + j) = byte_at d2 (dy2 * WIDTH * 4 + j)) ->
  band WIDTH h d1 dy1 = band WIDTH h d2 dy2.
Proof.
  intros HW Hh Hdy1 Hlen1 Hdy2 Hlen2 Hbytes. unfold band.
  apply subarray_ext; try nia.
  intros j Hj. apply Hbytes. nia.
Qed.

Lemma band_bytes (WIDTH h : Z) (d1 d2 : Uint8ClampedArray) (dy1 dy2 : Z) :
  0 <= WIDTH -> 0 <= h ->
  0 <= dy1 -> (dy1 + h) * WIDTH * 4 <= Z.of_nat (length d1) ->
  0 <= dy2 -> (dy2 + h) * WIDTH * 4 <= Z.of_nat (length d2) ->
  band WIDTH h d1 dy1 = band WIDTH h d2 dy2 ->
  forall j, 0 <= j < h * WIDTH * 4 ->
    byte_at d1 (dy1 * WIDTH * 4 + j) = byte_at d2 (dy2 * WIDTH * 4 + j).
Proof.
  intros HW Hh Hdy1 Hlen1 Hdy2 Hlen2 Hband j Hj.
  rewrite <- (band_byte_at WIDTH h d1 dy1 j) by assumption.
  rewrite <- (band_byte_at WIDTH h d2 dy2 j) by assumption.
  rewrite Hband. reflexivity.
Qed.

(** The first band of pixel data that is one band long is all of it. *)
Lemma band_whole (WIDTH h : Z) (d : Uint8ClampedArray) :
  0 <= WIDTH -> 0 <= h ->
  Z.of_nat (length d) = h * WIDTH * 4 ->
  band WIDTH h d 0 = d.
Proof.
  intros HW Hh Hlen. apply byte_at_ext. intros x.
  destruct (Z_lt_dec x 0) as [Hneg | Hpos].
  { rewrite !byte_at_outside by lia. reflexivity. }
  destruct (Z_lt_dec x (h * WIDTH * 4)) as [Hin | Hout].
  - rewrite band_byte_at by lia. reflexivity.
  - rewrite (byte_at_outside d) by lia.
    apply byte_at_outside. rewrite band_length by lia. lia.
Qed.

Lemma fill_pixels_byte_at (n : nat) (background : RGBA) (x : Z) :
  0 <= x < 4 * Z.of_nat n ->
  byte_at (fill_pixels n background) x
  = byte_at (fill_pixels 1 background) (x mod 4).
Proof.
  intros Hx.
  pose proof (Z.div_mod x 4 ltac:(lia)) as Hdm.
  pose proof (Z.mod_pos_bound x 4 ltac:(lia)) as Hm.
  destruct (fill_pixels_lookup n background (Z.to_nat (x / 4)) ltac:(lia))
    as (H0 & H1 & H2 & H3).
  unfold byte_at.
  destruct (Z.ltb_spec x 0); [lia|]. destruct (Z.ltb_spec (x mod 4) 0); [lia|].
  assert (Hcases : x mod 4 = 0 \/ x mod 4 = 1 \/ x mod 4 = 2 \/ x mod 4 = 3) by lia.
  destruct Hcases as [E | [E | [E | E]]]; rewrite E; simpl.
  - replace (Z.to_nat x) with (4 * Z.to_nat (x / 4))%nat by lia. exact H0.
  - replace (Z.to_nat x) with (4 * Z.to_nat (x / 4) + 1)%nat by lia. exact H1.
  - replace (Z.to_nat x) with (4 * Z.to_nat (x / 4) + 2)%nat by lia. exact H2.
  - replace (Z.to_nat x) with (4 * Z.to_nat (x / 4) + 3)%nat by lia. exact H3.
Qed.

(** Every band of the background fill is as the first. *)
Lemma fill_band (WIDTH HEIGHT h : Z) (background : RGBA) (dy : Z) :
  0 <= WIDTH -> 0 <= h -> 0 <= dy -> dy + h <= HEIGHT ->
  band WIDTH h (_createBackgroundFillData WIDTH HEIGHT background) dy
  = band WIDTH h (_createBackgroundFillData WIDTH HEIGHT background) 0.
Proof.
  intros HW Hh Hdy Hfit.
  assert (Hlen : Z.of_nat (length (_createBackgroundFillData WIDTH HEIGHT background))
                 = WIDTH * HEIGHT * 4).
  { unfold _createBackgroundFillData. rewrite fill_pixels_length. nia. }
  apply band_ext; try lia; try nia.
  intros j Hj. unfold _createBackgroundFillData.
  rewrite (fill_pixels_byte_at _ _ (dy * WIDTH * 4 + j)) by nia.
  rewrite (fill_pixels_byte_at _ _ (0 * WIDTH * 4 + j)) by nia.
  replace (dy * WIDTH * 4 + j) with (j + (dy * WIDTH) * 4) by lia.
  rewrite Z_mod_plus_full. reflexivity.
Qed.

Lemma getBuffer_fill (this this' : MinimapBuffers) (i : Slot) :
  getBuffer this = Ok (this', i) ->
  _backgroundFillData this' = _backgroundFillData this.
Proof.
  unfold getBuffer. cbv zeta.
  destruct (set _ _ 0) as [d | err]; simpl; [|discriminate].
  intros E. injection E as <- _. reflexivity.
Qed.

Lemma getBuffer_height (this this' : MinimapBuffers) (i : Slot) :
  getBuffer this = Ok (this', i) ->
  forall j, height (deref (_buffers this') j) = height (deref (_buffers this) j).
Proof.
  unfold getBuffer. cbv zeta.
  destruct (set _ _ 0) as [d | err]; simpl; [|discriminate].
  intros E. injection E as <- _. intros j. simpl.
  destruct (_lastUsedBuffer this), j; reflexivity.
Qed.

Lemma flush_height (bufs bufs' : Buffers) (target last : Slot) (cs ce cd : Z) :
  flush bufs target last cs ce cd = Ok bufs' ->
  forall i, height (deref bufs' i) = height (deref bufs i).
Proof.
  unfold flush. intros H. apply bind_Ok in H. destruct H as (d & _ & [= <-]).
  intros i. destruct target, i; reflexivity.
Qed.

(** Copying the rows of the saved frame leaves the heights of the two
    images alone. *)
Lemma _renderUntouchedLines_height (bufs bufs' : Buffers) (target : Slot)
    (startLineNumber endLineNumber minimapLineHeight : Z)
    (lastRenderData : option RenderData) (needed : list bool) :
  _renderUntouchedLines bufs target startLineNumber endLineNumber
    minimapLineHeight lastRenderData = Ok (needed, bufs') ->
  forall i, height (deref bufs' i) = height (deref bufs i).
Proof.
  unfold _renderUntouchedLines. destruct lastRenderData as [rd|].
  2:{ intros [= _ <-]. reflexivity. }
  set (last := _imageData rd).
  set (lastStart := rendLineNumberStart (_renderedLines rd)).
  set (lastLines := lines (_renderedLines rd)).
  set (WIDTH := width (deref bufs target)).
  assert (Hflush : forall (s : Untouched) b,
            (if negb (copySourceStart s =? -1)
             then flush (store s) target last (copySourceStart s)
                    (copySourceEnd s) (copyDestStart s)
             else Ok (store s)) = Ok b ->
            forall i, height (deref b i) = height (deref (store s) i)).
  { intros s b Hb. destruct (negb _).
    - eapply flush_height, Hb.
    - injection Hb as <-. reflexivity. }
  assert (Hstep : forall lineNumber s s',
            untouched_line target last WIDTH startLineNumber minimapLineHeight
              lastStart lastLines lineNumber s = Ok s' ->
            forall i, height (deref (store s') i) = height (deref (store s) i)).
  { intros lineNumber s s'. unfold untouched_line.
    destruct (_ =? -1); [intros [= <-]; reflexivity|].
    destruct (_ && _); [intros [= <-]; reflexivity|].
    intros H. apply bind_Ok in H. destruct H as (b & Hb & [= <-]). simpl.
    eapply Hflush, Hb. }
  assert (Hloop : forall n lineNumber s s',
            untouched_lines target last WIDTH startLineNumber minimapLineHeight
              lastStart lastLines n lineNumber s = Ok s' ->
            forall i, height (deref (store s') i) = height (deref (store s) i)).
  { induction n as [|n IH]; intros lineNumber s s'; simpl.
    - intros [= <-]. reflexivity.
    - intros H. apply bind_Ok in H. destruct H as (s1 & H1 & H2).
      intros i. rewrite (IH _ _ _ H2 i). eapply Hstep, H1. }
  intros H. apply bind_Ok in H. destruct H as (s & Hs & H).
  apply bind_Ok in H. destruct H as (b & Hb & [= _ <-]).
  intros i. rewrite (Hflush _ _ Hb i). apply (Hloop _ _ _ _ Hs i).
Qed.

(** The buffer a frame is handed belongs to buffers made for the canvas. *)
Lemma _getBuffer_canvas (K : Constants) (env : Env) (this : Minimap)
    (WIDTH HEIGHT : Z) (buffers : MinimapBuffers) (i : Slot) :
  coherent K this WIDTH HEIGHT ->
  canvas_buffers this WIDTH HEIGHT ->
  _getBuffer env this = Ok (buffers, i) ->
  (forall j, height (deref (_buffers buffers) j) = HEIGHT)
  /\ exists background : RGBA,
       _backgroundFillData buffers = _createBackgroundFillData WIDTH HEIGHT background.
Proof.
  intros (HW & HH & _) Hcanvas Hbuffer. unfold _getBuffer in Hbuffer.
  destruct (_buffers_ this) as [saved|] eqn:Hsaved.
  - simpl in Hbuffer. destruct (Hcanvas saved Hsaved) as (Hheights & bg & Hbg).
    split.
    + intros j. rewrite (getBuffer_height _ _ _ Hbuffer j). apply Hheights.
    + exists bg. rewrite (getBuffer_fill _ _ _ Hbuffer). exact Hbg.
  - rewrite HW, HH in Hbuffer. simpl in Hbuffer. split.
    + intros j. rewrite (getBuffer_height _ _ _ Hbuffer j). destruct j; reflexivity.
    + eexists. rewrite (getBuffer_fill _ _ _ Hbuffer). reflexivity.
Qed.

Lemma line_dy_record (lastLines : list MinimapLine) (idx : Z) :
  line_dy lastLines idx <> -1 ->
  0 <= idx
  /\ exists record, lastLines !! Z.to_nat idx = Some record
                    /\ dy record = line_dy lastLines idx.
Proof.
  unfold line_dy.
  destruct (Z.leb_spec 0 idx); simpl; [|congruence].
  destruct (Z.ltb_spec idx (Z.of_nat (length lastLines))); [|congruence].
  intros _. split; [assumption|].
  destruct (lookup_lt_is_Some_2 lastLines (Z.to_nat idx) ltac:(lia)) as [record Hrecord].
  exists record. rewrite Hrecord. split; reflexivity.
Qed.

Section Bands.

Variable K : Constants.
Variable env : Env.
Variable renderMinimap : RenderMinimap.
Hypothesis HK : positive_cells K.
Hypothesis Hlocal : row_local K env renderMinimap.

Local Notation "'minimapLineHeight'" := (getMinimapLineHeight K renderMinimap).
Local Notation "'charWidth'" := (getMinimapCharWidth K renderMinimap).
Local Notation "'draw' w h" :=
  (fun d call => paint env {| width := w; height := h; data := d |} call)
  (at level 10, w at level 9, h at level 9).

Lemma draw_length (w h : Z) (calls : list DrawCall) (d : Uint8ClampedArray) :
  length (foldl (draw w h) d calls) = length d.
Proof using Hlocal.
  revert d. induction calls as [|call rest IH]; intros d; [reflexivity|].
  simpl. rewrite IH. apply (local_length _ _ _ Hlocal).
Qed.

(** The calls of a line leave the rows of another line alone. *)
Lemma draw_band_other (w h : Z) (calls : list DrawCall) (d : Uint8ClampedArray)
    (line_dy other_dy : Z) :
  0 <= w ->
  Forall (fun call => 0 <= call_dx call /\ call_dx call + charWidth <= w
                      /\ call_dy call = line_dy) calls ->
  Z.of_nat (length d) = w * h * 4 ->
  0 <= line_dy -> line_dy + minimapLineHeight <= h ->
  0 <= other_dy -> other_dy + minimapLineHeight <= h ->
  other_dy + minimapLineHeight <= line_dy \/ line_dy + minimapLineHeight <= other_dy ->
  band w minimapLineHeight (foldl (draw w h) d calls) other_dy
  = band w minimapLineHeight d other_dy.
Proof using HK Hlocal.
  intros Hw Hcalls Hsize Hline Hlinefit Hother Hotherfit Hapart.
  pose proof (pitch_positive K renderMinimap HK) as Hpitch.
  revert d Hsize.
  induction Hcalls as [|call rest (Hdx0 & Hdx1 & Hdy) _ IH]; intros d Hsize;
    [reflexivity|].
  simpl.
  pose proof (local_length _ _ _ Hlocal {| width := w; height := h; data := d |} call)
    as Hlen. cbn [data] in Hlen.
  rewrite IH by (rewrite Hlen; assumption).
  apply band_ext; try lia; try (rewrite ?Hlen, Hsize; nia).
  intros j Hj.
  apply (local_outside _ _ _ Hlocal {| width := w; height := h; data := d |} call).
  - unfold cell_within. cbn [width height data]. rewrite Hdy. repeat split; assumption.
  - cbn [width]. rewrite Hdy. nia.
Qed.

(** What the calls of a line leave in its rows depends on what the rows
    held, not on where they are. *)
Lemma draw_band_self (w h1 h2 : Z) (calls : list DrawCall) (d1 d2 : Uint8ClampedArray)
    (dy1 dy2 : Z) :
  0 <= w ->
  Forall (fun call => 0 <= call_dx call /\ call_dx call + charWidth <= w) calls ->
  Z.of_nat (length d1) = w * h1 * 4 -> 0 <= dy1 -> dy1 + minimapLineHeight <= h1 ->
  Z.of_nat (length d2) = w * h2 * 4 -> 0 <= dy2 -> dy2 + minimapLineHeight <= h2 ->
  band w minimapLineHeight d1 dy1 = band w minimapLineHeight d2 dy2 ->
  band w minimapLineHeight (foldl (draw w h1) d1 (map (at_dy dy1) calls)) dy1
  = band w minimapLineHeight (foldl (draw w h2) d2 (map (at_dy dy2) calls)) dy2.
Proof using Hlocal.
  intros Hw Hcalls Hlen1 Hdy1 Hfit1 Hlen2 Hdy2 Hfit2.
  revert d1 d2 Hlen1 Hlen2.
  induction Hcalls as [|call rest (Hdx0 & Hdx1) _ IH]; intros d1 d2 Hlen1 Hlen2 Hband;
    [exact Hband|].
  simpl.
  pose proof (local_length _ _ _ Hlocal {| width := w; height := h1; data := d1 |}
                (at_dy dy1 call)) as Hl1.
  pose proof (local_length _ _ _ Hlocal {| width := w; height := h2; data := d2 |}
                (at_dy dy2 call)) as Hl2.
  cbn [data] in Hl1, Hl2.
  apply IH; try (rewrite ?Hl1, ?Hl2; assumption).
  destruct (call_at_dy dy1 call) as [Ex1 Ey1].
  destruct (call_at_dy dy2 call) as [Ex2 Ey2].
  apply (local_band _ _ _ Hlocal {| width := w; height := h1; data := d1 |}
           {| width := w; height := h2; data := d2 |} call dy1 dy2).
  - reflexivity.
  - unfold cell_within. cbn [width height data]. rewrite Ex1, Ey1.
    repeat split; assumption.
  - unfold cell_within. cbn [width height data]. rewrite Ex2, Ey2.
    repeat split; assumption.
  - exact Hband.
Qed.

End Bands.

Section RowBands.

Variable K : Constants.
Variable env : Env.
Variable target : ImageData.
Variable background : RGBA.
Variable useLighterFont : bool.
Variable renderMinimap : RenderMinimap.
Variable tabSize : Z.
Variable needed : list bool.
Variable lineData : Z -> ViewLineData.
Variable count : Z.

Hypothesis HK : positive_cells K.
Hypothesis Hlocal : row_local K env renderMinimap.
Hypothesis Htab : 0 < tabSize.
Hypothesis Hwidth : 0 <= width target.
Hypothesis Hfit : count * getMinimapLineHeight K renderMinimap <= height target.

Local Notation "'minimapLineHeight'" := (getMinimapLineHeight K renderMinimap).
Local Notation "'row'" :=
  (fun d k => render_row K env target background useLighterFont renderMinimap
                tabSize needed lineData k (k * minimapLineHeight) d).

Lemma render_row_length (k dy : Z) (pixels : Uint8ClampedArray) :
  length (render_row K env target background useLighterFont renderMinimap
            tabSize needed lineData k dy pixels)
  = length pixels.
Proof using Hlocal.
  unfold render_row. destruct (truthy_at needed k); [|reflexivity].
  apply (draw_length K env renderMinimap Hlocal (width target) (height target)).
Qed.

(** Rasterizing a row leaves the rows of the other lines alone. *)
Lemma render_row_other (j k : Z) (d : Uint8ClampedArray) :
  j <> k -> 0 <= j < count -> 0 <= k < count ->
  Z.of_nat (length d) = width target * height target * 4 ->
  band (width target) minimapLineHeight (row d j) (k * minimapLineHeight)
  = band (width target) minimapLineHeight d (k * minimapLineHeight).
Proof using HK Hlocal Htab Hwidth Hfit.
  intros Hjk Hj Hk Hlen.
  pose proof (pitch_positive K renderMinimap HK) as Hpitch.
  unfold render_row. destruct (truthy_at needed j); [|reflexivity].
  apply (draw_band_other K env renderMinimap HK Hlocal (width target) (height target)
           _ d (j * minimapLineHeight) (k * minimapLineHeight)); try nia.
  pose proof (_renderLine_cells K (width target) background useLighterFont renderMinimap
                (getColor env) (j * minimapLineHeight) tabSize (lineData j) HK Htab)
    as Hcells.
  pose proof (_renderLine_dy K (width target) background useLighterFont renderMinimap
                (getColor env) (j * minimapLineHeight) tabSize (lineData j)) as Hdy.
  rewrite Forall_forall in Hcells, Hdy. rewrite Forall_forall.
  intros call Hcall. destruct (Hcells call Hcall) as [H0 H1].
  split; [exact H0|]. split; [exact H1|]. apply Hdy, Hcall.
Qed.

(** What rasterizing a row leaves in its rows depends on what they held. *)
Lemma render_row_self (k : Z) (d1 d2 : Uint8ClampedArray) :
  0 <= k < count ->
  Z.of_nat (length d1) = width target * height target * 4 ->
  Z.of_nat (length d2) = width target * height target * 4 ->
  band (width target) minimapLineHeight d1 (k * minimapLineHeight)
  = band (width target) minimapLineHeight d2 (k * minimapLineHeight) ->
  band (width target) minimapLineHeight (row d1 k) (k * minimapLineHeight)
  = band (width target) minimapLineHeight (row d2 k) (k * minimapLineHeight).
Proof using HK Hlocal Htab Hwidth Hfit.
  intros Hk Hlen1 Hlen2 Hband.
  pose proof (pitch_positive K renderMinimap HK) as Hpitch.
  unfold render_row. destruct (truthy_at needed k); [|exact Hband].
  rewrite _renderLine_at_dy.
  apply (draw_band_self K env renderMinimap Hlocal (width target) (height target)
           (height target)); try nia; [|exact Hband].
  apply _renderLine_cells; assumption.
Qed.

(** After the loop over the rows, the rows of a line are as its own
    iteration would leave them. *)
Lemma render_rows_band (l : list Z) (d : Uint8ClampedArray) (k : Z) :
  NoDup l -> (forall j, j ∈ l -> 0 <= j < count) -> 0 <= k < count ->
  Z.of_nat (length d) = width target * height target * 4 ->
  band (width target) minimapLineHeight (foldl row d l) (k * minimapLineHeight)
  = if decide (k ∈ l)
    then band (width target) minimapLineHeight (row d k) (k * minimapLineHeight)
    else band (width target) minimapLineHeight d (k * minimapLineHeight).
Proof using HK Hlocal Htab Hwidth Hfit.
  intros Hnodup Hl Hk. revert d.
  induction l as [|j l IH]; intros d Hlen.
  { simpl. destruct (decide (k ∈ [])) as [Hin | _]; [|reflexivity].
    apply elem_of_nil in Hin. destruct Hin. }
  apply NoDup_cons in Hnodup as [Hfresh Hnodup].
  assert (Hj : 0 <= j < count) by (apply Hl; left).
  assert (Hl' : forall j', j' ∈ l -> 0 <= j' < count)
    by (intros j' Hj'; apply Hl; right; exact Hj').
  cbn [foldl].
  rewrite (IH Hnodup Hl') by (rewrite render_row_length; exact Hlen).
  destruct (decide (k = j)) as [-> | Hkj].
  - destruct (decide (j ∈ l)) as [Hin | _]; [contradiction|].
    destruct (decide (j ∈ j :: l)) as [_ | Hout]; [reflexivity|].
    exfalso. apply Hout. left.
  - pose proof (render_row_other j k d ltac:(congruence) Hj Hk Hlen) as Hother.
    destruct (decide (k ∈ l)) as [Hin | Hout].
    + destruct (decide (k ∈ j :: l)) as [_ | Hout]; [|exfalso; apply Hout; right; exact Hin].
      apply render_row_self; [exact Hk | rewrite render_row_length; exact Hlen
                              | exact Hlen | exact Hother].
    + destruct (decide (k ∈ j :: l)) as [Hin | _]; [|exact Hother].
      apply elem_of_cons in Hin as [Hin | Hin]; [contradiction | contradiction].
Qed.

End RowBands.

(** X25.  Reuse is transparent.  Let the character renderer write within the rows
    of the line it is asked to draw, in a way that does not depend on where
    these rows are, and let the view model serve the document [doc].  When
    every row the saved frame records shows its line of [doc] as rasterized
    alone on the background, a frame that completes saves a frame of which
    the same holds, whichever rows it copied from the saved frame and
    whichever it rasterized. *)
Theorem render_shows_document (K : Constants) (env : Env) (doc : Z -> ViewLineData)
    (tabSize : Z) (this this' : Minimap) (renderingCtx : RestrictedRenderingContext)
    (WIDTH HEIGHT : Z) :
  positive_cells K ->
  renderMinimap (_options this) <> None_ ->
  0 < tabSize ->
  row_local K env (renderMinimap (_options this)) ->
  serves_document env doc tabSize ->
  coherent K this WIDTH HEIGHT ->
  canvas_buffers this WIDTH HEIGHT ->
  shows_document K env doc tabSize this ->
  render K env this renderingCtx = Ok this' ->
  coherent K this' WIDTH HEIGHT
  /\ canvas_buffers this' WIDTH HEIGHT
  /\ shows_document K env doc tabSize this'.
Proof.
  intros HK Hon Htab Hlocal Hserves Hcoherent Hfilled Hshows Hrender.
  pose proof (pitch_positive K (renderMinimap (_options this)) HK) as Hpitch.
  destruct (render_Ok K env this this' renderingCtx Hon Hrender)
    as (s & e & handed & image & needed & bufs & Hs & He & Hbuffer & Huntouched & Hthis').
  destruct (render_keeps_coherent K env this renderingCtx WIDTH HEIGHT s e HK Hon
              (local_length _ _ _ Hlocal) Hcoherent Hs He)
    as (this1 & Hrender1 & Hcoherent').
  rewrite Hrender in Hrender1. injection Hrender1 as <-.
  split; [exact Hcoherent'|]. clear Hcoherent'.
  pose proof (create_rows_fit K (_options this) _ _ _ _ _ _ _ _ _ _ _ HK Hs He
                (proj1 (proj2 Hcoherent))) as Hfit.
  destruct (_getBuffer_filled K env this WIDTH HEIGHT handed image Hcoherent Hbuffer)
    as (Hdata & Hsized & _).
  destruct (_getBuffer_canvas K env this WIDTH HEIGHT handed image Hcoherent Hfilled
              Hbuffer) as (Hheights & bg & Hfill).
  destruct Hcoherent as (_ & _ & HW0 & HH0 & Hstate).
  rewrite (Z.max_r 0 HEIGHT) in Hfit by exact HH0.
  set (mlh := getMinimapLineHeight K (renderMinimap (_options this))) in *.
  set (n := Z.to_nat (e - s + 1)) in *.
  replace (Z.max 0 (e - s + 1)) with (Z.of_nat n) in Hfit by (unfold n; lia).
  set (fill := _backgroundFillData handed) in *.
  assert (Hheights' : forall j, height (deref bufs j) = HEIGHT).
  { intros j. rewrite (_renderUntouchedLines_height _ _ _ _ _ _ _ _ Huntouched j).
    apply Hheights. }
  split.
  { intros buffers Hbuffers. rewrite Hthis' in Hbuffers. cbn [_buffers_] in Hbuffers.
    injection Hbuffers as <-. cbn [_buffers _backgroundFillData]. split.
    - intros j. destruct (slot_eq_dec image j) as [<- | Hother].
      + rewrite deref_assign_same. apply Hheights'.
      + rewrite deref_assign_other by exact Hother. apply Hheights'.
    - exists bg. exact Hfill. }
  (* the target after the rows of the saved frame were copied *)
  destruct Hsized as [Hfilllen Hsized]. fold fill in Hfilllen.
  destruct (Hsized image) as [Hwt Hlt].
  set (target := deref bufs image) in *.
  assert (Hhb : height target = HEIGHT) by apply Hheights'.
  assert (Hwb : width target = WIDTH).
  { unfold target.
    rewrite (_renderUntouchedLines_width _ _ _ _ _ _ _ _ Huntouched image). exact Hwt. }
  assert (Hrow : forall k : Z, 0 <= k < Z.of_nat n ->
            Z.of_nat (length (data target)) = WIDTH * HEIGHT * 4
            /\ ((truthy_at needed k = true
                 /\ band WIDTH mlh (data target) (k * mlh) = band WIDTH mlh fill (k * mlh))
                \/ (truthy_at needed k = false
                    /\ band WIDTH mlh (data target) (k * mlh)
                       = scratch_row K env (renderMinimap (_options this)) WIDTH fill
                           tabSize (doc (s + k))))).
  { unfold shows_document in Hshows.
    destruct (_lastRenderData this) as [last|] eqn:Hlast.
    - (* a frame is saved *)
      destruct (_buffers_ this) as [saved|] eqn:Hsaved; [|discriminate].
      destruct Hstate as (Hsizedsaved & Href & Hwithin).
      unfold _getBuffer in Hbuffer. rewrite Hsaved in Hbuffer. simpl in Hbuffer.
      pose proof (getBuffer_rotates _ _ _ Hbuffer) as (Himage & _ & Hkept).
      pose proof (getBuffer_fill _ _ _ Hbuffer) as Hsamefill.
      rewrite <- Href in Himage, Hkept.
      assert (Hdistinct : image <> _imageData last)
        by (rewrite Himage; apply other_distinct).
      destruct (Hsized (_imageData last)) as [_ Hll].
      destruct (proj2 Hsizedsaved (_imageData last)) as [Hwsaved _].
      assert (Hpre1 : 0 <= width (deref (_buffers handed) image))
        by (rewrite Hwt; exact HW0).
      assert (Hpre2 : Forall (fun record =>
                dy record <> -1 ->
                0 <= dy record
                /\ (dy record + mlh) * width (deref (_buffers handed) image) * 4
                   <= Z.of_nat (length (data (deref (_buffers handed) (_imageData last)))))
                (lines (_renderedLines last))).
      { rewrite Hwt, Hll. eapply Forall_impl; [exact Hwithin|].
        intros record Hrecord Hvalid. destruct (Hrecord Hvalid) as [H0 H1].
        split; [exact H0|]. fold mlh in H1. nia. }
      assert (Hpre3 : (e - s + 1) * mlh * width (deref (_buffers handed) image) * 4
                      <= Z.of_nat (length (data (deref (_buffers handed) image))))
        by (rewrite Hwt, Hlt; unfold n in Hfit; nia).
      destruct (_renderUntouchedLines_run (_buffers handed) image s e mlh last
                  Hdistinct Hpitch Hpre1 Hpre2 Hpre3)
        as (needed1 & bufs1 & Hrun & _ & Hsize & _ & Hreused).
      rewrite Huntouched in Hrun. injection Hrun as <- <-.
      destruct (_renderUntouchedLines_leaves (_buffers handed) image s e mlh last
                  Hdistinct Hpitch Hpre1 Hpre2 Hpre3)
        as (needed2 & bufs2 & Hrun & _ & Hinvalid & Hleft).
      rewrite Huntouched in Hrun. injection Hrun as <- <-.
      rewrite Hwt in Hreused, Hleft.
      fold target in Hsize, Hreused, Hleft.
      replace (Z.max 0 (e - s + 1)) with (Z.of_nat n) in Hinvalid, Hleft
        by (unfold n; lia).
      intros k Hk.
      assert (Hlen : Z.of_nat (length (data target)) = WIDTH * HEIGHT * 4)
        by (rewrite Hsize; exact Hlt).
      split; [exact Hlen|].
      destruct (Z.eq_dec (line_dy (lines (_renderedLines last))
                            (s + k - rendLineNumberStart (_renderedLines last))) (-1))
        as [Hnone | Hsome].
      + left. split.
        * unfold truthy_at. destruct (Z.ltb_spec k 0); [lia|].
          rewrite (Hinvalid k Hk Hnone). reflexivity.
        * rewrite <- Hdata.
          apply band_ext; try lia; try nia.
          intros j Hj. apply Hleft. intros k' Hk' Hvalid Hin.
          assert (Hhere : in_row mlh WIDTH k (k * mlh * WIDTH * 4 + j))
            by (unfold in_row; nia).
          pose proof (rows_disjoint mlh WIDTH k' k _ Hpitch HW0 Hin Hhere) as ->.
          contradiction.
      + right.
        destruct (line_dy_record _ _ Hsome) as (Hidx & record & Hrecord & Hdy).
        assert (Hvalid : dy record <> -1) by (rewrite Hdy; exact Hsome).
        destruct (Hreused (s + k) record ltac:(unfold n in Hk; lia) ltac:(lia)
                    Hrecord Hvalid) as [Hflag Hbytes].
        replace (s + k - s) with k in Hflag, Hbytes by lia.
        split.
        * unfold truthy_at. destruct (Z.ltb_spec k 0); [lia|].
          rewrite Hflag. reflexivity.
        * unfold band. rewrite Hbytes. rewrite Hkept.
          specialize (Hshows (Z.to_nat (s + k - rendLineNumberStart (_renderedLines last)))
                        record Hrecord Hvalid).
          cbv zeta in Hshows. rewrite Hwsaved in Hshows. fold mlh in Hshows.
          unfold band in Hshows. rewrite Hshows.
          unfold fill. rewrite Hsamefill.
          replace (rendLineNumberStart (_renderedLines last)
                   + Z.of_nat (Z.to_nat (s + k - rendLineNumberStart (_renderedLines last))))
            with (s + k) by lia.
          reflexivity.
    - (* no frame is saved *)
      simpl in Huntouched. injection Huntouched as Hneeded Hbufs.
      pose proof (all_needed_spec n []) as Hall.
      change (all_needed n 0 [] = replicate n true) in Hall.
      fold n in Hneeded. rewrite Hall in Hneeded.
      intros k Hk.
      assert (Htarget : data target = fill)
        by (unfold target; rewrite <- Hbufs; exact Hdata).
      split; [rewrite Htarget; exact Hfilllen|].
      left. split.
      + rewrite <- Hneeded. apply truthy_at_replicate. exact Hk.
      + rewrite Htarget. reflexivity. }
  (* the frame that is saved *)
  rewrite Hthis'. unfold shows_document.
  cbn [_lastRenderData _buffers_ _options _renderedLines _imageData _buffers
       rendLineNumberStart lines _set _backgroundFillData].
  rewrite deref_assign_same. cbn [with_data width data].
  fold mlh n target. rewrite Hwb.
  destruct (Hserves s e needed) as [Htabsize Hdoc]. cbv zeta in Htabsize, Hdoc.
  rewrite Htabsize.
  set (lineData := lineInfo_data (getMinimapLinesRenderingData env s e needed)) in *.
  intros k0 record Hlookup Hvalid.
  rewrite render_rows_records in Hlookup by reflexivity.
  rewrite app_nil_l, list_lookup_fmap in Hlookup.
  assert (Hk0 : (k0 < n)%nat).
  { destruct (decide (k0 < n)%nat) as [Hlt0 | Hge]; [exact Hlt0|].
    rewrite (lookup_ge_None_2 (seq 0 n)) in Hlookup by (rewrite length_seq; lia).
    discriminate. }
  rewrite lookup_seq_lt in Hlookup by exact Hk0. simpl in Hlookup.
  injection Hlookup as <-. cbn [dy].
  set (k := Z.of_nat k0).
  destruct (Hrow k ltac:(unfold k; lia)) as [Hlen Hcase].
  rewrite render_rows_pixels by reflexivity.
  pose proof (render_rows_band K env target (getColor env (DefaultBackground env))
                (backgroundIsLight env) (renderMinimap (_options this)) tabSize needed
                lineData (Z.of_nat n) HK Hlocal Htab ltac:(rewrite Hwb; exact HW0)
                ltac:(rewrite Hhb; exact Hfit)
                (seqZ 0 (Z.of_nat n)) (data target) k (NoDup_seqZ _ _)) as Hband.
  fold mlh in Hband. rewrite Hwb, Hhb in Hband.
  replace (0 + k * mlh) with (k * mlh) by lia.
  rewrite Hband; cycle 1.
  { intros j Hj. apply elem_of_seqZ in Hj. lia. }
  { unfold k; lia. }
  { exact Hlen. }
  destruct (decide (k ∈ seqZ 0 (Z.of_nat n))) as [_ | Hout];
    [|exfalso; apply Hout, elem_of_seqZ; unfold k; lia].
  assert (Hmlh : mlh <= HEIGHT) by (unfold k in *; nia).
  destruct Hcase as [[Htruthy Hbytes] | [Hfalsy Hbytes]].
  - (* the row was rasterized *)
    unfold render_row, with_data. rewrite Htruthy. rewrite !Hwb, Hhb.
    rewrite (Hdoc k Htruthy).
    assert (Hbandlen : Z.of_nat (length (band WIDTH mlh fill 0)) = mlh * WIDTH * 4)
      by (apply band_length; try lia; rewrite Hfilllen; nia).
    assert (Hscratch :
              scratch_row K env (renderMinimap (_options this)) WIDTH fill tabSize
                (doc (s + k))
              = band WIDTH mlh
                  (foldl (fun d call =>
                            paint env {| width := WIDTH; height := mlh; data := d |} call)
                     (band WIDTH mlh fill 0)
                     (map (at_dy 0)
                        (_renderLine K WIDTH (getColor env (DefaultBackground env))
                           (backgroundIsLight env) (renderMinimap (_options this))
                           (getColor env) 0 tabSize (doc (s + k))))) 0).
    { rewrite band_whole; try lia.
      - unfold scratch_row. fold mlh. rewrite <- _renderLine_at_dy. reflexivity.
      - rewrite (draw_length K env (renderMinimap (_options this)) Hlocal WIDTH mlh).
        exact Hbandlen. }
    rewrite Hscratch. rewrite _renderLine_at_dy.
    apply (draw_band_self K env (renderMinimap (_options this)) Hlocal WIDTH
             HEIGHT mlh); fold mlh; try lia; try nia.
    + apply _renderLine_cells; assumption.
    + rewrite Hbytes. rewrite band_whole by lia.
      rewrite Hfill. apply fill_band; try lia. nia.
  - (* the row was copied *)
    unfold render_row. rewrite Hfalsy. exact Hbytes.
Qed.

(** The stand-in for the character renderer writes within the rows of the
    line, at the same place of the rows wherever they are. *)
Lemma sample_env_row_local (K : Constants) (lineCount : Z)
    (renderMinimap : RenderMinimap) :
  positive_cells K -> row_local K (sample_env lineCount) renderMinimap.
Proof.
  intros HK.
  pose proof (pitch_positive K renderMinimap HK) as Hpitch.
  pose proof (charWidth_positive K renderMinimap HK) as Hcw.
  split.
  - intros img call. simpl. apply length_insert.
  - intros img call x (Hsize & Hdx0 & Hdx1 & Hdy & Hfit) Hout.
    cbn [paint sample_env]. unfold byte_at.
    destruct (Z.ltb_spec x 0); [reflexivity|].
    unfold Uint8ClampedArray. apply list_lookup_insert_ne. nia.
  - intros img1 img2 call dy1 dy2 Hwidth Hin1 Hin2 mlh Hband.
    destruct (call_at_dy dy1 call) as [Ex1 Ey1].
    destruct (call_at_dy dy2 call) as [Ex2 Ey2].
    destruct Hin1 as (Hsize1 & Hdx0 & Hdx1 & Hdy1 & Hfit1).
    destruct Hin2 as (Hsize2 & _ & _ & Hdy2 & Hfit2).
    rewrite Ex1, Ey1 in *. rewrite Ey2 in *. rewrite <- Hwidth in *.
    fold mlh in Hfit1, Hfit2.
    assert (Hlen1 : (dy1 + mlh) * width img1 * 4 <= Z.of_nat (length (data img1)))
      by (rewrite Hsize1; nia).
    assert (Hlen2 : (dy2 + mlh) * width img1 * 4 <= Z.of_nat (length (data img2)))
      by (rewrite Hsize2; nia).
    cbn [paint sample_env]. rewrite Ex1, Ey1, Ex2, Ey2, <- Hwidth.
    assert (HW : 0 <= width img1) by lia.
    apply band_ext; try lia; try (unfold Uint8ClampedArray; rewrite length_insert; lia).
    intros j Hj.
    pose proof (band_bytes (width img1) mlh (data img1) (data img2) dy1 dy2
                  HW ltac:(lia) Hdy1 Hlen1 Hdy2 Hlen2 Hband j Hj) as Hsame.
    unfold byte_at in *.
    destruct (Z.ltb_spec (dy1 * width img1 * 4 + j) 0); [nia|].
    destruct (Z.ltb_spec (dy2 * width img1 * 4 + j) 0); [nia|].
    unfold Uint8ClampedArray in *.
    destruct (Z.eq_dec j (call_dx call * 4)) as [-> | Hj'].
    + replace (Z.to_nat (dy1 * width img1 * 4 + call_dx call * 4))
        with (Z.to_nat ((dy1 * width img1 + call_dx call) * 4)) by lia.
      replace (Z.to_nat (dy2 * width img1 * 4 + call_dx call * 4))
        with (Z.to_nat ((dy2 * width img1 + call_dx call) * 4)) by lia.
      rewrite !list_lookup_insert_eq by nia. reflexivity.
    + rewrite !list_lookup_insert_ne by lia. exact Hsame.
Qed.

Lemma second_frame_completes :
  render sample_cells (sample_env 10) after_first_frame scrolled
  = Ok after_second_frame.
Proof. vm_compute. reflexivity. Qed.

(** The first two frames of the 10 line document: the second copies the
    rows of the lines 2 to 4 from the first and rasterizes line 5, and every
    row it saves is that of its line drawn alone. *)
Lemma render_shows_document_witness :
  coherent sample_cells after_second_frame 3 8
  /\ canvas_buffers after_second_frame 3 8
  /\ shows_document sample_cells (sample_env 10) (fun _ => a_tab_b 1) 4
       after_second_frame.
Proof.
  assert (HK : positive_cells sample_cells) by (unfold positive_cells; simpl; lia).
  assert (Hserves : serves_document (sample_env 10) (fun _ => a_tab_b 1) 4).
  { intros s e needed. split; [reflexivity|]. intros k _. reflexivity. }
  destruct (render_shows_document sample_cells (sample_env 10) (fun _ => a_tab_b 1) 4
              (fresh narrow_minimap) after_first_frame at_top 3 8)
    as (Hcoherent & Hfilled & Hshows).
  - exact HK.
  - discriminate.
  - lia.
  - apply sample_env_row_local, HK.
  - exact Hserves.
  - apply fresh_coherent; [reflexivity | reflexivity | lia | lia].
  - intros buffers Hnone. discriminate.
  - exact I.
  - apply first_frame_completes.
  - apply (render_shows_document sample_cells (sample_env 10) (fun _ => a_tab_b 1) 4
             after_first_frame after_second_frame scrolled 3 8).
    + exact HK.
    + discriminate.
    + lia.
    + apply sample_env_row_local, HK.
    + exact Hserves.
    + exact Hcoherent.
    + exact Hfilled.
    + exact Hshows.
    + exact second_frame_completes.
Defined.

(** * The layout in binary64 *)

Local Close Scope Z_scope.

(** ** The rounding of binary64 *)

Local Open Scope Q_scope.

Lemma nearest_even_near (x : Q) :
  inject_Z (Binary64.nearest_even x) - x <= 1 # 2
  /\ x - inject_Z (Binary64.nearest_even x) <= 1 # 2.
Proof.
  unfold Binary64.nearest_even.
  pose proof (Qfloor_le x) as Hlo. pose proof (Qlt_floor x) as Hhi.
  rewrite inject_Z_plus in Hhi. change (inject_Z 1) with 1 in Hhi.
  destruct (x - inject_Z (Qfloor x) ?= 1 # 2) eqn:Hc.
  - apply Qeq_alt in Hc.
    destruct (Z.even (Qfloor x)); [|rewrite inject_Z_plus; change (inject_Z 1) with 1];
      split; lra.
  - apply Qlt_alt in Hc. split; lra.
  - apply Qgt_alt in Hc. rewrite inject_Z_plus. change (inject_Z 1) with 1. split; lra.
Qed.

Lemma nearest_even_nonneg (x : Q) : 0 <= x -> (0 <= Binary64.nearest_even x)%Z.
Proof.
  intros Hx. unfold Binary64.nearest_even.
  assert (H0 : (0 <= Qfloor x)%Z).
  { change 0%Z with (Qfloor 0). apply Qfloor_resp_le. exact Hx. }
  destruct (_ ?= _); [destruct (Z.even _)|..]; lia.
Qed.

Lemma pow2_pos (e : Z) : 0 < 2 ^ e.
Proof. apply Qpower_0_lt. reflexivity. Qed.

(** [2 ^ ilog2 x] is at most [x]. *)
Lemma ilog2_le (x : Q) : 0 < x -> 2 ^ Binary64.ilog2 x <= x.
Proof.
  intros Hx. unfold Binary64.ilog2.
  set (k := (Z.log2 (Qnum x) - Z.log2 (Z.pos (Qden x)))%Z).
  destruct (Qle_bool (2 ^ k) x) eqn:Htest; [apply Qle_bool_iff; exact Htest|].
  destruct x as [n d]. cbn [Qnum Qden] in *.
  assert (Hn : (0 < n)%Z) by (unfold Qlt in Hx; simpl in Hx; lia).
  pose proof (Z.log2_spec n Hn) as [Hn1 _].
  pose proof (Z.log2_spec (Z.pos d) ltac:(lia)) as [_ Hd2].
  pose proof (Z.log2_nonneg n) as Ha. pose proof (Z.log2_nonneg (Z.pos d)) as Hb.
  set (a := Z.log2 n) in *. set (b := Z.log2 (Z.pos d)) in *.
  replace (k - 1)%Z with (a - (b + 1))%Z by (unfold k; lia).
  rewrite Qpower_minus by discriminate.
  rewrite <- (Zpower_Qpower 2 a) by exact Ha.
  rewrite <- (Zpower_Qpower 2 (b + 1)) by lia.
  assert (Hpos : (0 < 2 ^ (b + 1))%Z) by (apply Z.pow_pos_nonneg; lia).
  rewrite (Qmake_Qdiv n d).
  apply Qle_shift_div_l; [change 0 with (inject_Z 0); rewrite <- Zlt_Qlt; lia|].
  unfold Qdiv. rewrite <- Qmult_assoc, (Qmult_comm (/ _)), Qmult_assoc.
  apply Qle_shift_div_r; [change 0 with (inject_Z 0); rewrite <- Zlt_Qlt; exact Hpos|].
  rewrite <- !inject_Z_mult, <- Zle_Qle.
  change (Z.succ b) with (b + 1)%Z in Hd2. nia.
Qed.

(** The rounding of a positive number: the nearest value [y] is within
    [u * x + eta] of [x], and the result is [y], or [Infinity] when [y]
    is out of range. *)
Lemma nearest_pos_spec (x : Q) :
  0 < x ->
  exists y : Q,
    0 <= y /\ y - x <= Binary64.u * x + Binary64.eta
    /\ x - y <= Binary64.u * x + Binary64.eta
    /\ ((y < Binary64.huge
         /\ exists y', Binary64.nearest_pos x = Fin y' /\ y' == y)
        \/ (Binary64.huge <= y /\ Binary64.nearest_pos x = PInf)).
Proof.
  intros Hx. unfold Binary64.nearest_pos.
  set (e := Z.max (Binary64.ilog2 x - 52) (-1074)).
  set (m := Binary64.nearest_even (x / 2 ^ e)).
  pose proof (pow2_pos e) as He.
  assert (Hscaled : 0 <= x / 2 ^ e) by (apply Qle_shift_div_l; [exact He | lra]).
  pose proof (nearest_even_nonneg _ Hscaled) as Hm. fold m in Hm.
  destruct (nearest_even_near (x / 2 ^ e)) as [Hup Hdown]. fold m in Hup, Hdown.
  assert (Hback : x / 2 ^ e * 2 ^ e == x) by (field; lra).
  assert (Herr : 2 ^ e * (1 # 2) <= Binary64.u * x + Binary64.eta).
  { assert (Hu : 0 <= Binary64.u * x)
      by (apply Qmult_le_0_compat; [discriminate | lra]).
    assert (Heta : 0 <= Binary64.eta) by discriminate.
    destruct (Z.max_spec (Binary64.ilog2 x - 52) (-1074)) as [[_ Hmax] | [_ Hmax]];
      fold e in Hmax; rewrite Hmax.
    - assert (Hval : 2 ^ (-1074) * (1 # 2) == Binary64.eta) by reflexivity.
      rewrite Hval. lra.
    - unfold Z.sub. rewrite Qpower_plus by discriminate.
      pose proof (ilog2_le x Hx) as Hlog.
      assert (Hval : 2 ^ (-52) * (1 # 2) == Binary64.u) by reflexivity.
      rewrite <- Qmult_assoc, Hval.
      rewrite (Qmult_comm Binary64.u).
      assert (Hmono : 2 ^ Binary64.ilog2 x * Binary64.u <= x * Binary64.u)
        by (apply Qmult_le_compat_r; [exact Hlog | discriminate]).
      lra. }
  set (y := inject_Z m * 2 ^ e) in *.
  assert (Hy0 : 0 <= y).
  { unfold y. apply Qmult_le_0_compat; [|lra].
    change 0 with (inject_Z 0). rewrite <- Zle_Qle. exact Hm. }
  assert (Hyx : y - x == (inject_Z m - x / 2 ^ e) * 2 ^ e).
  { unfold y. set (p := 2 ^ e) in *. field. lra. }
  assert (Hyup : y - x <= 2 ^ e * (1 # 2)).
  { rewrite Hyx, (Qmult_comm (2 ^ e)).
    apply Qmult_le_compat_r; [exact Hup | lra]. }
  assert (Hydown : x - y <= 2 ^ e * (1 # 2)).
  { assert (Hxy : x - y == (x / 2 ^ e - inject_Z m) * 2 ^ e).
    { assert (Hopp : x - y == - (y - x)) by ring. rewrite Hopp, Hyx. ring. }
    rewrite Hxy, (Qmult_comm (2 ^ e)).
    apply Qmult_le_compat_r; [exact Hdown | lra]. }
  exists y. split; [exact Hy0|]. split; [lra|]. split; [lra|].
  destruct (Qle_bool Binary64.huge y) eqn:Hover.
  - right. apply Qle_bool_iff in Hover. split; [exact Hover | reflexivity].
  - left. split.
    + apply Qnot_le_lt. intros Hle. apply Qle_bool_iff in Hle. congruence.
    + exists (Qred y). split; [reflexivity | apply Qred_correct].
Qed.

(** The rounding of a number that is not negative. *)
Lemma nearest_nonneg_spec (x : Q) :
  0 <= x ->
  exists y : Q,
    0 <= y /\ y - x <= Binary64.u * x + Binary64.eta
    /\ x - y <= Binary64.u * x + Binary64.eta
    /\ ((y < Binary64.huge
         /\ exists y', Binary64.nearest x = Fin y' /\ y' == y)
        \/ (Binary64.huge <= y /\ Binary64.nearest x = PInf)).
Proof.
  intros Hx. unfold Binary64.nearest.
  destruct (x ?= 0) eqn:Hc.
  - apply Qeq_alt in Hc. exists 0. rewrite Hc.
    split; [lra|]. split; [discriminate|]. split; [discriminate|].
    left. split; [reflexivity|]. exists 0. split; reflexivity.
  - apply Qlt_alt in Hc. lra.
  - apply Qgt_alt in Hc. apply nearest_pos_spec. exact Hc.
Qed.

Lemma rounded_nonneg (x : Q) : 0 <= x -> Binary64.nonneg (Binary64.nearest x).
Proof.
  intros Hx.
  destruct (nearest_nonneg_spec x Hx)
    as (y & Hy & _ & _ & [(Hfin & y' & -> & Hy') | (_ & ->)]); simpl; [|exact I].
  rewrite Hy'. split; assumption.
Qed.

(** A positive finite result is below the bound of binary64. *)
Lemma nearest_positive_bound (x d : Q) :
  Binary64.nearest x = Fin d -> 0 < d -> d < Binary64.huge.
Proof.
  unfold Binary64.nearest. destruct (x ?= 0) eqn:Hc.
  - intros [= <-] H. lra.
  - destruct (Binary64.nearest_pos (- x)) as [q| | |] eqn:Hq; simpl; try discriminate.
    apply Qlt_alt in Hc.
    destruct (nearest_pos_spec (- x) ltac:(lra))
      as (y & Hy & _ & _ & [(_ & y' & E & Hy') | (_ & E)]); rewrite E in Hq;
      [|discriminate].
    injection Hq as <-. intros [= <-] H. lra.
  - apply Qgt_alt in Hc.
    destruct (nearest_pos_spec x Hc)
      as (y & Hy & _ & _ & [(Hfin & y' & -> & Hy') | (_ & ->)]); [|discriminate].
    intros [= <-] _. lra.
Qed.

Lemma mul_nonneg (x : number) (c : Q) :
  Binary64.nonneg x -> 0 < c -> Binary64.nonneg (Binary64.mul x (Fin c)).
Proof.
  intros Hx Hc. destruct x as [q| | |]; simpl in Hx; try contradiction.
  - unfold Binary64.mul. cbn [mul Binary64.rounded]. apply rounded_nonneg.
    apply Qmult_le_0_compat; lra.
  - unfold Binary64.mul. cbn [mul]. unfold signed_inf.
    rewrite (Qcompare_pos c Hc). exact I.
Qed.

Lemma div_nonneg (x : number) (c : Q) :
  Binary64.nonneg x -> 0 < c -> Binary64.nonneg (Binary64.div x (Fin c)).
Proof.
  intros Hx Hc. destruct x as [q| | |]; simpl in Hx; try contradiction.
  - unfold Binary64.div. cbn [div]. rewrite (Qcompare_pos c Hc).
    cbn [Binary64.rounded]. apply rounded_nonneg.
    apply Qle_shift_div_l; lra.
  - unfold Binary64.div. cbn [div]. rewrite (Qcompare_pos c Hc). exact I.
Qed.

(** ** The slider, with rounding *)

(** The slider of a layout does not depend on which of the two branches
    builds it. *)
Lemma create64_slider (K : Constants) (options : MinimapOptions)
    (vStart vEnd vHeight : number) (gaps : bool)
    (lineCount center scrollTop scrollHeight : number) :
  let L := MinimapLayout64.create K options vStart vEnd vHeight gaps
             lineCount center scrollTop scrollHeight in
  let pitch := of_Z (getMinimapLineHeight K (renderMinimap options)) in
  MinimapLayout._computedSliderRatio L =
    (min (minimapHeight options - MinimapLayout.sliderHeight L)%b64
         ((lineCount - of_Z 1) * pitch / pixelRatio options)%b64
     / (scrollHeight - vHeight))%b64 /\
  MinimapLayout.sliderTop L = (scrollTop * MinimapLayout._computedSliderRatio L)%b64.
Proof.
  unfold MinimapLayout64.create. cbv zeta.
  destruct (geb (floor (Binary64.div (canvasInnerHeight options) _)) lineCount);
    cbn [MinimapLayout._computedSliderRatio MinimapLayout.sliderTop
         MinimapLayout.sliderHeight]; split; reflexivity.
Qed.

(** The arithmetic of the slider top: three roundings above the exact
    bound [x], each adding at most [u] of the value and [eta]. *)
Lemma slider_top_rounded (st d m r t x : Q) :
  0 <= st -> st <= d -> 0 < d -> d < Binary64.huge ->
  0 <= x -> m <= (1 + Binary64.u) * x + Binary64.eta ->
  0 <= r -> r - m / d <= Binary64.u * (m / d) + Binary64.eta ->
  t - st * r <= Binary64.u * (st * r) + Binary64.eta ->
  t <= x + (x + 1) * Binary64.slack.
Proof.
  intros Hst0 Hst1 Hd0 Hd1 Hx Hm Hr0 Hr Ht.
  assert (H2 : st * r <= d * r) by (apply Qmult_le_compat_r; assumption).
  assert (H3 : d * r <= (1 + Binary64.u) * m + d * Binary64.eta).
  { assert (Hback : d * (m / d) == m) by (field; lra).
    assert (Hscaled : d * r <= d * ((1 + Binary64.u) * (m / d) + Binary64.eta)).
    { apply Qmult_le_l; [exact Hd0|]. lra. }
    assert (Hexp : d * ((1 + Binary64.u) * (m / d) + Binary64.eta)
                   == (1 + Binary64.u) * (d * (m / d)) + d * Binary64.eta) by ring.
    rewrite Hexp, Hback in Hscaled. exact Hscaled. }
  set (P := st * r) in *. set (Dr := d * r) in *.
  unfold Binary64.u, Binary64.eta, Binary64.huge, Binary64.slack in *.
  lra.
Qed.

Lemma rounded_not_finite (x : number) :
  is_finite x = false -> is_finite (Binary64.rounded x) = false.
Proof. destruct x; simpl; congruence. Qed.

Lemma rounded_positive_bound (z : number) (d : Q) :
  Binary64.rounded z = Fin d -> 0 < d -> d < Binary64.huge.
Proof.
  destruct z as [q| | |]; simpl; try discriminate. apply nearest_positive_bound.
Qed.

(** The travel of the slider, [maxMinimapSliderTop]: at most the rounded
    [x], whatever the other argument of [Math.min] is. *)
Lemma slider_travel (x : Q) (B : number) :
  0 <= x -> Binary64.nonneg B ->
  min (Binary64.nearest x) B = PInf
  \/ exists m, min (Binary64.nearest x) B = Fin m
               /\ 0 <= m /\ m <= (1 + Binary64.u) * x + Binary64.eta.
Proof.
  intros Hx HB.
  destruct (nearest_nonneg_spec x Hx)
    as (y & Hy & Hup & _ & [(Hfin & a & -> & Ha) | (Hhuge & ->)]).
  - right. destruct B as [b| | |]; simpl in HB; try contradiction.
    + simpl. destruct (b ?= a) eqn:Hc.
      * exists a. split; [reflexivity|]. lra.
      * apply Qlt_alt in Hc. exists b. split; [reflexivity|]. lra.
      * exists a. split; [reflexivity|]. lra.
    + exists a. split; [reflexivity|]. lra.
  - destruct B as [b| | |]; simpl in HB; try contradiction.
    + right. exists b. split; [reflexivity|]. lra.
    + left. reflexivity.
Qed.

(** The slider top from the travel [M] and the scrollable range. *)
Lemma slider_top_bound (M z : number) (st x : Q) :
  0 <= x ->
  M = PInf
  \/ (exists m, M = Fin m /\ 0 <= m /\ m <= (1 + Binary64.u) * x + Binary64.eta) ->
  let range := Binary64.rounded z in
  (of_Z 0 <? range)%num = true ->
  0 <= st -> (Fin st <=? range)%num = true ->
  let top := (Fin st * (M / range))%b64 in
  is_finite top = true ->
  exists t : Q, top = Fin t /\ 0 <= t /\ t <= x + (x + 1) * Binary64.slack.
Proof.
  intros Hx HM range Hrange0 Hst0 Hst1 top Hfin.
  assert (Hcases : range = PInf
                   \/ exists d, range = Fin d /\ 0 < d /\ st <= d /\ d < Binary64.huge).
  { destruct range as [d| | |] eqn:Hr; try discriminate; [right | left; reflexivity].
    apply ltb_Fin in Hrange0. apply leb_Fin in Hst1.
    exists d. split; [reflexivity|]. split; [exact Hrange0|]. split; [exact Hst1|].
    apply (rounded_positive_bound z d Hr Hrange0). }
  destruct HM as [-> | (m & -> & Hm0 & Hm1)].
  { exfalso. unfold top in Hfin.
    destruct Hcases as [-> | (d & -> & Hd0 & _)].
    - unfold Binary64.div, Binary64.mul in Hfin. cbn [div Binary64.rounded mul] in Hfin.
      discriminate.
    - unfold Binary64.div, Binary64.mul in Hfin. cbn [div] in Hfin.
      rewrite (Qcompare_pos d Hd0) in Hfin. cbn [Binary64.rounded mul] in Hfin.
      rewrite rounded_not_finite in Hfin; [discriminate|].
      apply signed_inf_not_finite. reflexivity. }
  destruct Hcases as [-> | (d & -> & Hd0 & Hd1 & Hd2)].
  - exists 0. unfold top, Binary64.div, Binary64.mul. cbn [div Binary64.rounded].
    change (Binary64.nearest 0) with (Fin 0). cbn [mul Binary64.rounded].
    assert (Hzero : Binary64.nearest (st * 0) = Fin 0).
    { unfold Binary64.nearest. rewrite Qcompare_zero by ring. reflexivity. }
    rewrite Hzero. split; [reflexivity|]. split; [lra|].
    unfold Binary64.slack. lra.
  - unfold top, Binary64.div in *. rewrite div_Fin in * by lra.
    cbn [Binary64.rounded] in *.
    assert (Hq : 0 <= m / d) by (apply Qle_shift_div_l; lra).
    destruct (nearest_nonneg_spec (m / d) Hq)
      as (yr & Hyr & Hrup & _ & [(_ & r & Er & Hr) | (_ & Er)]); rewrite Er in *.
    2:{ exfalso. unfold Binary64.mul in Hfin. cbn [mul] in Hfin.
        rewrite rounded_not_finite in Hfin; [discriminate|].
        apply signed_inf_not_finite. reflexivity. }
    unfold Binary64.mul in *. cbn [mul Binary64.rounded] in *.
    assert (Hr0 : 0 <= r) by lra.
    assert (Hp : 0 <= st * r) by (apply Qmult_le_0_compat; assumption).
    destruct (nearest_nonneg_spec (st * r) Hp)
      as (yt & Hyt & Htup & _ & [(_ & t & Et & Ht) | (_ & Et)]); rewrite Et in *;
      [|discriminate].
    exists t. split; [reflexivity|]. split; [lra|].
    apply (slider_top_rounded st d m r t x); try assumption; lra.
Qed.

(** C7, amended.  For a layout computed in binary64 from a positive pixel
    ratio and at least one line, when the document scrolls (the scrollable
    range [scrollHeight - viewportHeight], as computed, is positive), the
    scroll offset lies between 0 and that range, the slider height is
    finite and at most the container's, and the slider top is finite (no
    operation overflowed), the slider lies within the container up to the
    rounding of three operations: [0 <= sliderTop], and [sliderTop +
    sliderHeight] exceeds [minimapHeight] by at most [2 ^ -50] of the
    slider's travel [minimapHeight - sliderHeight] plus one. *)
Theorem create_slider_within_container (K : Constants) (options : MinimapOptions)
    (vStart vEnd vHeight : number) (gaps : bool) (center scrollHeight : number)
    (pr containerHeight lineCount scrollTop sliderHeight : Q) :
  positive_cells K ->
  pixelRatio options = Fin pr -> 0 < pr ->
  minimapHeight options = Fin containerHeight ->
  1 <= lineCount ->
  let L := MinimapLayout64.create K options vStart vEnd vHeight gaps
             (Fin lineCount) center (Fin scrollTop) scrollHeight in
  let range := (scrollHeight - vHeight)%b64 in
  (of_Z 0 <? range)%num = true ->
  0 <= scrollTop -> (Fin scrollTop <=? range)%num = true ->
  MinimapLayout.sliderHeight L = Fin sliderHeight ->
  sliderHeight <= containerHeight ->
  is_finite (MinimapLayout.sliderTop L) = true ->
  exists sliderTop : Q,
    MinimapLayout.sliderTop L = Fin sliderTop
    /\ 0 <= sliderTop
    /\ sliderTop + sliderHeight
       <= containerHeight + (containerHeight - sliderHeight + 1) * Binary64.slack.
Proof.
  intros HK Hpr Hpr0 Hmh Hlc L range Hrange0 Hst0 Hst1 Hsh Hfit Hfin.
  destruct (create64_slider K options vStart vEnd vHeight gaps
              (Fin lineCount) center (Fin scrollTop) scrollHeight) as [Hratio Htop].
  fold L in Hratio, Htop. rewrite Htop, Hratio in *. clear Htop Hratio.
  rewrite Hsh, Hpr, Hmh in *.
  pose proof (pitch_positive K (renderMinimap options) HK) as Hpitch.
  set (pitch := getMinimapLineHeight K (renderMinimap options)) in *.
  set (B := ((Fin lineCount - of_Z 1) * of_Z pitch / Fin pr)%b64) in *.
  assert (HB : Binary64.nonneg B).
  { unfold B. apply div_nonneg; [|exact Hpr0]. unfold of_Z at 2. apply mul_nonneg.
    - unfold Binary64.sub, of_Z. cbn [sub add neg Binary64.rounded].
      apply rounded_nonneg. change (inject_Z 1) with 1. lra.
    - change 0 with (inject_Z 0). rewrite <- Zlt_Qlt. exact Hpitch. }
  assert (Hx : 0 <= containerHeight + - sliderHeight) by lra.
  pose proof (slider_travel _ B Hx HB) as HM.
  change (Binary64.nearest (containerHeight + - sliderHeight))
    with (Fin containerHeight - Fin sliderHeight)%b64 in HM.
  destruct (slider_top_bound _ (Number.sub scrollHeight vHeight) scrollTop
              (containerHeight + - sliderHeight) Hx HM Hrange0 Hst0 Hst1 Hfin)
    as (t & Et & Ht0 & Ht1).
  exists t. split; [exact Et|]. split; [exact Ht0|].
  unfold Binary64.slack in *. lra.
Qed.

(** The same arithmetic from below, at the largest scroll offset. *)
Lemma slider_top_rounded_below (d m r t : Q) :
  0 < d -> d < Binary64.huge -> 0 <= m ->
  0 <= r -> m / d - r <= Binary64.u * (m / d) + Binary64.eta ->
  d * r - t <= Binary64.u * (d * r) + Binary64.eta ->
  m - (m + 1) * Binary64.slack <= t.
Proof.
  intros Hd0 Hd1 Hm Hr0 Hr Ht.
  assert (H3 : (1 - Binary64.u) * m - d * Binary64.eta <= d * r).
  { assert (Hback : d * (m / d) == m) by (field; lra).
    assert (Hscaled : d * ((1 - Binary64.u) * (m / d) - Binary64.eta) <= d * r).
    { apply Qmult_le_l; [exact Hd0|]. lra. }
    assert (Hexp : d * ((1 - Binary64.u) * (m / d) - Binary64.eta)
                   == (1 - Binary64.u) * (d * (m / d)) - d * Binary64.eta) by ring.
    rewrite Hexp, Hback in Hscaled. exact Hscaled. }
  set (Dr := d * r) in *.
  unfold Binary64.u, Binary64.eta, Binary64.huge, Binary64.slack in *.
  lra.
Qed.

(** X3.  The slider is at the top for the scroll offset 0 and, up to the
    rounding of two operations, has travelled its whole way for the largest
    scroll offset.  In binary64, for a document that scrolls, a travel
    [maxMinimapSliderTop] that is a number from 0 on and a slider top at
    the largest scroll offset that is finite: the slider top is 0 at the
    scroll offset 0, and at the largest scroll offset, the scrollable range
    as computed, it is within [2 ^ -50] of the travel plus one of the
    travel. *)
Theorem create_slider_extremes (K : Constants) (options : MinimapOptions)
    (vStart vEnd vHeight : number) (gaps : bool)
    (lineCount center scrollHeight : number) (travel : Q) :
  let range := (scrollHeight - vHeight)%b64 in
  let top := MinimapLayout64.create K options vStart vEnd vHeight gaps
               lineCount center (of_Z 0) scrollHeight in
  let bottom := MinimapLayout64.create K options vStart vEnd vHeight gaps
                  lineCount center range scrollHeight in
  let minimapLineHeight := of_Z (getMinimapLineHeight K (renderMinimap options)) in
  let maxMinimapSliderTop :=
    min (minimapHeight options - MinimapLayout.sliderHeight bottom)%b64
        ((lineCount - of_Z 1) * minimapLineHeight / pixelRatio options)%b64 in
  (of_Z 0 <? range)%num = true ->
  maxMinimapSliderTop = Fin travel -> 0 <= travel ->
  is_finite (MinimapLayout.sliderTop bottom) = true ->
  MinimapLayout.sliderTop top = of_Z 0
  /\ exists sliderTop : Q,
       MinimapLayout.sliderTop bottom = Fin sliderTop
       /\ travel - (travel + 1) * Binary64.slack <= sliderTop
       /\ sliderTop <= travel + (travel + 1) * Binary64.slack.
Proof.
  intros range top bottom pitch maxTop Hrange0 Hm Hm0 Hfin.
  destruct (create64_slider K options vStart vEnd vHeight gaps
              lineCount center (of_Z 0) scrollHeight) as [Hr1 Ht1].
  destruct (create64_slider K options vStart vEnd vHeight gaps
              lineCount center range scrollHeight) as [Hr2 Ht2].
  fold top in Hr1, Ht1. fold bottom in Hr2, Ht2.
  assert (Hsame : MinimapLayout.sliderHeight top = MinimapLayout.sliderHeight bottom).
  { unfold top, bottom, MinimapLayout64.create. cbv zeta.
    destruct (geb (floor (Binary64.div (canvasInnerHeight options) _)) lineCount);
      reflexivity. }
  rewrite Hsame in Hr1. fold pitch maxTop range in Hr1, Hr2.
  rewrite Ht1, Hr1. rewrite Ht2, Hr2 in Hfin |- *. rewrite Hm in *.
  clear Ht1 Ht2 Hr1 Hr2 Hsame.
  assert (Hd : exists d, range = Fin d /\ 0 < d /\ d < Binary64.huge).
  { destruct range as [d| | |] eqn:Hr; try discriminate.
    apply ltb_Fin in Hrange0. exists d. split; [reflexivity|].
    split; [exact Hrange0|].
    apply (rounded_positive_bound (Number.sub scrollHeight vHeight) d Hr Hrange0). }
  destruct Hd as (d & -> & Hd0 & Hd1).
  unfold Binary64.div in *. rewrite div_Fin in * by lra. cbn [Binary64.rounded] in *.
  assert (Hq : 0 <= travel / d) by (apply Qle_shift_div_l; lra).
  destruct (nearest_nonneg_spec (travel / d) Hq)
    as (yr & Hyr & Hrup & Hrdown & [(_ & r & Er & Hr) | (_ & Er)]); rewrite Er in *.
  2:{ exfalso. unfold Binary64.mul in Hfin. cbn [mul] in Hfin.
      rewrite rounded_not_finite in Hfin; [discriminate|].
      apply signed_inf_not_finite. reflexivity. }
  unfold Binary64.mul in *. cbn [mul Binary64.rounded] in *.
  split.
  - unfold of_Z. cbn [mul Binary64.rounded]. unfold Binary64.nearest.
    rewrite Qcompare_zero by (change (inject_Z 0) with 0; ring). reflexivity.
  - assert (Hr0 : 0 <= r) by lra.
    assert (Hp : 0 <= d * r) by (apply Qmult_le_0_compat; lra).
    destruct (nearest_nonneg_spec (d * r) Hp)
      as (yt & Hyt & Htup & Htdown & [(_ & t & Et & Ht) | (_ & Et)]); rewrite Et in *;
      [|discriminate].
    exists t. split; [reflexivity|]. split.
    + apply (slider_top_rounded_below d travel r t); try assumption; lra.
    + apply (slider_top_rounded d d travel r t travel); try assumption; try lra.
      unfold Binary64.u, Binary64.eta. lra.
Qed.

Local Close Scope Z_scope.
Local Open Scope Q_scope.



(** C7, as stated, fails, in three ways.  For the short document, which
    does not scroll, the scroll offset 0 lies in [0 .. scrollHeight -
    viewportHeight] and the slider top is [NaN], so [sliderTop >= 0] is
    false.  With the tiny lines the slider is taller than the container:
    its top is negative, and at scroll offset 0 its bottom, 400, is below
    the container's 100 pixels.  And by rounding: for 500 lines of 19
    pixels in the tall editor, scrolled to the end, the slider may travel
    716 pixels and the ratio [716 / 9481] is rounded, so that the slider
    top is [716 + 2 ^ -43] and the slider ends [2 ^ -43] below the
    container's 800 pixels. *)
Lemma create_slider_outside_container_binary64 :
  (let scrollTop := of_Z 0 in
   let L := MinimapLayout64.create sample_cells short_document
              (of_Z 1) (of_Z 10) (of_Z 600) false (of_Z 10) (of_Z 0) scrollTop (of_Z 600) in
   (of_Z 0 <=? scrollTop)%num = true /\
   (scrollTop <=? of_Z 600 - of_Z 600)%b64 = true /\
   (MinimapLayout.sliderTop L >=? of_Z 0)%num = false) /\
  (let scrollTop := of_Z 989 in
   let L := MinimapLayout64.create sample_cells tiny_lines
              (of_Z 990) (of_Z 1000) (of_Z 100) false (of_Z 1000) (of_Z 0) scrollTop (of_Z 1099) in
   (of_Z 0 <=? scrollTop)%num = true /\
   (scrollTop <=? of_Z 1099 - of_Z 100)%b64 = true /\
   (MinimapLayout.sliderTop L >=? of_Z 0)%num = false) /\
  (let scrollTop := of_Z 0 in
   let L := MinimapLayout64.create sample_cells tiny_lines
              (of_Z 1) (of_Z 100) (of_Z 100) false (of_Z 1000) (of_Z 0) scrollTop (of_Z 1099) in
   (of_Z 0 <=? scrollTop)%num = true /\
   (scrollTop <=? of_Z 1099 - of_Z 100)%b64 = true /\
   (MinimapLayout.sliderTop L + MinimapLayout.sliderHeight L
    <=? minimapHeight tiny_lines)%b64 = false) /\
  (let scrollTop := of_Z 9481 in
   let L := MinimapLayout64.create sample_cells tall_editor
              (of_Z 500) (of_Z 500) (of_Z 800) false (of_Z 500) (of_Z 0) scrollTop
              (of_Z 10281) in
   (of_Z 0 <=? scrollTop)%num = true /\
   (scrollTop <=? of_Z 10281 - of_Z 800)%b64 = true /\
   MinimapLayout.sliderHeight L = of_Z 84 /\
   MinimapLayout.sliderTop L = Fin (716 + (1 # 2 ^ 43)) /\
   (MinimapLayout.sliderTop L + MinimapLayout.sliderHeight L
    <=? minimapHeight tall_editor)%b64 = false).
Proof.
  cbv zeta. repeat apply conj; vm_compute; reflexivity.
Qed.

(** The 500 lines scrolled to the end: the slider top is [716 + 2 ^ -43]
    and the slider height 84, in a container of 800 pixels. *)
Lemma create_slider_within_container_witness :
  let L := MinimapLayout64.create sample_cells tall_editor
             (of_Z 500) (of_Z 500) (of_Z 800) false (of_Z 500) (of_Z 0) (of_Z 9481)
             (of_Z 10281) in
  exists sliderTop : Q,
    MinimapLayout.sliderTop L = Fin sliderTop
    /\ 0 <= sliderTop
    /\ sliderTop + 84 <= 800 + (800 - 84 + 1) * Binary64.slack.
Proof.
  apply (create_slider_within_container sample_cells tall_editor
           (of_Z 500) (of_Z 500) (of_Z 800) false (of_Z 0) (of_Z 10281)
           1 800 500 9481 84);
    try reflexivity; try (unfold positive_cells; simpl; lia);
    try (vm_compute; congruence).
Defined.

(** The same document at its two ends: the slider top is 0, and
    [716 + 2 ^ -43] for a travel of 716 pixels. *)
Lemma create_slider_extremes_witness :
  let top := MinimapLayout64.create sample_cells tall_editor
               (of_Z 1) (of_Z 43) (of_Z 800) false (of_Z 500) (of_Z 0) (of_Z 0)
               (of_Z 10281) in
  let bottom := MinimapLayout64.create sample_cells tall_editor
                  (of_Z 1) (of_Z 43) (of_Z 800) false (of_Z 500) (of_Z 0)
                  (of_Z 10281 - of_Z 800)%b64 (of_Z 10281) in
  MinimapLayout.sliderTop top = of_Z 0
  /\ exists sliderTop : Q,
       MinimapLayout.sliderTop bottom = Fin sliderTop
       /\ 716 - (716 + 1) * Binary64.slack <= sliderTop
       /\ sliderTop <= 716 + (716 + 1) * Binary64.slack.
Proof.
  apply (create_slider_extremes sample_cells tall_editor
           (of_Z 1) (of_Z 43) (of_Z 800) false (of_Z 500) (of_Z 0) (of_Z 10281) 716);
    try reflexivity; vm_compute; congruence.
Defined.
Local Close Scope Q_scope.
